(** * Hybrid text extraction and LLM-response recovery

    A shallow embedding of two services of the backend,

      - [app/services/ocr_service.py]    (class [OCRService]) and
      - [app/services/parser_service.py] (class [ParserService]),

    of the retry loop and the truncation of the service between them,
    [app/services/llm_service.py] (class [LLMService]), and of the task
    that runs the three on a document, [app/api/v1/endpoints/process.py],
    together with the parts of the Python runtime they rely on (string
    methods, the [re] matcher, [json.loads]), and the properties of the
    design document that concern them.

    Python strings are sequences of Unicode code points; they are modelled
    as lists of code points ([N]).  Integers are unbounded ([Z]/[nat]). *)

From Stdlib Require Import List NArith ZArith Bool Lia Ascii String DecimalString.
From Stdlib Require Import Sorting.Sorted.
Import ListNotations.

Set Implicit Arguments.
Set Warnings "-register-all,-abstract-large-number".

(* ================================================================== *)
(** * Python strings                                                   *)
(* ================================================================== *)

Module Py.

Definition codepoint := N.
Bind Scope N_scope with codepoint.
Definition pystr := list codepoint.

Definition cp (a : ascii) : codepoint := N_of_ascii a.

(** An ASCII literal as a Python string. *)
Definition u (s : string) : pystr := List.map cp (list_ascii_of_string s).

Definition in_range (lo hi c : codepoint) : bool := ((lo <=? c) && (c <=? hi))%N.

Definition mem (c : codepoint) (l : pystr) : bool := existsb (N.eqb c) l.

Fixpoint in_ranges (tbl : list (N * N)) (c : codepoint) : bool :=
  match tbl with
  | [] => false
  | (lo, hi) :: tbl' => in_range lo hi c || in_ranges tbl' c
  end.

Definition pystr_eqb (a b : pystr) : bool :=
  if list_eq_dec N.eq_dec a b then true else false.

(** [str.isspace] on one character, which is also what [\s] matches in a
    [str] pattern and what [str.strip()] and [str.split()] remove. *)
Definition isspace (c : codepoint) : bool :=
  in_range 9 13 c || in_range 28 32 c || (c =? 133)%N || (c =? 160)%N
  || (c =? 5760)%N || in_range 8192 8202 c || (c =? 8232)%N || (c =? 8233)%N
  || (c =? 8239)%N || (c =? 8287)%N || (c =? 12288)%N.

(** Truthiness of a string: [not text] holds of [None] and of the empty string. *)
Definition truthy (s : pystr) : bool :=
  match s with [] => false | _ :: _ => true end.

Fixpoint lstrip (s : pystr) : pystr :=
  match s with
  | c :: s' => if isspace c then lstrip s' else s
  | [] => []
  end.

Definition rstrip (s : pystr) : pystr := rev (lstrip (rev s)).

(** [s.strip()] *)
Definition strip (s : pystr) : pystr := rstrip (lstrip s).

(** [s.startswith(p)], returning the remainder after the prefix. *)
Fixpoint strip_prefix (p s : pystr) : option pystr :=
  match p, s with
  | [], _ => Some s
  | a :: p', b :: s' => if (a =? b)%N then strip_prefix p' s' else None
  | _ :: _, [] => None
  end.

(** [s.replace(old, new)] for a non-empty [old]: every non-overlapping
    occurrence, scanning from the left.  [skip] counts the characters of
    an occurrence that were already replaced. *)
Fixpoint replace_from (old new : pystr) (skip : nat) (s : pystr) : pystr :=
  match s with
  | [] => []
  | c :: s' =>
      match skip with
      | S k => replace_from old new k s'
      | O =>
          match old, strip_prefix old s with
          | _ :: old', Some _ => new ++ replace_from old new (List.length old') s'
          | _, _ => c :: replace_from old new 0 s'
          end
      end
  end.

Definition replace (old new s : pystr) : pystr := replace_from old new 0 s.

(** [s.split(sep)] for a one-character separator. *)
Fixpoint split_on (sep : codepoint) (s : pystr) : list pystr :=
  match s with
  | [] => [[]]
  | c :: s' =>
      match split_on sep s' with
      | cur :: more => if (c =? sep)%N then [] :: cur :: more else (c :: cur) :: more
      | [] => if (c =? sep)%N then [[]; []] else [[c]]
      end
  end.

(** [sep.join(parts)] *)
Fixpoint join (sep : pystr) (parts : list pystr) : pystr :=
  match parts with
  | [] => []
  | [p] => p
  | p :: rest => p ++ sep ++ join sep rest
  end.

(** [s.split()]: the maximal runs of non-whitespace characters. *)
Fixpoint words_from (cur : pystr) (s : pystr) : list pystr :=
  match s with
  | [] => match cur with [] => [] | _ => [rev cur] end
  | c :: s' =>
      if isspace c
      then match cur with [] => words_from [] s' | _ => rev cur :: words_from [] s' end
      else words_from (c :: cur) s'
  end.

Definition split_ws (s : pystr) : list pystr := words_from [] s.

(** [s.count(c)] for a one-character [c]. *)
Definition count (c : codepoint) (s : pystr) : nat :=
  List.length (List.filter (N.eqb c) s).

(** [s.find(c)] for a one-character [c]; [None] stands for [-1]. *)
Fixpoint find (c : codepoint) (s : pystr) : option nat :=
  match s with
  | [] => None
  | d :: s' => if (d =? c)%N then Some O else option_map S (find c s')
  end.

(** [s.rfind(c)] *)
Fixpoint rfind (c : codepoint) (s : pystr) : option nat :=
  match s with
  | [] => None
  | d :: s' =>
      match rfind c s' with
      | Some i => Some (S i)
      | None => if (d =? c)%N then Some O else None
      end
  end.

(** [s[i:j]] for [0 <= i], [0 <= j]. *)
Definition slice (i j : nat) (s : pystr) : pystr := firstn (j - i) (skipn i s).

(** [str(n)] for a non-negative integer. *)
Definition str_of_nat (n : nat) : pystr :=
  u (NilEmpty.string_of_uint (Nat.to_uint n)).

(** [d[k] = v] on a dictionary kept in insertion order: a key that is
    already present keeps its place and takes the new value. *)
Fixpoint dict_set {V : Type} (k : pystr) (v : V) (d : list (pystr * V))
  : list (pystr * V) :=
  match d with
  | [] => [(k, v)]
  | (k', v') :: d' =>
      if pystr_eqb k' k then (k', v) :: d' else (k', v') :: dict_set k v d'
  end.

(** The items of a dictionary display. *)
Definition dict_items {V : Type} (display : list (pystr * V)) : list (pystr * V) :=
  fold_left (fun d kv => dict_set (fst kv) (snd kv) d) display [].

(** What a call into a collaborator does: it returns or it raises an
    [Exception] (whose message is all the services ever look at). *)
Inductive outcome (A : Type) : Type :=
| Returns (a : A)
| Raises (msg : pystr).
Arguments Raises {A} msg.

(** ** [int / int] compared with a float literal

    Python's true division of two integers is the exact quotient rounded
    to the nearest binary64 (ties to even).  A positive binary64 constant
    is [mant / 2^expo] with a 53-bit [mant]; its successor is
    [(mant+1) / 2^expo], so the rounded quotient exceeds the constant
    exactly when the exact quotient lies beyond the midpoint of the two
    --- or on it, when the tie rounds upwards (odd [mant]). *)
Record binary64 := B64 { mant : Z; expo : Z }.
Arguments B64 (mant expo)%_Z_scope.

Definition truediv_gt (a b : Z) (d : binary64) : bool :=
  if Z.even (mant d)
  then ((2 * mant d + 1) * b <? a * 2 ^ (expo d + 1))%Z
  else ((2 * mant d + 1) * b <=? a * 2 ^ (expo d + 1))%Z.

(** [0.01 = 0x1.47ae147ae147bp-7], [0.20 = 0x1.999999999999ap-3],
    [0.80 = 0x1.999999999999ap-1]. *)
Definition f_0_01 : binary64 := B64 5764607523034235 59.
Definition f_0_20 : binary64 := B64 7205759403792794 55.
Definition f_0_80 : binary64 := B64 7205759403792794 53.

End Py.

(* ================================================================== *)
(** * The [re] matcher                                                 *)
(* ================================================================== *)

(** The patterns of the two services use literals, character classes,
    concatenation, alternation, greedy and lazy repetition, one capture
    group, the [MULTILINE] anchors and [\b].  [re] is a backtracking
    matcher: alternatives are tried from the left, a greedy repetition
    tries one more iteration before it tries to stop, a lazy one the other
    way round, and the first way through the whole pattern wins.  The
    matcher below is that search, in continuation-passing style. *)

Module Re.
Import Py.

(** Code points of general category Nd (Unicode 14.0), as inclusive ranges:
    the characters [str.isdecimal] accepts and [\d] matches. *)
Definition decimal_table : list (N * N) :=
  [(48, 57); (1632, 1641); (1776, 1785); (1984, 1993); (2406, 2415);
   (2534, 2543); (2662, 2671); (2790, 2799); (2918, 2927); (3046, 3055);
   (3174, 3183); (3302, 3311); (3430, 3439); (3558, 3567); (3664, 3673);
   (3792, 3801); (3872, 3881); (4160, 4169); (4240, 4249); (6112, 6121);
   (6160, 6169); (6470, 6479); (6608, 6617); (6784, 6793); (6800, 6809);
   (6992, 7001); (7088, 7097); (7232, 7241); (7248, 7257); (42528, 42537);
   (43216, 43225); (43264, 43273); (43472, 43481); (43504, 43513);
   (43600, 43609); (44016, 44025); (65296, 65305); (66720, 66729);
   (68912, 68921); (69734, 69743); (69872, 69881); (69942, 69951);
   (70096, 70105); (70384, 70393); (70736, 70745); (70864, 70873);
   (71248, 71257); (71360, 71369); (71472, 71481); (71904, 71913);
   (72016, 72025); (72784, 72793); (73040, 73049); (73120, 73129);
   (92768, 92777); (92864, 92873); (93008, 93017); (120782, 120831);
   (123200, 123209); (123632, 123641); (125264, 125273); (130032, 130041)]%N.

(** Code points [\w] matches (Unicode 14.0), as inclusive ranges: the
    alphanumeric characters of [str.isalnum] and the underscore. *)
Definition word_table : list (N * N) :=
  [(48, 57); (65, 90); (95, 95); (97, 122); (170, 170); (178, 179);
   (181, 181); (185, 186); (188, 190); (192, 214); (216, 246); (248, 705);
   (710, 721); (736, 740); (748, 748); (750, 750); (880, 884); (886, 887);
   (890, 893); (895, 895); (902, 902); (904, 906); (908, 908); (910, 929);
   (931, 1013); (1015, 1153); (1162, 1327); (1329, 1366); (1369, 1369);
   (1376, 1416); (1488, 1514); (1519, 1522); (1568, 1610); (1632, 1641);
   (1646, 1647); (1649, 1747); (1749, 1749); (1765, 1766); (1774, 1788);
   (1791, 1791); (1808, 1808); (1810, 1839); (1869, 1957); (1969, 1969);
   (1984, 2026); (2036, 2037); (2042, 2042); (2048, 2069); (2074, 2074);
   (2084, 2084); (2088, 2088); (2112, 2136); (2144, 2154); (2160, 2183);
   (2185, 2190); (2208, 2249); (2308, 2361); (2365, 2365); (2384, 2384);
   (2392, 2401); (2406, 2415); (2417, 2432); (2437, 2444); (2447, 2448);
   (2451, 2472); (2474, 2480); (2482, 2482); (2486, 2489); (2493, 2493);
   (2510, 2510); (2524, 2525); (2527, 2529); (2534, 2545); (2548, 2553);
   (2556, 2556); (2565, 2570); (2575, 2576); (2579, 2600); (2602, 2608);
   (2610, 2611); (2613, 2614); (2616, 2617); (2649, 2652); (2654, 2654);
   (2662, 2671); (2674, 2676); (2693, 2701); (2703, 2705); (2707, 2728);
   (2730, 2736); (2738, 2739); (2741, 2745); (2749, 2749); (2768, 2768);
   (2784, 2785); (2790, 2799); (2809, 2809); (2821, 2828); (2831, 2832);
   (2835, 2856); (2858, 2864); (2866, 2867); (2869, 2873); (2877, 2877);
   (2908, 2909); (2911, 2913); (2918, 2927); (2929, 2935); (2947, 2947);
   (2949, 2954); (2958, 2960); (2962, 2965); (2969, 2970); (2972, 2972);
   (2974, 2975); (2979, 2980); (2984, 2986); (2990, 3001); (3024, 3024);
   (3046, 3058); (3077, 3084); (3086, 3088); (3090, 3112); (3114, 3129);
   (3133, 3133); (3160, 3162); (3165, 3165); (3168, 3169); (3174, 3183);
   (3192, 3198); (3200, 3200); (3205, 3212); (3214, 3216); (3218, 3240);
   (3242, 3251); (3253, 3257); (3261, 3261); (3293, 3294); (3296, 3297);
   (3302, 3311); (3313, 3314); (3332, 3340); (3342, 3344); (3346, 3386);
   (3389, 3389); (3406, 3406); (3412, 3414); (3416, 3425); (3430, 3448);
   (3450, 3455); (3461, 3478); (3482, 3505); (3507, 3515); (3517, 3517);
   (3520, 3526); (3558, 3567); (3585, 3632); (3634, 3635); (3648, 3654);
   (3664, 3673); (3713, 3714); (3716, 3716); (3718, 3722); (3724, 3747);
   (3749, 3749); (3751, 3760); (3762, 3763); (3773, 3773); (3776, 3780);
   (3782, 3782); (3792, 3801); (3804, 3807); (3840, 3840); (3872, 3891);
   (3904, 3911); (3913, 3948); (3976, 3980); (4096, 4138); (4159, 4169);
   (4176, 4181); (4186, 4189); (4193, 4193); (4197, 4198); (4206, 4208);
   (4213, 4225); (4238, 4238); (4240, 4249); (4256, 4293); (4295, 4295);
   (4301, 4301); (4304, 4346); (4348, 4680); (4682, 4685); (4688, 4694);
   (4696, 4696); (4698, 4701); (4704, 4744); (4746, 4749); (4752, 4784);
   (4786, 4789); (4792, 4798); (4800, 4800); (4802, 4805); (4808, 4822);
   (4824, 4880); (4882, 4885); (4888, 4954); (4969, 4988); (4992, 5007);
   (5024, 5109); (5112, 5117); (5121, 5740); (5743, 5759); (5761, 5786);
   (5792, 5866); (5870, 5880); (5888, 5905); (5919, 5937); (5952, 5969);
   (5984, 5996); (5998, 6000); (6016, 6067); (6103, 6103); (6108, 6108);
   (6112, 6121); (6128, 6137); (6160, 6169); (6176, 6264); (6272, 6276);
   (6279, 6312); (6314, 6314); (6320, 6389); (6400, 6430); (6470, 6509);
   (6512, 6516); (6528, 6571); (6576, 6601); (6608, 6618); (6656, 6678);
   (6688, 6740); (6784, 6793); (6800, 6809); (6823, 6823); (6917, 6963);
   (6981, 6988); (6992, 7001); (7043, 7072); (7086, 7141); (7168, 7203);
   (7232, 7241); (7245, 7293); (7296, 7304); (7312, 7354); (7357, 7359);
   (7401, 7404); (7406, 7411); (7413, 7414); (7418, 7418); (7424, 7615);
   (7680, 7957); (7960, 7965); (7968, 8005); (8008, 8013); (8016, 8023);
   (8025, 8025); (8027, 8027); (8029, 8029); (8031, 8061); (8064, 8116);
   (8118, 8124); (8126, 8126); (8130, 8132); (8134, 8140); (8144, 8147);
   (8150, 8155); (8160, 8172); (8178, 8180); (8182, 8188); (8304, 8305);
   (8308, 8313); (8319, 8329); (8336, 8348); (8450, 8450); (8455, 8455);
   (8458, 8467); (8469, 8469); (8473, 8477); (8484, 8484); (8486, 8486);
   (8488, 8488); (8490, 8493); (8495, 8505); (8508, 8511); (8517, 8521);
   (8526, 8526); (8528, 8585); (9312, 9371); (9450, 9471); (10102, 10131);
   (11264, 11492); (11499, 11502); (11506, 11507); (11517, 11517);
   (11520, 11557); (11559, 11559); (11565, 11565); (11568, 11623);
   (11631, 11631); (11648, 11670); (11680, 11686); (11688, 11694);
   (11696, 11702); (11704, 11710); (11712, 11718); (11720, 11726);
   (11728, 11734); (11736, 11742); (11823, 11823); (12293, 12295);
   (12321, 12329); (12337, 12341); (12344, 12348); (12353, 12438);
   (12445, 12447); (12449, 12538); (12540, 12543); (12549, 12591);
   (12593, 12686); (12690, 12693); (12704, 12735); (12784, 12799);
   (12832, 12841); (12872, 12879); (12881, 12895); (12928, 12937);
   (12977, 12991); (13312, 19903); (19968, 42124); (42192, 42237);
   (42240, 42508); (42512, 42539); (42560, 42606); (42623, 42653);
   (42656, 42735); (42775, 42783); (42786, 42888); (42891, 42954);
   (42960, 42961); (42963, 42963); (42965, 42969); (42994, 43009);
   (43011, 43013); (43015, 43018); (43020, 43042); (43056, 43061);
   (43072, 43123); (43138, 43187); (43216, 43225); (43250, 43255);
   (43259, 43259); (43261, 43262); (43264, 43301); (43312, 43334);
   (43360, 43388); (43396, 43442); (43471, 43481); (43488, 43492);
   (43494, 43518); (43520, 43560); (43584, 43586); (43588, 43595);
   (43600, 43609); (43616, 43638); (43642, 43642); (43646, 43695);
   (43697, 43697); (43701, 43702); (43705, 43709); (43712, 43712);
   (43714, 43714); (43739, 43741); (43744, 43754); (43762, 43764);
   (43777, 43782); (43785, 43790); (43793, 43798); (43808, 43814);
   (43816, 43822); (43824, 43866); (43868, 43881); (43888, 44002);
   (44016, 44025); (44032, 55203); (55216, 55238); (55243, 55291);
   (63744, 64109); (64112, 64217); (64256, 64262); (64275, 64279);
   (64285, 64285); (64287, 64296); (64298, 64310); (64312, 64316);
   (64318, 64318); (64320, 64321); (64323, 64324); (64326, 64433);
   (64467, 64829); (64848, 64911); (64914, 64967); (65008, 65019);
   (65136, 65140); (65142, 65276); (65296, 65305); (65313, 65338);
   (65345, 65370); (65382, 65470); (65474, 65479); (65482, 65487);
   (65490, 65495); (65498, 65500); (65536, 65547); (65549, 65574);
   (65576, 65594); (65596, 65597); (65599, 65613); (65616, 65629);
   (65664, 65786); (65799, 65843); (65856, 65912); (65930, 65931);
   (66176, 66204); (66208, 66256); (66273, 66299); (66304, 66339);
   (66349, 66378); (66384, 66421); (66432, 66461); (66464, 66499);
   (66504, 66511); (66513, 66517); (66560, 66717); (66720, 66729);
   (66736, 66771); (66776, 66811); (66816, 66855); (66864, 66915);
   (66928, 66938); (66940, 66954); (66956, 66962); (66964, 66965);
   (66967, 66977); (66979, 66993); (66995, 67001); (67003, 67004);
   (67072, 67382); (67392, 67413); (67424, 67431); (67456, 67461);
   (67463, 67504); (67506, 67514); (67584, 67589); (67592, 67592);
   (67594, 67637); (67639, 67640); (67644, 67644); (67647, 67669);
   (67672, 67702); (67705, 67742); (67751, 67759); (67808, 67826);
   (67828, 67829); (67835, 67867); (67872, 67897); (67968, 68023);
   (68028, 68047); (68050, 68096); (68112, 68115); (68117, 68119);
   (68121, 68149); (68160, 68168); (68192, 68222); (68224, 68255);
   (68288, 68295); (68297, 68324); (68331, 68335); (68352, 68405);
   (68416, 68437); (68440, 68466); (68472, 68497); (68521, 68527);
   (68608, 68680); (68736, 68786); (68800, 68850); (68858, 68899);
   (68912, 68921); (69216, 69246); (69248, 69289); (69296, 69297);
   (69376, 69415); (69424, 69445); (69457, 69460); (69488, 69505);
   (69552, 69579); (69600, 69622); (69635, 69687); (69714, 69743);
   (69745, 69746); (69749, 69749); (69763, 69807); (69840, 69864);
   (69872, 69881); (69891, 69926); (69942, 69951); (69956, 69956);
   (69959, 69959); (69968, 70002); (70006, 70006); (70019, 70066);
   (70081, 70084); (70096, 70106); (70108, 70108); (70113, 70132);
   (70144, 70161); (70163, 70187); (70272, 70278); (70280, 70280);
   (70282, 70285); (70287, 70301); (70303, 70312); (70320, 70366);
   (70384, 70393); (70405, 70412); (70415, 70416); (70419, 70440);
   (70442, 70448); (70450, 70451); (70453, 70457); (70461, 70461);
   (70480, 70480); (70493, 70497); (70656, 70708); (70727, 70730);
   (70736, 70745); (70751, 70753); (70784, 70831); (70852, 70853);
   (70855, 70855); (70864, 70873); (71040, 71086); (71128, 71131);
   (71168, 71215); (71236, 71236); (71248, 71257); (71296, 71338);
   (71352, 71352); (71360, 71369); (71424, 71450); (71472, 71483);
   (71488, 71494); (71680, 71723); (71840, 71922); (71935, 71942);
   (71945, 71945); (71948, 71955); (71957, 71958); (71960, 71983);
   (71999, 71999); (72001, 72001); (72016, 72025); (72096, 72103);
   (72106, 72144); (72161, 72161); (72163, 72163); (72192, 72192);
   (72203, 72242); (72250, 72250); (72272, 72272); (72284, 72329);
   (72349, 72349); (72368, 72440); (72704, 72712); (72714, 72750);
   (72768, 72768); (72784, 72812); (72818, 72847); (72960, 72966);
   (72968, 72969); (72971, 73008); (73030, 73030); (73040, 73049);
   (73056, 73061); (73063, 73064); (73066, 73097); (73112, 73112);
   (73120, 73129); (73440, 73458); (73648, 73648); (73664, 73684);
   (73728, 74649); (74752, 74862); (74880, 75075); (77712, 77808);
   (77824, 78894); (82944, 83526); (92160, 92728); (92736, 92766);
   (92768, 92777); (92784, 92862); (92864, 92873); (92880, 92909);
   (92928, 92975); (92992, 92995); (93008, 93017); (93019, 93025);
   (93027, 93047); (93053, 93071); (93760, 93846); (93952, 94026);
   (94032, 94032); (94099, 94111); (94176, 94177); (94179, 94179);
   (94208, 100343); (100352, 101589); (101632, 101640); (110576, 110579);
   (110581, 110587); (110589, 110590); (110592, 110882); (110928, 110930);
   (110948, 110951); (110960, 111355); (113664, 113770); (113776, 113788);
   (113792, 113800); (113808, 113817); (119520, 119539); (119648, 119672);
   (119808, 119892); (119894, 119964); (119966, 119967); (119970, 119970);
   (119973, 119974); (119977, 119980); (119982, 119993); (119995, 119995);
   (119997, 120003); (120005, 120069); (120071, 120074); (120077, 120084);
   (120086, 120092); (120094, 120121); (120123, 120126); (120128, 120132);
   (120134, 120134); (120138, 120144); (120146, 120485); (120488, 120512);
   (120514, 120538); (120540, 120570); (120572, 120596); (120598, 120628);
   (120630, 120654); (120656, 120686); (120688, 120712); (120714, 120744);
   (120746, 120770); (120772, 120779); (120782, 120831); (122624, 122654);
   (123136, 123180); (123191, 123197); (123200, 123209); (123214, 123214);
   (123536, 123565); (123584, 123627); (123632, 123641); (124896, 124902);
   (124904, 124907); (124909, 124910); (124912, 124926); (124928, 125124);
   (125127, 125135); (125184, 125251); (125259, 125259); (125264, 125273);
   (126065, 126123); (126125, 126127); (126129, 126132); (126209, 126253);
   (126255, 126269); (126464, 126467); (126469, 126495); (126497, 126498);
   (126500, 126500); (126503, 126503); (126505, 126514); (126516, 126519);
   (126521, 126521); (126523, 126523); (126530, 126530); (126535, 126535);
   (126537, 126537); (126539, 126539); (126541, 126543); (126545, 126546);
   (126548, 126548); (126551, 126551); (126553, 126553); (126555, 126555);
   (126557, 126557); (126559, 126559); (126561, 126562); (126564, 126564);
   (126567, 126570); (126572, 126578); (126580, 126583); (126585, 126588);
   (126590, 126590); (126592, 126601); (126603, 126619); (126625, 126627);
   (126629, 126633); (126635, 126651); (127232, 127244); (130032, 130041);
   (131072, 173791); (173824, 177976); (177984, 178205); (178208, 183969);
   (183984, 191456); (194560, 195101); (196608, 201546)]%N.

(** [\d], [\w] and [\s] of a [str] pattern. *)
Definition isdecimal (c : codepoint) : bool := in_ranges decimal_table c.
Definition isword (c : codepoint) : bool := in_ranges word_table c.

(** A literal character. *)
Definition lit (a : ascii) (c : codepoint) : bool := (c =? cp a)%N.

(** An ASCII letter under [(?i)].  A character matches when its simple
    lower-case mapping is the letter or one of the matcher's recorded
    equivalents of it: besides the two ASCII cases that is U+212A for
    [k], U+017F for [s] and U+0130, U+0131 for [i]. *)
Definition lit_i (a : ascii) (c : codepoint) : bool :=
  let l := cp a in
  (c =? l)%N || (in_range 97 122 l && (c =? l - 32))%N
  || ((l =? 107) && (c =? 8490))%N
  || ((l =? 115) && (c =? 383))%N
  || ((l =? 105) && ((c =? 304) || (c =? 305)))%N.

Inductive regex : Type :=
| Eps                                  (* the empty pattern *)
| Chr (p : codepoint -> bool)          (* one character satisfying p *)
| Seq (r1 r2 : regex)                  (* r1 r2 *)
| Alt (r1 r2 : regex)                  (* r1|r2 *)
| Star (r : regex)                     (* r*   *)
| LazyStar (r : regex)                 (* r*?  *)
| Group (r : regex)                    (* (r), the pattern's group 1 *)
| Bol                                  (* ^ under MULTILINE *)
| Eol                                  (* $ under MULTILINE *)
| WordB.                               (* \b *)

Definition Plus (r : regex) : regex := Seq r (Star r).       (* r+ *)
Definition Opt (r : regex) : regex := Alt r Eps.             (* r? *)

(** A pattern written as the sequence of its items. *)
Fixpoint Cat (rs : list regex) : regex :=
  match rs with
  | [] => Eps
  | [r] => r
  | r :: rs' => Seq r (Cat rs')
  end.

(** A literal word, and one under [(?i)]. *)
Fixpoint word_of (f : ascii -> codepoint -> bool) (s : string) : regex :=
  match s with
  | EmptyString => Eps
  | String a EmptyString => Chr (f a)
  | String a s' => Seq (Chr (f a)) (word_of f s')
  end.
Definition Lit (s : string) : regex := word_of lit s.
Definition LitI (s : string) : regex := word_of lit_i s.

(** Where the matcher stands: the character before the position (none at
    the start of the string), the text from the position on, and what
    group 1 has captured so far. *)
Record mstate := MState {
  ms_prev : option codepoint;
  ms_rest : pystr;
  ms_group : option pystr
}.

Definition is_word_opt (o : option codepoint) : bool :=
  match o with Some c => isword c | None => false end.

Fixpoint rmatch {A : Type} (r : regex) (st : mstate)
         (k : mstate -> option A) {struct r} : option A :=
  match r with
  | Eps => k st
  | Chr p =>
      match ms_rest st with
      | c :: rest => if p c then k (MState (Some c) rest (ms_group st)) else None
      | [] => None
      end
  | Seq r1 r2 => rmatch r1 st (fun st1 => rmatch r2 st1 k)
  | Alt r1 r2 =>
      match rmatch r1 st k with
      | Some a => Some a
      | None => rmatch r2 st k
      end
  | Star r1 =>
      (fix iter (n : nat) (st : mstate) {struct n} : option A :=
         match n with
         | O => k st
         | S n' =>
             match rmatch r1 st (fun st1 =>
                     if (List.length (ms_rest st1) <? List.length (ms_rest st))%nat
                     then iter n' st1 else None) with
             | Some a => Some a
             | None => k st
             end
         end) (List.length (ms_rest st)) st
  | LazyStar r1 =>
      (fix iter (n : nat) (st : mstate) {struct n} : option A :=
         match k st with
         | Some a => Some a
         | None =>
             match n with
             | O => None
             | S n' =>
                 rmatch r1 st (fun st1 =>
                   if (List.length (ms_rest st1) <? List.length (ms_rest st))%nat
                   then iter n' st1 else None)
             end
         end) (List.length (ms_rest st)) st
  | Group r1 =>
      rmatch r1 st (fun st1 =>
        let n := (List.length (ms_rest st) - List.length (ms_rest st1))%nat in
        k (MState (ms_prev st1) (ms_rest st1) (Some (firstn n (ms_rest st)))))
  | Bol =>
      match ms_prev st with
      | None => k st
      | Some c => if (c =? 10)%N then k st else None
      end
  | Eol =>
      match ms_rest st with
      | [] => k st
      | c :: _ => if (c =? 10)%N then k st else None
      end
  | WordB =>
      if xorb (is_word_opt (ms_prev st)) (is_word_opt (hd_error (ms_rest st)))
      then k st else None
  end.

(** A match object: [group(0)] and [group(1)]. *)
Record rematch := ReMatch { m_text : pystr; m_group : option pystr }.

(** The match starting at the current position, if any: how many
    characters it spans, and its group. *)
Definition match_at (r : regex) (prev : option codepoint) (rest : pystr)
  : option (nat * option pystr) :=
  rmatch r (MState prev rest None)
    (fun st => Some ((List.length rest - List.length (ms_rest st))%nat, ms_group st)).

(** [re.finditer]: the leftmost match, then the leftmost match after it,
    and so on.  [skip] counts the characters still covered by the match
    found last.  (After an empty match the scan moves on by one character;
    no pattern of the services matches the empty string.) *)
Fixpoint finditer_from (r : regex) (prev : option codepoint) (skip : nat)
         (rest : pystr) {struct rest} : list rematch :=
  match skip with
  | S k =>
      match rest with
      | [] => []
      | c :: rest' => finditer_from r (Some c) k rest'
      end
  | O =>
      match match_at r prev rest with
      | Some (n, g) =>
          ReMatch (firstn n rest) g ::
          match rest with
          | [] => []
          | c :: rest' => finditer_from r (Some c) (pred n) rest'
          end
      | None =>
          match rest with
          | [] => []
          | c :: rest' => finditer_from r (Some c) 0 rest'
          end
      end
  end.

Definition finditer (r : regex) (s : pystr) : list rematch :=
  finditer_from r None 0 s.

(** [re.findall] for a pattern without a group, and for one with group 1. *)
Definition findall (r : regex) (s : pystr) : list pystr :=
  List.map m_text (finditer r s).

Definition findall_group (r : regex) (s : pystr) : list pystr :=
  List.map (fun m => match m_group m with Some g => g | None => [] end)
           (finditer r s).

(** [re.search] *)
Definition search (r : regex) (s : pystr) : option rematch :=
  hd_error (finditer r s).

(** [re.sub(r, repl, s)] for a replacement without back-references. *)
Fixpoint sub_from (r : regex) (repl : pystr) (prev : option codepoint)
         (skip : nat) (rest : pystr) {struct rest} : pystr :=
  match skip with
  | S k =>
      match rest with
      | [] => []
      | c :: rest' => sub_from r repl (Some c) k rest'
      end
  | O =>
      match match_at r prev rest with
      | Some (S n, _) =>
          repl ++ match rest with
                  | [] => []
                  | c :: rest' => sub_from r repl (Some c) n rest'
                  end
      | Some (O, _) =>
          repl ++ match rest with
                  | [] => []
                  | c :: rest' => c :: sub_from r repl (Some c) 0 rest'
                  end
      | None =>
          match rest with
          | [] => []
          | c :: rest' => c :: sub_from r repl (Some c) 0 rest'
          end
      end
  end.

Definition sub (r : regex) (repl s : pystr) : pystr := sub_from r repl None 0 s.

(** The declarative reading of a pattern: [matches r st st'] when [r]
    can take the matcher from [st] to [st']. *)
Inductive matches : regex -> mstate -> mstate -> Prop :=
| matches_Eps st : matches Eps st st
| matches_Chr p prev c rest g :
    p c = true ->
    matches (Chr p) (MState prev (c :: rest) g) (MState (Some c) rest g)
| matches_Seq r1 r2 st st1 st2 :
    matches r1 st st1 -> matches r2 st1 st2 -> matches (Seq r1 r2) st st2
| matches_Alt_l r1 r2 st st1 : matches r1 st st1 -> matches (Alt r1 r2) st st1
| matches_Alt_r r1 r2 st st1 : matches r2 st st1 -> matches (Alt r1 r2) st st1
| matches_Star_stop r st : matches (Star r) st st
| matches_Star_more r st st1 st2 :
    matches r st st1 ->
    List.length (ms_rest st1) < List.length (ms_rest st) ->
    matches (Star r) st1 st2 ->
    matches (Star r) st st2
| matches_LazyStar_stop r st : matches (LazyStar r) st st
| matches_LazyStar_more r st st1 st2 :
    matches r st st1 ->
    List.length (ms_rest st1) < List.length (ms_rest st) ->
    matches (LazyStar r) st1 st2 ->
    matches (LazyStar r) st st2
| matches_Group r st st1 :
    matches r st st1 ->
    matches (Group r) st
      (MState (ms_prev st1) (ms_rest st1)
         (Some (firstn (List.length (ms_rest st) - List.length (ms_rest st1))
                       (ms_rest st))))
| matches_Bol st :
    ms_prev st = None \/ ms_prev st = Some 10%N -> matches Bol st st
| matches_Eol st :
    ms_rest st = [] \/ (exists rest, ms_rest st = 10%N :: rest) -> matches Eol st st
| matches_WordB st :
    xorb (is_word_opt (ms_prev st)) (is_word_opt (hd_error (ms_rest st))) = true ->
    matches WordB st st.

End Re.

(* ================================================================== *)
(** * [OCRService]  (app/services/ocr_service.py)                      *)
(* ================================================================== *)

Module OCRService.
Import Py Re.

(** ** [needs_ocr] *)

(** The class of the first [findall]: the ranges a-z, A-Z and 0-9, [\s],
    the punctuation . , ; : ! ? - ' ( ) [ ] { } / @ # $ % & * + = < >, the
    double quote (code point 34) and the newline. *)
Definition ascii_class (c : codepoint) : bool :=
  in_range 97 122 c || in_range 65 90 c || in_range 48 57 c || isspace c
  || mem c (u ".,;:!?-'") || (c =? 34)%N
  || mem c (u "()[]{}/@#$%&*+=<>") || (c =? 10)%N.

(** The classes [U+0D80-U+0DFF] (Sinhala) and [U+0B80-U+0BFF] (Tamil). *)
Definition sinhala_class (c : codepoint) : bool := in_range 3456 3583 c.
Definition tamil_class (c : codepoint) : bool := in_range 2944 3071 c.

(** The value of [n / total_chars if total_chars > 0 else 0]. *)
Inductive ratio : Type :=
| Quot (a b : Z)      (* the float a / b *)
| Int0.               (* the integer 0 *)

Definition ratio_of (n total_chars : Z) : ratio :=
  if (total_chars >? 0)%Z then Quot n total_chars else Int0.

Definition ratio_gt (r : ratio) (d : binary64) : bool :=
  match r with
  | Quot a b => truediv_gt a b d
  | Int0 => false
  end.

Definition needs_ocr (text : option pystr) : bool :=
  match text with
  | None => true
  | Some text =>
      if negb (truthy text) || (List.length (strip text) <? 10)%nat then true
      else
        let total_chars := Z.of_nat (List.length text) in
        let ascii_chars := Z.of_nat (List.length (findall (Chr ascii_class) text)) in
        let sinhala_chars := Z.of_nat (List.length (findall (Chr sinhala_class) text)) in
        let tamil_chars := Z.of_nat (List.length (findall (Chr tamil_class) text)) in
        let other_chars := (total_chars - ascii_chars - sinhala_chars - tamil_chars)%Z in
        let ascii_ratio := ratio_of ascii_chars total_chars in
        let sinhala_ratio := ratio_of sinhala_chars total_chars in
        let other_ratio := ratio_of other_chars total_chars in
        if ratio_gt sinhala_ratio f_0_01 || (tamil_chars >? 0)%Z then true
        else if ratio_gt other_ratio f_0_20 then true
        else if ratio_gt ascii_ratio f_0_80 then false
        else true
  end.

(** ** The collaborators: pdfplumber, pdf2image, pytesseract *)

(** A rasterised page; [image_to_string] is what Tesseract reads on it. *)
Record Image := { image_to_string : outcome pystr }.

(** A pdfplumber page; [extract_text()] may give [None]. *)
Record Page := { extract_text : outcome (option pystr) }.

(** A file on disk: what [pdfplumber.open] finds in it, and what
    [convert_from_path(.., first_page=n, last_page=n)] produces. *)
Record PdfFile := {
  plumber_open : outcome (list Page);
  convert_from_path : nat -> outcome (list Image)
}.

(** ** [extract_page_with_ocr] *)
Definition extract_page_with_ocr (pdf_path : PdfFile) (page_num : nat) : pystr :=
  match convert_from_path pdf_path page_num with
  | Raises _ => []                                (* except Exception *)
  | Returns images =>
      match images with
      | [] => []                                  (* if not images *)
      | image0 :: _ =>
          match image_to_string image0 with
          | Raises _ => []                        (* except Exception *)
          | Returns page_text => strip page_text
          end
      end
  end.

(** ** [clean_text] *)

(** The dictionary [encoding_fixes]: its display, entry by entry as
    written (the fourth and the fifth entry have the same key), and the
    items the display evaluates to. *)
Definition encoding_fixes : list (pystr * pystr) :=
  dict_items
    [ ([226; 8364; 8482], [39]);        (* right single quotation mark *)
      ([226; 8364; 339], [34]);         (* left double quotation mark *)
      ([226; 8364], [34]);              (* right double quotation mark *)
      ([226; 8364; 34], [8212]);        (* em dash *)
      ([226; 8364; 34], [8211]);        (* en dash *)
      ([226; 8364; 162], [8226]);       (* bullet point *)
      ([194], []);                      (* non-breaking space artifact *)
      ([226], [39]);                    (* generic apostrophe fix *)
      ([195; 162], [226]);              (* a with circumflex *)
      ([195; 164], [228]);              (* a with umlaut *)
      ([195; 182], [246]);              (* o with umlaut *)
      ([195; 188], [252]);              (* u with umlaut *)
      ([195; 169], [233]);              (* e with acute *)
      ([195; 168], [232]) ]%N.          (* e with grave *)

Definition space : regex := Chr isspace.
Definition digit : regex := Chr isdecimal.

(** [(?i)scanned\s+(?:by|with)\s+\w+scanner] *)
Definition re_scanner : regex :=
  Cat [LitI "scanned"; Plus space; Alt (LitI "by") (LitI "with"); Plus space;
       Plus (Chr isword); LitI "scanner"].

(** [(?i)page\s+\d+\s+of\s+\d+] *)
Definition re_page_of : regex :=
  Cat [LitI "page"; Plus space; Plus digit; Plus space; LitI "of"; Plus space;
       Plus digit].

(** [(?i)page\s+\d+/\d+] *)
Definition re_page_slash : regex :=
  Cat [LitI "page"; Plus space; Plus digit; Lit "/"; Plus digit].

(** [\b\d+\s+of\s+\d+\b] *)
Definition re_n_of_m : regex :=
  Cat [WordB; Plus digit; Plus space; Lit "of"; Plus space; Plus digit; WordB].

(** [-\s*\d+\s*-] *)
Definition re_dash_number : regex :=
  Cat [Lit "-"; Star space; Plus digit; Star space; Lit "-"].

(** [^\s*\d+\s*$] with [re.MULTILINE] *)
Definition re_lone_number : regex :=
  Cat [Bol; Star space; Plus digit; Star space; Eol].

(** The last substitution deletes what is outside of
    [\x20-\x7E], [\n], [\t], [U+0D80-U+0DFF] and [U+0B80-U+0BFF]. *)
Definition allowed_char (c : codepoint) : bool :=
  in_range 32 126 c || (c =? 10)%N || (c =? 9)%N
  || in_range 3456 3583 c || in_range 2944 3071 c.

Definition re_not_allowed : regex := Chr (fun c => negb (allowed_char c)).

(** The loop that keeps one empty line out of every run of them. *)
Fixpoint drop_repeated_empty (prev_empty : bool) (lines : list pystr) : list pystr :=
  match lines with
  | [] => []
  | line :: lines' =>
      let is_empty := (List.length line =? 0)%nat in
      if negb is_empty then line :: drop_repeated_empty false lines'
      else if negb prev_empty then line :: drop_repeated_empty true lines'
      else drop_repeated_empty prev_empty lines'
  end.

Definition clean_text (text : option pystr) : pystr :=
  match text with
  | None => []
  | Some text =>
      if negb (truthy text) then []
      else
        let text := fold_left (fun t wc => replace (fst wc) (snd wc) t)
                              encoding_fixes text in
        let text := sub re_scanner [] text in
        let text := sub re_page_of [] text in
        let text := sub re_page_slash [] text in
        let text := sub re_n_of_m [] text in
        let text := sub re_dash_number [] text in
        let text := sub re_lone_number [] text in
        let lines := List.map strip (split_on 10 text) in
        let lines := List.filter
                       (fun line => (2 <? List.length (strip line))%nat
                                    || pystr_eqb (strip line) [])
                       lines in
        let lines := List.map (sub (Plus space) (u " ")) lines in
        let cleaned_lines := drop_repeated_empty false lines in
        let text := join [10%N] cleaned_lines in
        let text := sub re_not_allowed [] text in
        strip text
  end.

(** ** [process_pdf] *)

Record Metadata := {
  total_pages : nat;
  successful_pages : nat;
  fast_path_pages : nat;
  ocr_fallback_pages : nat;
  failed_pages : nat;
  character_count : nat;
  word_count : nat
}.

Definition metadata0 : Metadata :=
  {| total_pages := 0; successful_pages := 0; fast_path_pages := 0;
     ocr_fallback_pages := 0; failed_pages := 0; character_count := 0;
     word_count := 0 |}.

Definition set_total_pages (n : nat) (m : Metadata) : Metadata :=
  {| total_pages := n; successful_pages := successful_pages m;
     fast_path_pages := fast_path_pages m;
     ocr_fallback_pages := ocr_fallback_pages m;
     failed_pages := failed_pages m; character_count := character_count m;
     word_count := word_count m |}.

(** [successful_pages += 1; fast_path_pages += 1] *)
Definition count_fast (m : Metadata) : Metadata :=
  {| total_pages := total_pages m; successful_pages := successful_pages m + 1;
     fast_path_pages := fast_path_pages m + 1;
     ocr_fallback_pages := ocr_fallback_pages m;
     failed_pages := failed_pages m; character_count := character_count m;
     word_count := word_count m |}.

(** [successful_pages += 1; ocr_fallback_pages += 1] *)
Definition count_ocr (m : Metadata) : Metadata :=
  {| total_pages := total_pages m; successful_pages := successful_pages m + 1;
     fast_path_pages := fast_path_pages m;
     ocr_fallback_pages := ocr_fallback_pages m + 1;
     failed_pages := failed_pages m; character_count := character_count m;
     word_count := word_count m |}.

(** [failed_pages += 1] *)
Definition count_failed (m : Metadata) : Metadata :=
  {| total_pages := total_pages m; successful_pages := successful_pages m;
     fast_path_pages := fast_path_pages m;
     ocr_fallback_pages := ocr_fallback_pages m;
     failed_pages := failed_pages m + 1; character_count := character_count m;
     word_count := word_count m |}.

Definition set_counts (chars words : nat) (m : Metadata) : Metadata :=
  {| total_pages := total_pages m; successful_pages := successful_pages m;
     fast_path_pages := fast_path_pages m;
     ocr_fallback_pages := ocr_fallback_pages m;
     failed_pages := failed_pages m; character_count := chars;
     word_count := words |}.

(** [f"--- Page {page_num} ---\n{text}"] *)
Definition page_section (page_num : nat) (text : pystr) : pystr :=
  u "--- Page " ++ str_of_nat page_num ++ u " ---" ++ [10%N] ++ text.

(** [pages[:max_pages]]; a negative bound counts from the end. *)
Definition slice_to {A : Type} (max_pages : Z) (pages : list A) : list A :=
  if (max_pages <? 0)%Z
  then firstn (List.length pages - Z.to_nat (- max_pages)) pages
  else firstn (Z.to_nat max_pages) pages.

(** The state of the page loop: [all_text] and [metadata]. *)
Definition loop_state : Type := (list pystr * Metadata)%type.

(** The body of the loop over [enumerate(pages_to_process, start=1)],
    with its [try] ... [except Exception]. *)
Definition process_page (pdf_path : PdfFile) (page_num : nat) (page : Page)
           (st : loop_state) : loop_state :=
  let '(all_text, metadata) := st in
  match extract_text page with
  | Raises _ => (all_text, count_failed metadata)
  | Returns page_text =>
      let fast :=
        match page_text with
        | None => false
        | Some t => truthy t && negb (needs_ocr (Some t))
        end in
      if fast then
        let t := match page_text with Some t => t | None => [] end in
        (all_text ++ [page_section page_num t], count_fast metadata)
      else
        let ocr_text := extract_page_with_ocr pdf_path page_num in
        if truthy ocr_text
        then (all_text ++ [page_section page_num ocr_text], count_ocr metadata)
        else (all_text, count_failed metadata)
  end.

Fixpoint process_pages (pdf_path : PdfFile) (page_num : nat) (pages : list Page)
         (st : loop_state) : loop_state :=
  match pages with
  | [] => st
  | page :: pages' =>
      process_pages pdf_path (S page_num) pages' (process_page pdf_path page_num page st)
  end.

Definition process_pdf (pdf_path : PdfFile) (max_pages : option Z)
  : outcome (pystr * Metadata) :=
  match plumber_open pdf_path with
  | Raises e => Raises e                           (* logged and re-raised *)
  | Returns pages =>
      let metadata := set_total_pages (List.length pages) metadata0 in
      let pages_to_process :=
        match max_pages with
        | None => pages
        | Some n => if (n =? 0)%Z then pages else slice_to n pages
        end in
      let '(all_text, metadata) :=
        process_pages pdf_path 1 pages_to_process ([], metadata) in
      let combined_text := join [10%N; 10%N] all_text in
      let cleaned_text := clean_text (Some combined_text) in
      let metadata :=
        set_counts (List.length cleaned_text)
                   (List.length (split_ws cleaned_text)) metadata in
      Returns (cleaned_text, metadata)
  end.

End OCRService.

(* ================================================================== *)
(** * [json.loads]                                                     *)
(* ================================================================== *)

(** The decoder of the standard library, as the parser service uses it:
    default options, strict strings.  A [JSONDecodeError] is [None].
    The interpreter's own limits (recursion depth, the number of digits of
    an integer literal) are not part of the model. *)

Module Json.
Import Py.

Inductive pyvalue : Type :=
| PyNone
| PyBool (b : bool)
| PyInt (n : Z)
| PyFloat (literal : pystr)            (* the float the literal denotes *)
| PyNaN
| PyInf (negative : bool)
| PyStr (s : pystr)
| PyList (items : list pyvalue)
| PyDict (items : list (pystr * pyvalue)).

(** The decoder's whitespace: space, tab, newline, carriage return. *)
Definition is_ws (c : codepoint) : bool :=
  (c =? 32)%N || (c =? 9)%N || (c =? 10)%N || (c =? 13)%N.

Fixpoint skip_ws (s : pystr) : pystr :=
  match s with
  | c :: s' => if is_ws c then skip_ws s' else s
  | [] => []
  end.

Definition is_digit (c : codepoint) : bool := in_range 48 57 c.

Definition hex_val (c : codepoint) : option N :=
  if in_range 48 57 c then Some (c - 48)%N
  else if in_range 97 102 c then Some (c - 87)%N
  else if in_range 65 70 c then Some (c - 55)%N
  else None.

Definition hex4 (a b c d : codepoint) : option N :=
  match hex_val a, hex_val b, hex_val c, hex_val d with
  | Some x, Some y, Some z, Some w => Some (((x * 16 + y) * 16 + z) * 16 + w)%N
  | _, _, _, _ => None
  end.

(** The escapes of one character after a backslash. *)
Definition simple_escape (c : codepoint) : option codepoint :=
  if (c =? 34)%N then Some 34%N            (* quote *)
  else if (c =? 92)%N then Some 92%N       (* backslash *)
  else if (c =? 47)%N then Some 47%N       (* / *)
  else if (c =? 98)%N then Some 8%N        (* b *)
  else if (c =? 102)%N then Some 12%N      (* f *)
  else if (c =? 110)%N then Some 10%N      (* n *)
  else if (c =? 114)%N then Some 13%N      (* r *)
  else if (c =? 116)%N then Some 9%N       (* t *)
  else None.

(** The second half of a surrogate pair, when the text goes on with a
    backslash, u and the four hexadecimal digits of one. *)
Definition low_surrogate (s : pystr) : option N :=
  match s with
  | bs :: l :: a :: b :: c :: d :: _ =>
      if ((bs =? 92) && (l =? 117))%N then
        match hex4 a b c d with
        | Some lo => if in_range 56320 57343 lo then Some lo else None
        | None => None
        end
      else None
  | _ => None
  end.

(** [scanstring], from behind the opening quote: the decoded string and
    the text after the closing quote.  [acc] is the string so far, last
    character first. *)
Fixpoint scanstring (acc : pystr) (s : pystr) {struct s} : option (pystr * pystr) :=
  match s with
  | [] => None                                    (* unterminated *)
  | c :: s1 =>
      if (c =? 34)%N then Some (rev acc, s1)
      else if (c =? 92)%N then
        match s1 with
        | [] => None
        | e :: s2 =>
            if (e =? 117)%N then
              match s2 with
              | a :: b :: c3 :: d :: s3 =>
                  match hex4 a b c3 d with
                  | None => None
                  | Some hi =>
                      match (if in_range 55296 56319 hi then low_surrogate s3 else None),
                            s3 with
                      | Some lo, _ :: _ :: _ :: _ :: _ :: _ :: s4 =>
                          scanstring
                            ((65536 + ((hi - 55296) * 1024 + (lo - 56320)))%N :: acc) s4
                      | _, _ => scanstring (hi :: acc) s3
                      end
                  end
              | _ => None
              end
            else
              match simple_escape e with
              | Some x => scanstring (x :: acc) s2
              | None => None
              end
        end
      else if (c <=? 31)%N then None                (* control character *)
      else scanstring (c :: acc) s1
  end.

Fixpoint span_digits (s : pystr) : pystr * pystr :=
  match s with
  | c :: s' =>
      if is_digit c then let '(ds, r) := span_digits s' in (c :: ds, r) else ([], s)
  | [] => ([], [])
  end.

Definition int_of_digits (ds : pystr) : Z :=
  fold_left (fun acc c => (acc * 10 + Z.of_N (c - 48)%N)%Z) ds 0%Z.

(** The parts of a number: an optional minus sign; then 0, or a digit 1-9
    followed by digits; then, optionally, a dot and at least one digit;
    then, optionally, e or E, an optional sign and at least one digit.
    Each part comes with the text after it. *)
Definition minus_part (s : pystr) : bool * pystr :=
  match s with
  | c :: s' => if (c =? 45)%N then (true, s') else (false, s)
  | [] => (false, s)
  end.

Definition int_part (s : pystr) : option (pystr * pystr) :=
  match s with
  | c :: s' =>
      if (c =? 48)%N then Some ([c], s')
      else if in_range 49 57 c then
        let '(ds, r) := span_digits s' in Some (c :: ds, r)
      else None
  | [] => None
  end.

Definition frac_part (s : pystr) : pystr * pystr :=
  match s with
  | c :: s' =>
      if (c =? 46)%N then
        match span_digits s' with
        | ([], _) => ([], s)
        | (fs, r) => (c :: fs, r)
        end
      else ([], s)
  | [] => ([], s)
  end.

Definition sign_part (s : pystr) : pystr * pystr :=
  match s with
  | g :: t => if (g =? 45)%N || (g =? 43)%N then ([g], t) else ([], s)
  | [] => ([], s)
  end.

Definition exp_part (s : pystr) : pystr * pystr :=
  match s with
  | c :: s' =>
      if (c =? 101)%N || (c =? 69)%N then
        let '(sign, s'') := sign_part s' in
        match span_digits s'' with
        | ([], _) => ([], s)
        | (es, r) => (c :: sign ++ es, r)
        end
      else ([], s)
  | [] => ([], s)
  end.

(** The number at the head of the text: an [int] unless it has a fraction
    or an exponent. *)
Definition match_number (s : pystr) : option (pyvalue * pystr) :=
  let '(neg, s1) := minus_part s in
  match int_part s1 with
  | None => None
  | Some (ds, s2) =>
      let '(frac, s3) := frac_part s2 in
      let '(ex, s4) := exp_part s3 in
      match frac, ex with
      | [], [] =>
          Some (PyInt (if neg then - int_of_digits ds else int_of_digits ds)%Z, s4)
      | _, _ =>
          Some (PyFloat ((if neg then [45%N] else []) ++ ds ++ frac ++ ex), s4)
      end
  end.

(** [scan_once], with the loops of [JSONArray] and [JSONObject].  Every
    call uses up one unit of [fuel]. *)
Fixpoint scan_once (fuel : nat) (s : pystr) {struct fuel} : option (pyvalue * pystr) :=
  match fuel with
  | O => None
  | S fuel' =>
      match s with
      | [] => None
      | c :: s' =>
          if (c =? 34)%N then
            match scanstring [] s' with
            | Some (str, r) => Some (PyStr str, r)
            | None => None
            end
          else if (c =? 123)%N then
            match skip_ws s' with
            | d :: r =>
                if (d =? 125)%N then Some (PyDict [], r)
                else object_members fuel' [] (d :: r)
            | [] => object_members fuel' [] []
            end
          else if (c =? 91)%N then
            match skip_ws s' with
            | d :: r =>
                if (d =? 93)%N then Some (PyList [], r)
                else array_items fuel' [] (d :: r)
            | [] => array_items fuel' [] []
            end
          else if (c =? 110)%N then
            option_map (pair PyNone) (strip_prefix (u "ull") s')
          else if (c =? 116)%N then
            option_map (pair (PyBool true)) (strip_prefix (u "rue") s')
          else if (c =? 102)%N then
            option_map (pair (PyBool false)) (strip_prefix (u "alse") s')
          else if (c =? 78)%N then
            option_map (pair PyNaN) (strip_prefix (u "aN") s')
          else if (c =? 73)%N then
            option_map (pair (PyInf false)) (strip_prefix (u "nfinity") s')
          else if (c =? 45)%N then
            match strip_prefix (u "Infinity") s' with
            | Some r => Some (PyInf true, r)
            | None => match_number s
            end
          else match_number s
      end
  end

(** The items of an array, from the first character of an item; [acc]
    holds the items before it, last one first. *)
with array_items (fuel : nat) (acc : list pyvalue) (s : pystr) {struct fuel}
  : option (pyvalue * pystr) :=
  match fuel with
  | O => None
  | S fuel' =>
      match scan_once fuel' s with
      | None => None
      | Some (v, r) =>
          match skip_ws r with
          | c :: r' =>
              if (c =? 93)%N then Some (PyList (rev (v :: acc)), r')
              else if (c =? 44)%N then array_items fuel' (v :: acc) (skip_ws r')
              else None
          | [] => None
          end
      end
  end

(** The members of an object, from the quote that must open a key. *)
with object_members (fuel : nat) (acc : list (pystr * pyvalue)) (s : pystr)
     {struct fuel} : option (pyvalue * pystr) :=
  match fuel with
  | O => None
  | S fuel' =>
      match s with
      | [] => None
      | q :: s1 =>
          if negb (q =? 34)%N then None
          else
            match scanstring [] s1 with
            | None => None
            | Some (key, r) =>
                match skip_ws r with
                | [] => None
                | colon :: r1 =>
                    if negb (colon =? 58)%N then None
                    else
                      match scan_once fuel' (skip_ws r1) with
                      | None => None
                      | Some (v, r2) =>
                          let acc' := dict_set key v acc in
                          match skip_ws r2 with
                          | c :: r3 =>
                              if (c =? 125)%N then Some (PyDict acc', r3)
                              else if (c =? 44)%N
                              then object_members fuel' acc' (skip_ws r3)
                              else None
                          | [] => None
                          end
                      end
                end
            end
      end
  end.

(** Fuel that is never used up: see [scan_once_fuel]. *)
Definition fuel_for (s : pystr) : nat := S (2 * List.length s).

(** [json.loads(s)] for a [str]: no byte-order mark in front, one value,
    and nothing but whitespace around it. *)
Definition loads (s : pystr) : option pyvalue :=
  if match s with c :: _ => (c =? 65279)%N | [] => false end then None
  else
    let s0 := skip_ws s in
    match scan_once (fuel_for s0) s0 with
    | Some (v, r) => match skip_ws r with [] => Some v | _ :: _ => None end
    | None => None
    end.

End Json.

(* ================================================================== *)
(** * [ParserService]  (app/services/parser_service.py)                *)
(* ================================================================== *)

Module ParserService.
Import Py Re Json.

(** The three [ValueError]s of [clean_llm_json]. *)
Inductive error : Type :=
| LLM_output_is_empty
| No_valid_JSON_found
| Invalid_JSON (extracted : pystr).

Inductive result : Type :=
| Return (v : pyvalue)
| Raise (e : error).

Definition quote : codepoint := 34%N.
Definition just (c d : codepoint) : bool := (d =? c)%N.
Definition all_but (c d : codepoint) : bool := negb (d =? c)%N.
Definition any (c : codepoint) : bool := true.

(** ** [_fix_common_json_issues] *)

(** [,\s*}] and [,\s*]] *)
Definition re_comma_brace : regex := Cat [Lit ","; Star (Chr isspace); Lit "}"].
Definition re_comma_bracket : regex := Cat [Lit ","; Star (Chr isspace); Lit "]"].

(** [[\x00-\x08\x0B-\x0C\x0E-\x1F\x7F]] *)
Definition control_char (c : codepoint) : bool :=
  in_range 0 8 c || in_range 11 12 c || in_range 14 31 c || (c =? 127)%N.

Definition bom : codepoint := 65279%N.

Definition _fix_common_json_issues (json_str : pystr) : pystr :=
  let json_str := sub re_comma_brace (u "}") json_str in
  let json_str := sub re_comma_bracket (u "]") json_str in
  let json_str := sub (Chr control_char) [] json_str in
  let json_str :=
    if negb (mem quote json_str) && mem (cp "'") json_str
    then replace (u "'") [quote] json_str
    else json_str in
  replace [bom] [] json_str.

(** ** [_extract_partial_json] *)

(** The key pattern, then [\s*:\s*], then the group: [(\{[^}]+\})] for
    metadata and [(\[[^\]]+\])] for sections. *)
Definition re_metadata : regex :=
  Cat [Chr (just quote); Lit "metadata"; Chr (just quote); Star (Chr isspace);
       Lit ":"; Star (Chr isspace);
       Group (Cat [Lit "{"; Plus (Chr (all_but (cp "}"))); Lit "}"])].

Definition re_sections : regex :=
  Cat [Chr (just quote); Lit "sections"; Chr (just quote); Star (Chr isspace);
       Lit ":"; Star (Chr isspace);
       Group (Cat [Lit "["; Plus (Chr (all_but (cp "]"))); Lit "]"])].

(** [json.loads(match.group(1))] of a probe; [None] when the probe does
    not match or the sub-string does not parse. *)
Definition probe (r : regex) (json_str : pystr) : option pyvalue :=
  match search r json_str with
  | Some m =>
      match m_group m with
      | Some g => loads g
      | None => None
      end
  | None => None
  end.

Definition _extract_partial_json (json_str : pystr) : option pyvalue :=
  match probe re_metadata json_str with
  | Some metadata_obj => Some (PyDict [(u "metadata", metadata_obj)])
  | None =>
      match probe re_sections json_str with
      | Some sections_arr => Some (PyDict [(u "sections", sections_arr)])
      | None => None
      end
  end.

(** ** [clean_llm_json] *)

(** [```(?:json)?\s*(.*?)\s*```] with [re.DOTALL] *)
Definition code_block_pattern : regex :=
  Cat [Lit "```"; Opt (Lit "json"); Star (Chr isspace);
       Group (LazyStar (Chr any)); Star (Chr isspace); Lit "```"].

Definition not_brace (c : codepoint) : bool :=
  negb ((c =? cp "{")%N || (c =? cp "}")%N).
Definition not_bracket (c : codepoint) : bool :=
  negb ((c =? cp "[")%N || (c =? cp "]")%N).

(** [\{(?:[^{}]|(?:\{[^{}]*\}))*\}] *)
Definition object_pattern : regex :=
  Cat [Lit "{";
       Star (Alt (Chr not_brace) (Cat [Lit "{"; Star (Chr not_brace); Lit "}"]));
       Lit "}"].

(** [\[(?:[^\[\]]|(?:\[[^\[\]]*\]))*\]] *)
Definition array_pattern : regex :=
  Cat [Lit "[";
       Star (Alt (Chr not_bracket) (Cat [Lit "["; Star (Chr not_bracket); Lit "]"]));
       Lit "]"].

Inductive json_type : Type := object | array.

Definition json_patterns : list (regex * json_type) :=
  [(object_pattern, object); (array_pattern, array)].

(** [matches.sort(key=lambda m: len(m.group(0)), reverse=True)]: longest
    first; the sort is stable, so matches of one length keep their order. *)
Fixpoint insert_by_len (m : pystr) (sorted : list pystr) : list pystr :=
  match sorted with
  | [] => [m]
  | m' :: rest =>
      if (List.length m <? List.length m')%nat
      then m' :: insert_by_len m rest
      else m :: sorted
  end.

Definition sort_longest_first (ms : list pystr) : list pystr :=
  fold_right insert_by_len [] ms.

Definition balanced (t : json_type) (candidate : pystr) : bool :=
  match t with
  | object => (count (cp "{") candidate =? count (cp "}") candidate)%nat
  | array => (count (cp "[") candidate =? count (cp "]") candidate)%nat
  end.

(** Step 1: the first code block that holds a brace or a bracket becomes
    the working text. *)
Definition unwrap_code_block (llm_output : pystr) : pystr :=
  let code_blocks := findall_group code_block_pattern llm_output in
  match List.find (fun block => mem (cp "{") block || mem (cp "[") block)
                  code_blocks with
  | Some block => block
  | None => llm_output
  end.

(** Step 2, first strategy: the longest balanced match of the first
    pattern that yields one. *)
Fixpoint find_balanced (patterns : list (regex * json_type)) (llm_output : pystr)
  : option pystr :=
  match patterns with
  | [] => None
  | (pattern, t) :: patterns' =>
      let matches := sort_longest_first (findall pattern llm_output) in
      match List.find (balanced t) matches with
      | Some candidate =>
          if truthy candidate then Some candidate
          else find_balanced patterns' llm_output
      | None => find_balanced patterns' llm_output
      end
  end.

(** Step 2, second strategy: first and last brace, else first and last
    bracket. *)
Definition between (open close : codepoint) (llm_output : pystr) : option pystr :=
  match find open llm_output, rfind close llm_output with
  | Some first, Some last =>
      if (first <? last)%nat then Some (slice first (last + 1) llm_output) else None
  | _, _ => None
  end.

Definition first_last (llm_output : pystr) : option pystr :=
  match between (cp "{") (cp "}") llm_output with
  | Some e => Some e
  | None => between (cp "[") (cp "]") llm_output
  end.

(** Steps 1 and 2: the candidate text, if any. *)
Definition locate_json (llm_output : pystr) : option pystr :=
  let llm_output := unwrap_code_block llm_output in
  let extracted_json :=
    match find_balanced json_patterns llm_output with
    | Some e => Some e
    | None => first_last llm_output
    end in
  match extracted_json with
  | Some e => if truthy e then Some e else None
  | None => None
  end.

(** Steps 3 to 5 on the candidate. *)
Definition parse_with_repair (extracted_json : pystr) : result :=
  match loads extracted_json with
  | Some parsed_json => Return parsed_json
  | None =>
      let fixed_json := _fix_common_json_issues extracted_json in
      let retry :=
        if negb (pystr_eqb fixed_json extracted_json) then loads fixed_json else None in
      match retry with
      | Some parsed_json => Return parsed_json
      | None =>
          match _extract_partial_json extracted_json with
          | Some partial_json => Return partial_json
          | None => Raise (Invalid_JSON extracted_json)
          end
      end
  end.

Definition clean_llm_json (llm_output : option pystr) : result :=
  match llm_output with
  | None => Raise LLM_output_is_empty
  | Some llm_output =>
      if negb (truthy llm_output) || negb (truthy (strip llm_output))
      then Raise LLM_output_is_empty
      else
        match locate_json llm_output with
        | None => Raise No_valid_JSON_found
        | Some extracted_json => parse_with_repair extracted_json
        end
  end.

End ParserService.

(* ================================================================== *)
(** * [LLMService]  (app/services/llm_service.py)                      *)
(* ================================================================== *)

Module LLMService.
Import Py.

(** ** [int * float] and [int > float]

    [max_text_length * 0.7] converts the integer to a float and multiplies
    in binary64, both rounded to nearest, ties to even; the comparison of
    an integer with the product is exact. *)

(** A positive integer rounded to 53 significant bits: the result
    [(q, s)] stands for [q * 2^s]. *)
Definition round53 (p : Z) : Z * Z :=
  let bits := (Z.log2 p + 1)%Z in
  if (bits <=? 53)%Z then (p, 0%Z)
  else
    let s := (bits - 53)%Z in
    let q := Z.shiftr p s in
    let r := (p mod 2 ^ s)%Z in
    let half := (2 ^ (s - 1))%Z in
    if (half <? r)%Z || ((r =? half)%Z && Z.odd q) then ((q + 1)%Z, s) else (q, s).

(** [0.7] *)
Definition f_0_7 : binary64 := B64 6305039478318694 53.

(** [n * d] for an integer [n] and a positive normal float [d]: the pair
    [(m, e)] stands for the float [m * 2^e]; [None] is the
    [OverflowError] of the conversion of [n]. *)
Definition int_times_float (n : Z) (d : binary64) : option (Z * Z) :=
  if (n =? 0)%Z then Some (0%Z, 0%Z)
  else
    let '(q1, s1) := round53 (Z.abs n) in
    if (2 ^ 1024 <=? q1 * 2 ^ s1)%Z then None
    else
      let '(q2, s2) := round53 (q1 * mant d) in
      Some ((Z.sgn n * q2)%Z, (s1 + s2 - expo d)%Z).

(** [l > f] for an integer [l] and a float [f = m * 2^e]. *)
Definition int_gt_float (l : Z) (f : Z * Z) : bool :=
  let '(m, e) := f in
  if (0 <=? e)%Z then (m * 2 ^ e <? l)%Z else (m <? l * 2 ^ (- e))%Z.

(** [str(n)] for an integer. *)
Definition str_of_Z (n : Z) : pystr :=
  if (n <? 0)%Z then u "-" ++ str_of_nat (Z.to_nat (- n)) else str_of_nat (Z.to_nat n).

(** [s.rfind(c)] as the integer it returns: -1 when [c] does not occur. *)
Definition rfind_index (c : codepoint) (s : pystr) : Z :=
  match rfind c s with
  | Some i => Z.of_nat i
  | None => (-1)%Z
  end.

(** ** The provider

    How one call of [_call_openrouter] or [_call_ollama] ends.  Both post
    the prompt and return the [content] field of the reply, stripped;
    everything else ends in an exception, told apart here by the [except]
    clause of [generate_response] that catches it. *)
Inductive api_reply : Type :=
| Content (raw : pystr)          (* the call returns [raw.strip()] *)
| TimeoutExc                     (* [requests.exceptions.Timeout] *)
| ConnectionExc (e : pystr)      (* [requests.exceptions.ConnectionError], no timeout *)
| OtherExc (e : pystr).          (* any other [Exception] *)

(** The service: its setting [LLM_MAX_RETRIES] and, for a prompt, the
    replies of the provider to the first, second, ... call of one
    [generate_response]. *)
Record Service := {
  LLM_MAX_RETRIES : Z;
  api : pystr -> nat -> api_reply
}.

(** ** [generate_response]

    The loop over [range(1, max_retries + 1)] from [attempt] on, with
    [left] attempts to go; the result goes with the number of calls made
    to the provider. *)
Fixpoint attempts (reply : nat -> api_reply) (max_retries : Z) (attempt left : nat)
  : outcome pystr * nat :=
  match left with
  | O =>                                         (* after the loop *)
      (Raises (u "Failed after " ++ str_of_Z max_retries ++ u " attempts"), 0)
  | S left' =>
      let continue :=
        let '(r, calls) := attempts reply max_retries (S attempt) left' in
        (r, S calls) in
      let more := (Z.of_nat attempt <? max_retries)%Z in
      match reply attempt with
      | Content raw =>
          let content := strip raw in
          if truthy content then (Returns content, 1)
          else                                  (* except Exception *)
            if more then continue
            else (Raises (u "Empty response from model"), 1)
      | TimeoutExc =>
          if more then continue
          else (Raises (u "Timeout after " ++ str_of_Z max_retries ++ u " attempts"), 1)
      | ConnectionExc e => (Raises (u "Connection error: " ++ e), 1)
      | OtherExc e =>
          if more then continue else (Raises e, 1)
      end
  end.

(** [max_retries or self.settings.LLM_MAX_RETRIES] *)
Definition retries (svc : Service) (max_retries : option Z) : Z :=
  match max_retries with
  | Some n => if (n =? 0)%Z then LLM_MAX_RETRIES svc else n
  | None => LLM_MAX_RETRIES svc
  end.

Definition generate_response (svc : Service) (prompt : pystr) (max_retries : option Z)
  : outcome pystr * nat :=
  let max_retries := retries svc max_retries in
  attempts (api svc prompt) max_retries 1 (Z.to_nat max_retries).

(** ** [extract_document_data] *)

(** What is left of [ocr_text] after the truncation. *)
Definition truncate (ocr_text : pystr) (max_text_length : Z) : outcome pystr :=
  if (max_text_length <? Z.of_nat (List.length ocr_text))%Z then
    let truncated := OCRService.slice_to max_text_length ocr_text in
    let last_period := rfind_index (cp ".") truncated in
    match int_times_float max_text_length f_0_7 with
    | None => Raises (u "int too large to convert to float")
    | Some threshold =>
        if int_gt_float last_period threshold
        then Returns (OCRService.slice_to (last_period + 1) truncated)
        else Returns truncated
    end
  else Returns ocr_text.

Definition user_prompt (ocr_text : pystr) : pystr :=
  u "DOCUMENT OCR TEXT:" ++ [10%N; 10%N] ++ ocr_text ++ [10%N; 10%N]
    ++ u "Extract all metadata and sections from the above document. Return ONLY valid JSON.".

Definition extract_document_data (svc : Service) (ocr_text : pystr)
           (max_text_length : Z) : outcome pystr * nat :=
  match truncate ocr_text max_text_length with
  | Raises e => (Raises e, 0)
  | Returns ocr_text => generate_response svc (user_prompt ocr_text) None
  end.

End LLMService.

(* ================================================================== *)
(** * The processing task  (app/api/v1/endpoints/process.py)           *)
(* ================================================================== *)

(** [process_document_background] runs the three services on one document
    and keeps the result in the in-memory database
    (app/db/session.py). *)

Module Process.
Import Py Json.

(** [DocumentStatus] (app/schemas/models.py) *)
Inductive DocumentStatus : Type :=
| UPLOADED | PENDING | PROCESSING | COMPLETED | FAILED.

(** What the endpoints keep under the keys of a document record: [None],
    a status, a string, an integer, a [datetime], or data in the shape of
    a JSON value (metadata, sections). *)
Inductive value : Type :=
| VNone
| VStatus (s : DocumentStatus)
| VStr (s : pystr)
| VInt (n : Z)
| VTime (t : Z)
| VJson (v : pyvalue).

(** A document record, and the storage of [InMemoryDB]: dictionaries. *)
Definition document : Type := list (pystr * value).
Definition InMemoryDB : Type := list (pystr * document).

(** [d.get(k)] *)
Fixpoint dict_get {V : Type} (k : pystr) (d : list (pystr * V)) : option V :=
  match d with
  | [] => None
  | (k', v) :: d' => if pystr_eqb k' k then Some v else dict_get k d'
  end.

(** [d.update(data)] *)
Definition dict_update {V : Type} (d data : list (pystr * V)) : list (pystr * V) :=
  fold_left (fun d kv => dict_set (fst kv) (snd kv) d) data d.

(** [InMemoryDB.create], [get] and [update] *)
Definition create (db : InMemoryDB) (doc_id : pystr) (data : document) : InMemoryDB :=
  dict_set doc_id data db.

Definition get (db : InMemoryDB) (doc_id : pystr) : option document :=
  dict_get doc_id db.

Definition update (db : InMemoryDB) (doc_id : pystr) (data : document)
  : InMemoryDB * bool :=
  match dict_get doc_id db with
  | Some doc => (dict_set doc_id (dict_update doc data) db, true)
  | None => (db, false)
  end.

(** What the task finds around it. *)
Record World := {
  (** [OCRService()]: a [RuntimeError] when Tesseract is not found *)
  new_OCRService : outcome unit;
  (** [LLMService()]: a [ValueError] for an unknown provider *)
  new_LLMService : outcome LLMService.Service;
  (** the file that [process_pdf(file_path)] reads *)
  file_at : value -> OCRService.PdfFile;
  (** step 4, the validation with pydantic, which catches every
      exception: what it leaves in [metadata_dict] and in [sections_list] *)
  validate : list (pystr * pyvalue) -> option value * option value;
  (** [datetime.utcnow()] *)
  utcnow : Z;
  (** [str(e)] for the [JSONDecodeError] of [json.loads] on a text *)
  decode_error : pystr -> pystr;
  (** whether the float that a literal denotes is not zero *)
  float_nonzero : pystr -> bool
}.

(** Truthiness of the values of a record. *)
Definition json_truthy (w : World) (v : pyvalue) : bool :=
  match v with
  | PyNone => false
  | PyBool b => b
  | PyInt n => negb (n =? 0)%Z
  | PyFloat literal => float_nonzero w literal
  | PyNaN => true
  | PyInf _ => true
  | PyStr s => truthy s
  | PyList items => match items with [] => false | _ :: _ => true end
  | PyDict items => match items with [] => false | _ :: _ => true end
  end.

Definition value_truthy (w : World) (v : value) : bool :=
  match v with
  | VNone => false
  | VStatus _ => true
  | VStr s => truthy s
  | VInt n => negb (n =? 0)%Z
  | VTime _ => true
  | VJson v => json_truthy w v
  end.

(** [str(e)] for the [ValueError] of [clean_llm_json]. *)
Definition error_message (w : World) (e : ParserService.error) : pystr :=
  match e with
  | ParserService.LLM_output_is_empty => u "LLM output is empty"
  | ParserService.No_valid_JSON_found =>
      u "No valid JSON object or array found in LLM output"
  | ParserService.Invalid_JSON extracted_json =>
      u "Invalid JSON in LLM output: " ++ decode_error w extracted_json
        ++ [10%N] ++ u "Extracted: " ++ firstn 500 extracted_json
  end.

(** [type(v).__name__] *)
Definition type_name (v : pyvalue) : pystr :=
  match v with
  | PyNone => u "NoneType"
  | PyBool _ => u "bool"
  | PyInt _ => u "int"
  | PyFloat _ | PyNaN | PyInf _ => u "float"
  | PyStr _ => u "str"
  | PyList _ => u "list"
  | PyDict _ => u "dict"
  end.

(** Step 3: [clean_llm_json], and [parsed_json.keys()] for the log; every
    exception becomes a [ValueError]. *)
Definition parse_response (w : World) (llm_response : pystr)
  : outcome (list (pystr * pyvalue)) :=
  let failed e := Raises (u "Failed to parse LLM response as JSON: " ++ e) in
  match ParserService.clean_llm_json (Some llm_response) with
  | ParserService.Raise e => failed (error_message w e)
  | ParserService.Return (PyDict items) => Returns items
  | ParserService.Return parsed_json =>
      failed (u "'" ++ type_name parsed_json ++ u "' object has no attribute 'keys'")
  end.

(** Step 5: [update_data] *)
Definition update_data (w : World) (llm_response : pystr)
           (metadata_dict sections_list : option value) : document :=
  let update_data :=
    dict_items [ (u "status", VStatus COMPLETED);
                 (u "processed_at", VTime (utcnow w));
                 (u "llm_raw_response", VStr llm_response) ] in
  let update_data :=
    match metadata_dict with
    | Some m => if value_truthy w m then dict_set (u "metadata") m update_data
                else update_data
    | None => update_data
    end in
  match sections_list with
  | Some s => if value_truthy w s then dict_set (u "sections") s update_data
              else update_data
  | None => update_data
  end.

(** The [try] block: the database it leaves, and how it ends. *)
Definition try_block (w : World) (doc_id : pystr) (db : InMemoryDB)
  : InMemoryDB * outcome unit :=
  let db := fst (update db doc_id (dict_items [(u "status", VStatus PROCESSING)])) in
  match get db doc_id with
  | None | Some [] => (db, Raises (u "Document not found: " ++ doc_id))
  | Some doc_data =>
      let no_path := (db, Raises (u "File path not found for document: " ++ doc_id)) in
      match dict_get (u "file_path") doc_data with
      | None => no_path
      | Some file_path =>
          if negb (value_truthy w file_path) then no_path
          else
            match new_OCRService w with
            | Raises e => (db, Raises e)
            | Returns _ =>
            match new_LLMService w with
            | Raises e => (db, Raises e)
            | Returns llm_service =>
            match OCRService.process_pdf (file_at w file_path) None with
            | Raises e => (db, Raises e)
            | Returns (ocr_text, ocr_metadata) =>
            let db :=
              fst (update db doc_id
                     (dict_items
                        [ (u "raw_text", VStr ocr_text);
                          (u "page_count",
                           VInt (Z.of_nat (OCRService.total_pages ocr_metadata))) ])) in
            match fst (LLMService.extract_document_data llm_service ocr_text 15000) with
            | Raises e => (db, Raises e)
            | Returns llm_response =>
            match parse_response w llm_response with
            | Raises e => (db, Raises e)
            | Returns parsed_json =>
            let '(metadata_dict, sections_list) := validate w parsed_json in
            (fst (update db doc_id
                    (update_data w llm_response metadata_dict sections_list)),
             Returns tt)
            end end end end end
      end
  end.

(** [process_document_background]; it returns [None] and raises nothing:
    what it does is what it leaves in the database. *)
Definition process_document_background (w : World) (doc_id : pystr) (db : InMemoryDB)
  : InMemoryDB :=
  match try_block w doc_id db with
  | (db, Returns _) => db
  | (db, Raises e) =>                              (* except Exception as e *)
      fst (update db doc_id
             (dict_items [ (u "status", VStatus FAILED);
                           (u "error_message", VStr e);
                           (u "processed_at", VTime (utcnow w)) ]))
  end.

End Process.

(* ================================================================== *)
(** * Notions of the design document                                   *)
(* ================================================================== *)

Module Spec.
Import Py Re Json OCRService ParserService.

(** Printable ASCII letters, and printable ASCII punctuation: the
    characters from [!] to [~] that are neither letters nor digits. *)
Definition ascii_letter (c : codepoint) : bool :=
  in_range 97 122 c || in_range 65 90 c.

Definition ascii_punctuation (c : codepoint) : bool :=
  in_range 33 47 c || in_range 58 64 c || in_range 91 96 c || in_range 123 126 c.

(** The punctuation that the classifier's character class lists. *)
Definition listed_punctuation (c : codepoint) : bool :=
  mem c (u ".,;:!?-'") || (c =? 34)%N || mem c (u "()[]{}/@#$%&*+=<>").

(** The pages a call of [process_pdf] goes through. *)
Definition pages_to_process (max_pages : option Z) (pages : list Page) : list Page :=
  match max_pages with
  | None => pages
  | Some n => if (n =? 0)%Z then pages else slice_to n pages
  end.

(** The fast path is taken for this result of [extract_text()]. *)
Definition fast_path (page_text : option pystr) : bool :=
  match page_text with
  | None => false
  | Some t => truthy t && negb (needs_ocr (Some t))
  end.

(** An exception is raised while the page is processed: by
    [extract_text], or, when the fast path is not taken, by the
    rasteriser or by the OCR engine. *)
Definition raises_in_page (pdf_path : PdfFile) (page_num : nat) (page : Page) : bool :=
  match extract_text page with
  | Raises _ => true
  | Returns page_text =>
      if fast_path page_text then false
      else
        match convert_from_path pdf_path page_num with
        | Raises _ => true
        | Returns [] => false
        | Returns (image0 :: _) =>
            match image_to_string image0 with
            | Raises _ => true
            | Returns _ => false
            end
        end
  end.

(** How a page ends up (the strategy of a page extraction result). *)
Inductive strategy : Type := FAST | OCR | FAILED.

Definition strategy_eqb (a b : strategy) : bool :=
  match a, b with
  | FAST, FAST | OCR, OCR | FAILED, FAILED => true
  | _, _ => false
  end.

Definition page_strategy (pdf_path : PdfFile) (page_num : nat) (page : Page) : strategy :=
  match extract_text page with
  | Raises _ => FAILED
  | Returns page_text =>
      if fast_path page_text then FAST
      else if truthy (extract_page_with_ocr pdf_path page_num) then OCR
      else FAILED
  end.

(** The counter that goes with a strategy. *)
Definition bump (s : strategy) (m : Metadata) : Metadata :=
  match s with
  | FAST => count_fast m
  | OCR => count_ocr m
  | FAILED => count_failed m
  end.

(** The pages with their numbers: [enumerate(pages, start)]. *)
Fixpoint enumerate {A : Type} (start : nat) (l : list A) : list (nat * A) :=
  match l with
  | [] => []
  | x :: l' => (start, x) :: enumerate (S start) l'
  end.

(** How many of the numbered pages end up with strategy [s]. *)
Definition tally (pdf_path : PdfFile) (s : strategy) (numbered : list (nat * Page)) : nat :=
  List.length
    (List.filter (fun np => strategy_eqb (page_strategy pdf_path (fst np) (snd np)) s)
                 numbered).

(** How many of the numbered pages raise an exception. *)
Definition raising (pdf_path : PdfFile) (numbered : list (nat * Page)) : nat :=
  List.length
    (List.filter (fun np => raises_in_page pdf_path (fst np) (snd np)) numbered).

(** Eleven characters of the Sinhala block. *)
Definition sinhala_sample : pystr :=
  [3523; 3538; 3458; 3524; 3517; 3461; 3482; 3530; 3522; 3515; 3535]%N.

(** A three-page file: a clean English page, a page on which
    [extract_text] raises, and a page without a text layer whose
    rasterisation raises. *)
Definition english_page : Page :=
  {| extract_text := Returns (Some (u "Hello, world! This is fine.")) |}.
Definition broken_page : Page :=
  {| extract_text := Raises (u "malformed content stream") |}.
Definition scanned_page : Page :=
  {| extract_text := Returns None |}.

Definition three_pages : PdfFile :=
  {| plumber_open := Returns [english_page; broken_page; scanned_page];
     convert_from_path := fun _ => Raises (u "poppler not found") |}.

(** A string between double quotes. *)
Definition dq (s : string) : pystr := [quote] ++ u s ++ [quote].

(** The two inputs of the design document's examples and their payload:
    the text of an object with key a and value 1. *)
Definition payload : pystr := u "{" ++ dq "a" ++ u ": 1}".
Definition fenced_input : pystr :=
  u "```json" ++ [10%N] ++ payload ++ [10%N] ++ u "```".
Definition chatty_input : pystr :=
  u "Here is the result: " ++ payload ++ u " Thanks!".


(** A list of candidates in which none is longer than one before it. *)
Definition longest_first : list pystr -> Prop :=
  StronglySorted (fun a b => List.length b <= List.length a).


(** The repairs of the repair step, in elementary terms. *)
Definition remove_trailing_commas (s : pystr) : pystr :=
  sub re_comma_bracket (u "]") (sub re_comma_brace (u "}") s).

Definition remove_control_chars (s : pystr) : pystr :=
  List.filter (fun c => negb (control_char c)) s.

Definition single_to_double_quotes (s : pystr) : pystr :=
  if negb (mem quote s) && mem (cp "'") s
  then List.map (fun c => if (c =? cp "'")%N then quote else c) s
  else s.

Definition remove_bom (s : pystr) : pystr :=
  List.filter (fun c => negb (c =? bom)%N) s.

(** [t] is a contiguous part of [s]. *)
Definition part_of (t s : pystr) : Prop := exists pre post, s = pre ++ t ++ post.

(** [c] opens with [open] and closes with [close]. *)
Definition enclosed (open close : codepoint) (c : pystr) : Prop :=
  exists mid, c = open :: mid ++ [close].

(** A JSON object or array, as opposed to a scalar. *)
Definition is_container (v : pyvalue) : bool :=
  match v with
  | PyDict _ | PyList _ => true
  | _ => false
  end.

(** What Tesseract reads on the rasterised page, when the rasteriser gives
    an image and neither of the two raises. *)
Definition ocr_reading (pdf_path : PdfFile) (page_num : nat) : option pystr :=
  match convert_from_path pdf_path page_num with
  | Returns (image0 :: _) =>
      match image_to_string image0 with
      | Returns page_text => Some page_text
      | Raises _ => None
      end
  | _ => None
  end.

(** A text of whitespace only (the empty text included). *)
Definition blank (s : pystr) : bool := forallb isspace s.

(** The page gives nothing: [extract_text] raises, or the fast path is not
    taken and OCR gives no reading or a reading of whitespace only. *)
Definition yields_nothing (pdf_path : PdfFile) (page_num : nat) (page : Page) : bool :=
  match extract_text page with
  | Raises _ => true
  | Returns page_text =>
      negb (fast_path page_text)
      && match ocr_reading pdf_path page_num with
         | None => true
         | Some s => blank s
         end
  end.

(** A one-page scan on which Tesseract reads nothing but a space and a
    newline; neither the rasteriser nor Tesseract raises. *)
Definition blank_scan : PdfFile :=
  {| plumber_open := Returns [scanned_page];
     convert_from_path :=
       fun _ => Returns [ {| image_to_string := Returns [32%N; 10%N] |} ] |}.

(** A reply after which [generate_response] tries again while attempts
    are left: a timeout, an exception other than a connection error, or a
    content that is empty once stripped. *)
Definition retriable (r : LLMService.api_reply) : bool :=
  match r with
  | LLMService.Content raw => negb (truthy (strip raw))
  | LLMService.TimeoutExc => true
  | LLMService.ConnectionExc _ => false
  | LLMService.OtherExc _ => true
  end.

(** The message of the exception raised when the last attempt ends in the
    retriable reply [r]. *)
Definition exhausted_message (max_retries : Z) (r : LLMService.api_reply) : pystr :=
  match r with
  | LLMService.Content _ => u "Empty response from model"
  | LLMService.TimeoutExc =>
      u "Timeout after " ++ LLMService.str_of_Z max_retries ++ u " attempts"
  | LLMService.ConnectionExc e => u "Connection error: " ++ e
  | LLMService.OtherExc e => e
  end.

(** A provider that times out once and then sends an object in a fence. *)
Definition slow_provider : LLMService.Service :=
  {| LLMService.LLM_MAX_RETRIES := 3;
     LLMService.api := fun _ attempt =>
       match attempt with
       | 1 => LLMService.TimeoutExc
       | _ => LLMService.Content ([32%N] ++ fenced_input ++ [10%N])
       end |}.

(** A provider that cannot be reached at the second call. *)
Definition unreachable_provider : LLMService.Service :=
  {| LLMService.LLM_MAX_RETRIES := 3;
     LLMService.api := fun _ attempt =>
       match attempt with
       | 1 => LLMService.OtherExc (u "OpenRouter API error (502): ")
       | _ => LLMService.ConnectionExc (u "connection refused")
       end |}.

(** A provider that never answers in time. *)
Definition silent_provider : LLMService.Service :=
  {| LLMService.LLM_MAX_RETRIES := 3;
     LLMService.api := fun _ _ => LLMService.TimeoutExc |}.

(** The run on the record [doc] gets an answer from the model: the record
    has a file path, both services are built, [process_pdf] returns [text]
    and [md], and the model answers [response]. *)
Definition run_answers (w : Process.World) (doc : Process.document)
           (text : pystr) (md : Metadata) (response : pystr) : Prop :=
  exists file_path llm_service,
    Process.dict_get (u "file_path") doc = Some file_path
    /\ Process.value_truthy w file_path = true
    /\ (exists ocr_service, Process.new_OCRService w = Returns ocr_service)
    /\ Process.new_LLMService w = Returns llm_service
    /\ process_pdf (Process.file_at w file_path) None = Returns (text, md)
    /\ fst (LLMService.extract_document_data llm_service text 15000) = Returns response.

(** The run goes through: the model answers, and [clean_llm_json] parses
    the answer into a dictionary with [items]. *)
Definition run_succeeds (w : Process.World) (doc : Process.document)
           (text : pystr) (md : Metadata) (response : pystr)
           (items : list (pystr * pyvalue)) : Prop :=
  run_answers w doc text md response
  /\ clean_llm_json (Some response) = Return (PyDict items).

(** The message kept when the answer parses into a list. *)
Definition list_has_no_keys : pystr :=
  u "Failed to parse LLM response as JSON: 'list' object has no attribute 'keys'".

(** The record of a document after its upload, for a one-page file. *)
Definition uploaded_record : Process.document :=
  dict_items
    [ (u "id", Process.VStr (u "doc_1"));
      (u "status", Process.VStatus Process.UPLOADED);
      (u "processed_at", Process.VNone);
      (u "error_message", Process.VNone);
      (u "file_path", Process.VStr (u "uploads/doc_1_case.pdf")) ].

(** A world in which the file has one clean English page and the model
    answers, at its second attempt, with [reply]. *)
Definition world_with (reply : pystr) : Process.World :=
  {| Process.new_OCRService := Returns tt;
     Process.new_LLMService :=
       Returns {| LLMService.LLM_MAX_RETRIES := 3;
                  LLMService.api := fun _ attempt =>
                    match attempt with
                    | 1 => LLMService.TimeoutExc
                    | _ => LLMService.Content reply
                    end |};
     Process.file_at := fun _ =>
       {| plumber_open := Returns [english_page];
          convert_from_path := fun _ => Returns [] |};
     Process.validate := fun _ => (None, None);
     Process.utcnow := 0;
     Process.decode_error := fun _ => [];
     Process.float_nonzero := fun _ => true |}.

End Spec.

(* ================================================================== *)
(** * Properties                                                       *)
(* ================================================================== *)

Import Py Re.
Unset Implicit Arguments.

(** ** Strings *)

Lemma lstrip_all_space (s : pystr) :
  Forall (fun c => isspace c = true) s -> lstrip s = [].
Proof.
  induction 1 as [| c s Hc _ IH]; cbn; [reflexivity |].
  now rewrite Hc.
Qed.

Lemma strip_all_space (s : pystr) :
  Forall (fun c => isspace c = true) s -> strip s = [].
Proof.
  intros H. unfold strip, rstrip. now rewrite (lstrip_all_space _ H).
Qed.

Lemma lstrip_no_space (s : pystr) :
  Forall (fun c => isspace c = false) s -> lstrip s = s.
Proof.
  destruct 1 as [| c s Hc _]; cbn; [reflexivity |]. now rewrite Hc.
Qed.

Lemma strip_no_space (s : pystr) :
  Forall (fun c => isspace c = false) s -> strip s = s.
Proof.
  intros H. unfold strip, rstrip. rewrite (lstrip_no_space _ H).
  rewrite lstrip_no_space, rev_involutive; [reflexivity |].
  apply Forall_rev, H.
Qed.

(** Leading whitespace is dropped up to the first other character. *)
Lemma lstrip_head (s : pystr) :
  match lstrip s with
  | [] => True
  | c :: _ => isspace c = false
  end.
Proof.
  induction s as [| c s IH]; cbn; [exact I |].
  destruct (isspace c) eqn:E; [exact IH | exact E].
Qed.

Lemma lstrip_snoc (s : pystr) (c : codepoint) :
  isspace c = false -> lstrip (s ++ [c]) = lstrip s ++ [c].
Proof.
  intros Hc. induction s as [| d s IH]; cbn.
  - now rewrite Hc.
  - destruct (isspace d); [exact IH | reflexivity].
Qed.

Lemma lstrip_idem (s : pystr) : lstrip (lstrip s) = lstrip s.
Proof.
  pose proof (lstrip_head s) as H. destruct (lstrip s) as [| c t]; cbn.
  - reflexivity.
  - now rewrite H.
Qed.

Lemma rstrip_cons (c : codepoint) (s : pystr) :
  isspace c = false -> rstrip (c :: s) = c :: rstrip s.
Proof.
  intros Hc. unfold rstrip. cbn [rev].
  rewrite (lstrip_snoc _ _ Hc), rev_app_distr. reflexivity.
Qed.

Lemma rstrip_idem (s : pystr) : rstrip (rstrip s) = rstrip s.
Proof.
  unfold rstrip. now rewrite rev_involutive, lstrip_idem.
Qed.

(** A stripped string is a fixed point of [strip]. *)
Lemma strip_idem (s : pystr) : strip (strip s) = strip s.
Proof.
  unfold strip. pose proof (lstrip_head s) as H.
  destruct (lstrip s) as [| c t].
  - reflexivity.
  - rewrite (rstrip_cons _ _ H). cbn [lstrip]. rewrite H.
    rewrite (rstrip_cons _ _ H). now rewrite rstrip_idem.
Qed.

Lemma lstrip_incl (s : pystr) (P : codepoint -> Prop) :
  Forall P s -> Forall P (lstrip s).
Proof.
  induction 1 as [| c s Hc Hs IH]; cbn; [constructor |].
  destruct (isspace c); [exact IH | now constructor].
Qed.

Lemma strip_incl (s : pystr) (P : codepoint -> Prop) :
  Forall P s -> Forall P (strip s).
Proof.
  intros H. unfold strip, rstrip.
  apply Forall_rev, lstrip_incl, Forall_rev, lstrip_incl, H.
Qed.

(** ** One-character patterns *)

Lemma match_at_Chr (p : codepoint -> bool) (prev : option codepoint) (rest : pystr) :
  match_at (Chr p) prev rest =
  match rest with
  | c :: _ => if p c then Some (1, None) else None
  | [] => None
  end.
Proof.
  destruct rest as [| c rest]; [reflexivity |].
  unfold match_at. cbn [rmatch ms_rest ms_group].
  destruct (p c); [| reflexivity].
  do 2 f_equal. cbn [List.length]. lia.
Qed.

(** [findall] of a one-character class lists the characters of the class. *)
Lemma findall_Chr (p : codepoint -> bool) (s : pystr) :
  findall (Chr p) s = List.map (fun c => [c]) (List.filter p s).
Proof.
  unfold findall, finditer. generalize (@None codepoint) as prev.
  induction s as [| c s IH]; intros prev.
  - reflexivity.
  - cbn [finditer_from]. rewrite match_at_Chr. cbn [List.filter].
    destruct (p c); cbn [List.map m_text firstn pred]; now rewrite IH.
Qed.

Lemma findall_Chr_length (p : codepoint -> bool) (s : pystr) :
  List.length (findall (Chr p) s) = List.length (List.filter p s).
Proof. now rewrite findall_Chr, length_map. Qed.

(** [sub] of a one-character class with the empty string deletes the
    characters of the class. *)
Lemma sub_Chr_delete (p : codepoint -> bool) (s : pystr) :
  sub (Chr p) [] s = List.filter (fun c => negb (p c)) s.
Proof.
  unfold sub. generalize (@None codepoint) as prev.
  induction s as [| c s IH]; intros prev.
  - reflexivity.
  - cbn [sub_from]. rewrite match_at_Chr. cbn [List.filter].
    destruct (p c); cbn [negb app]; now rewrite IH.
Qed.

Lemma filter_all (A : Type) (p : A -> bool) (l : list A) :
  Forall (fun x => p x = true) l -> List.filter p l = l.
Proof.
  induction 1 as [| x l Hx _ IH]; cbn; [reflexivity |]. now rewrite Hx, IH.
Qed.

Lemma filter_none (A : Type) (p : A -> bool) (l : list A) :
  Forall (fun x => p x = false) l -> List.filter p l = [].
Proof.
  induction 1 as [| x l Hx _ IH]; cbn; [reflexivity |]. now rewrite Hx, IH.
Qed.

(** ** The page classifier *)

Import OCRService Spec.

Ltac decide_cmp :=
  repeat match goal with
         | |- context [(?a <=? ?b)%N] => destruct (N.leb_spec a b); try lia
         | |- context [(?a =? ?b)%N] => destruct (N.eqb_spec a b); try lia
         end;
  cbn; try reflexivity.

Ltac split_orb H :=
  repeat match type of H with
         | (_ || _) = true => apply orb_true_iff in H; destruct H as [H | H]
         end.

Lemma in_range_iff (lo hi c : codepoint) :
  in_range lo hi c = true <-> (lo <= c <= hi)%N.
Proof.
  unfold in_range. rewrite andb_true_iff, !N.leb_le. reflexivity.
Qed.

Lemma letter_or_listed_range (c : codepoint) :
  ascii_letter c || listed_punctuation c = true -> (33 <= c <= 126)%N.
Proof.
  unfold ascii_letter, listed_punctuation, mem. cbn. intros H.
  split_orb H;
    first [ apply in_range_iff in H; lia
          | apply N.eqb_eq in H; lia
          | discriminate H ].
Qed.

Lemma letter_or_listed_ascii_class (c : codepoint) :
  ascii_letter c || listed_punctuation c = true -> ascii_class c = true.
Proof.
  unfold ascii_letter, listed_punctuation, ascii_class. intros H.
  split_orb H; rewrite H; rewrite ?orb_true_r; reflexivity.
Qed.

Lemma visible_ascii_not_space (c : codepoint) :
  (33 <= c <= 126)%N -> isspace c = false.
Proof. intros H. unfold isspace, in_range. decide_cmp. Qed.

Lemma visible_ascii_not_sinhala (c : codepoint) :
  (33 <= c <= 126)%N -> sinhala_class c = false.
Proof. intros H. unfold sinhala_class, in_range. decide_cmp. Qed.

Lemma visible_ascii_not_tamil (c : codepoint) :
  (33 <= c <= 126)%N -> tamil_class c = false.
Proof. intros H. unfold tamil_class, in_range. decide_cmp. Qed.

Lemma sinhala_not_space (c : codepoint) :
  sinhala_class c = true -> isspace c = false.
Proof.
  intros H. apply in_range_iff in H. unfold isspace, in_range. decide_cmp.
Qed.

(** The three comparisons of ratios, at the two ends of the scale. *)
Lemma whole_gt_0_01 (n : Z) :
  (0 < n)%Z -> ratio_gt (ratio_of n n) f_0_01 = true.
Proof.
  intros Hn. unfold ratio_of. replace (n >? 0)%Z with true by (symmetry; lia).
  unfold ratio_gt, truediv_gt, f_0_01. cbn [mant expo].
  change (Z.even 5764607523034235) with false. cbv iota.
  change (2 ^ (59 + 1))%Z with 1152921504606846976%Z. lia.
Qed.

Lemma whole_gt_0_80 (n : Z) :
  (0 < n)%Z -> ratio_gt (ratio_of n n) f_0_80 = true.
Proof.
  intros Hn. unfold ratio_of. replace (n >? 0)%Z with true by (symmetry; lia).
  unfold ratio_gt, truediv_gt, f_0_80. cbn [mant expo].
  change (Z.even 7205759403792794) with true. cbv iota.
  change (2 ^ (53 + 1))%Z with 18014398509481984%Z. lia.
Qed.

Lemma nothing_not_gt (n : Z) (d : binary64) :
  (0 <= mant d)%Z -> ratio_gt (ratio_of 0 n) d = false.
Proof.
  intros Hd. unfold ratio_of. destruct (n >? 0)%Z eqn:Hn; [| reflexivity].
  unfold ratio_gt, truediv_gt. destruct (Z.even (mant d)); lia.
Qed.

(** A text all of whose characters are in the classifier's ASCII class,
    none of them Sinhala or Tamil, and with at least ten characters left
    after stripping, takes the fast path. *)
Lemma needs_ocr_ascii (s : pystr) :
  Forall (fun c => ascii_class c = true) s ->
  Forall (fun c => sinhala_class c = false) s ->
  Forall (fun c => tamil_class c = false) s ->
  10 <= List.length (strip s) ->
  needs_ocr (Some s) = false.
Proof.
  intros Ha Hs Ht Hlen. unfold needs_ocr.
  assert (Hpos : 0 < List.length s).
  { destruct s; [cbn in Hlen; lia | cbn; lia]. }
  replace (truthy s) with true by (destruct s; [cbn in Hpos; lia | reflexivity]).
  replace (List.length (strip s) <? 10) with false by (symmetry; apply Nat.ltb_ge, Hlen).
  cbn [negb orb].
  rewrite !findall_Chr_length.
  rewrite (filter_all _ _ _ Ha), (filter_none _ _ _ Hs), (filter_none _ _ _ Ht).
  cbn [List.length]. change (Z.of_nat 0) with 0%Z.
  replace (Z.of_nat (List.length s) - Z.of_nat (List.length s) - 0 - 0)%Z with 0%Z by lia.
  rewrite (nothing_not_gt _ f_0_01) by (cbn; lia).
  rewrite (nothing_not_gt _ f_0_20) by (cbn; lia).
  rewrite whole_gt_0_80 by lia.
  reflexivity.
Qed.

(** C3, as stated, fails on a signature line: ten underscores are
    printable ASCII punctuation, yet the underscore is not in the
    classifier's character class, so the page is sent to OCR. *)
Lemma needs_ocr_signature_line :
  Forall (fun c => ascii_letter c || ascii_punctuation c = true) (u "__________")
  /\ 10 <= List.length (u "__________")
  /\ needs_ocr (Some (u "__________")) = true.
Proof.
  split; [repeat constructor | split; [cbn; lia | vm_compute; reflexivity]].
Qed.

(** C3 (amended): for every string composed only of ASCII letters and of
    the punctuation characters listed in the classifier's character class
    (. , ; : ! ? - ' the double quote ( ) [ ] { } / @ # $ % & * + = < >)
    whose length is at least 10, [needs_ocr] returns false. *)
Theorem needs_ocr_letters_and_listed_punctuation (s : pystr) :
  Forall (fun c => ascii_letter c || listed_punctuation c = true) s ->
  10 <= List.length s ->
  needs_ocr (Some s) = false.
Proof.
  intros Hs Hlen.
  assert (Hr : Forall (fun c => (33 <= c <= 126)%N) s).
  { eapply Forall_impl; [| exact Hs]. apply letter_or_listed_range. }
  apply needs_ocr_ascii.
  - eapply Forall_impl; [| exact Hs]. apply letter_or_listed_ascii_class.
  - eapply Forall_impl; [| exact Hr]. apply visible_ascii_not_sinhala.
  - eapply Forall_impl; [| exact Hr]. apply visible_ascii_not_tamil.
  - rewrite strip_no_space; [exact Hlen |].
    eapply Forall_impl; [| exact Hr]. apply visible_ascii_not_space.
Qed.

Lemma needs_ocr_letters_and_listed_punctuation_witness :
  Forall (fun c => ascii_letter c || listed_punctuation c = true) (u "Hello,world!")
  /\ 10 <= List.length (u "Hello,world!")
  /\ needs_ocr (Some (u "Hello,world!")) = false.
Proof.
  assert (H1 : Forall (fun c => ascii_letter c || listed_punctuation c = true)
                      (u "Hello,world!")) by (repeat constructor).
  assert (H2 : 10 <= List.length (u "Hello,world!")) by (cbn; lia).
  split; [exact H1 | split; [exact H2 |]].
  exact (needs_ocr_letters_and_listed_punctuation (u "Hello,world!") H1 H2).
Defined.

(** C8: [needs_ocr] returns true for every non-empty string composed only
    of characters of the Sinhala block (U+0D80 to U+0DFF), for the empty
    string and for [None]. *)
Theorem needs_ocr_sinhala_empty_none :
  (forall s : pystr,
      s <> [] ->
      Forall (fun c => sinhala_class c = true) s ->
      needs_ocr (Some s) = true)
  /\ needs_ocr (Some []) = true
  /\ needs_ocr None = true.
Proof.
  split; [| split; reflexivity].
  intros s Hne Hs. unfold needs_ocr.
  destruct (negb (truthy s) || (List.length (strip s) <? 10)); [reflexivity |].
  rewrite (findall_Chr_length sinhala_class).
  rewrite (filter_all _ _ _ Hs).
  rewrite whole_gt_0_01; [reflexivity |].
  destruct s; [congruence | cbn [List.length]; lia].
Qed.

Lemma needs_ocr_sinhala_empty_none_witness :
  sinhala_sample <> []
  /\ Forall (fun c => sinhala_class c = true) sinhala_sample
  /\ needs_ocr (Some sinhala_sample) = true.
Proof.
  assert (H1 : sinhala_sample <> (@nil codepoint)) by discriminate.
  assert (H2 : Forall (fun c => sinhala_class c = true) sinhala_sample)
    by (repeat constructor).
  split; [exact H1 | split; [exact H2 |]].
  exact (proj1 needs_ocr_sinhala_empty_none _ H1 H2).
Defined.

(** ** The page loop *)

(** One turn of the loop moves exactly one page counter, the one of the
    page's strategy. *)
Lemma process_page_metadata (pdf : PdfFile) (n : nat) (page : Page) (st : loop_state) :
  snd (process_page pdf n page st) = bump (page_strategy pdf n page) (snd st).
Proof.
  destruct st as [all_text md]. unfold process_page, page_strategy.
  destruct (extract_text page) as [page_text | e]; [| reflexivity].
  fold (fast_path page_text).
  destruct (fast_path page_text); [reflexivity |].
  destruct (truthy (extract_page_with_ocr pdf n)); reflexivity.
Qed.

(** A page on which an exception is raised ends up FAILED. *)
Lemma raises_in_page_failed (pdf : PdfFile) (n : nat) (page : Page) :
  raises_in_page pdf n page = true -> page_strategy pdf n page = FAILED.
Proof.
  unfold raises_in_page, page_strategy, extract_page_with_ocr.
  destruct (extract_text page) as [page_text | e]; [| reflexivity].
  destruct (fast_path page_text); [discriminate |].
  destruct (convert_from_path pdf n) as [[| image0 images] | e];
    [discriminate | | reflexivity].
  destruct (image_to_string image0); [discriminate | reflexivity].
Qed.

Lemma tally_cons (pdf : PdfFile) (s : strategy) (np : nat * Page) (l : list (nat * Page)) :
  tally pdf s (np :: l) =
  (if strategy_eqb (page_strategy pdf (fst np) (snd np)) s then 1 else 0) + tally pdf s l.
Proof.
  unfold tally. cbn [List.filter].
  destruct (strategy_eqb _ s); reflexivity.
Qed.

Lemma tally_partition (pdf : PdfFile) (l : list (nat * Page)) :
  tally pdf FAST l + tally pdf OCR l + tally pdf FAILED l = List.length l.
Proof.
  induction l as [| np l IH]; [reflexivity |].
  rewrite !tally_cons. cbn [List.length].
  destruct (page_strategy pdf (fst np) (snd np)); cbn [strategy_eqb]; lia.
Qed.

Lemma raising_le_failed (pdf : PdfFile) (l : list (nat * Page)) :
  raising pdf l <= tally pdf FAILED l.
Proof.
  induction l as [| np l IH]; [reflexivity |].
  rewrite tally_cons. unfold raising in *. cbn [List.filter].
  destruct (raises_in_page pdf (fst np) (snd np)) eqn:E.
  - rewrite (raises_in_page_failed _ _ _ E). cbn [strategy_eqb List.length]. lia.
  - lia.
Qed.

Lemma enumerate_length (A : Type) (l : list A) (start : nat) :
  List.length (enumerate start l) = List.length l.
Proof.
  revert start. induction l as [| x l IH]; intros start; cbn; [reflexivity |].
  now rewrite IH.
Qed.

(** The counters after the loop: every page has been tallied once. *)
Lemma process_pages_counters (pdf : PdfFile) (pages : list Page) :
  forall (n : nat) (st : loop_state),
    let md := snd st in
    let md' := snd (process_pages pdf n pages st) in
    let l := enumerate n pages in
    total_pages md' = total_pages md
    /\ fast_path_pages md' = fast_path_pages md + tally pdf FAST l
    /\ ocr_fallback_pages md' = ocr_fallback_pages md + tally pdf OCR l
    /\ failed_pages md' = failed_pages md + tally pdf FAILED l
    /\ successful_pages md' = successful_pages md + tally pdf FAST l + tally pdf OCR l.
Proof.
  induction pages as [| page pages IH]; intros n st; cbn zeta.
  - cbn. repeat split; lia.
  - cbn [process_pages enumerate]. rewrite !tally_cons. cbn [fst snd].
    specialize (IH (S n) (process_page pdf n page st)). cbn zeta in IH.
    rewrite process_page_metadata in IH.
    destruct IH as (H1 & H2 & H3 & H4 & H5).
    rewrite H1, H2, H3, H4, H5.
    destruct (page_strategy pdf n page); cbn; repeat split; lia.
Qed.

(** [process_pdf] returns whenever the file opens, whatever happens on its
    pages, and its counters are the tallies of the pages it went through. *)
Lemma process_pdf_returns (pdf : PdfFile) (max_pages : option Z) (pages : list Page) :
  plumber_open pdf = Returns pages ->
  exists text md,
    process_pdf pdf max_pages = Returns (text, md)
    /\ let l := enumerate 1 (pages_to_process max_pages pages) in
       total_pages md = List.length pages
       /\ fast_path_pages md = tally pdf FAST l
       /\ ocr_fallback_pages md = tally pdf OCR l
       /\ failed_pages md = tally pdf FAILED l
       /\ successful_pages md = tally pdf FAST l + tally pdf OCR l.
Proof.
  intros Hopen. unfold process_pdf. rewrite Hopen.
  fold (pages_to_process max_pages pages).
  pose proof (process_pages_counters pdf (pages_to_process max_pages pages) 1
                ([], set_total_pages (List.length pages) metadata0)) as H.
  cbn zeta in H.
  destruct (process_pages pdf 1 (pages_to_process max_pages pages)
              ([], set_total_pages (List.length pages) metadata0)) as [all_text md].
  cbn [snd] in H. destruct H as (H1 & H2 & H3 & H4 & H5).
  eexists. eexists. split; [reflexivity |].
  cbn zeta. cbn [set_counts total_pages fast_path_pages ocr_fallback_pages
                 failed_pages successful_pages].
  rewrite H1, H2, H3, H4, H5. cbn. repeat split; lia.
Qed.

Lemma slice_to_length (A : Type) (k : Z) (l : list A) :
  (0 <= k)%Z -> List.length (slice_to k l) = Nat.min (Z.to_nat k) (List.length l).
Proof.
  intros Hk. unfold slice_to.
  replace (k <? 0)%Z with false by (symmetry; lia).
  apply length_firstn.
Qed.

(** C1, as stated, fails when a page limit below the number of pages is
    supplied: [total_pages] is the number of pages of the file (3), while
    only the first page is processed and tallied. *)
Lemma process_pdf_limit_breaks_partition :
  exists text md,
    process_pdf three_pages (Some 1%Z) = Returns (text, md)
    /\ total_pages md = 3
    /\ fast_path_pages md + ocr_fallback_pages md + failed_pages md = 1.
Proof.
  eexists. eexists. split; [vm_compute; reflexivity |].
  split; reflexivity.
Qed.

(** C1 (amended): for every document that opens, [total_pages] equals the
    number N of pages of the document, and [fast_path_pages +
    ocr_fallback_pages + failed_pages] equals the number of pages
    processed: N when [max_pages] is absent, zero or at least N, and
    [max_pages] when it lies strictly between 0 and N. *)
Theorem process_pdf_partition (pdf : PdfFile) (max_pages : option Z) (pages : list Page) :
  plumber_open pdf = Returns pages ->
  exists text md,
    process_pdf pdf max_pages = Returns (text, md)
    /\ total_pages md = List.length pages
    /\ fast_path_pages md + ocr_fallback_pages md + failed_pages md
       = List.length (pages_to_process max_pages pages)
    /\ ((max_pages = None \/ max_pages = Some 0%Z
         \/ (exists k, max_pages = Some k /\ (Z.of_nat (List.length pages) <= k)%Z)) ->
        fast_path_pages md + ocr_fallback_pages md + failed_pages md
        = total_pages md)
    /\ (forall k, max_pages = Some k ->
                  (0 < k < Z.of_nat (List.length pages))%Z ->
                  Z.of_nat (fast_path_pages md + ocr_fallback_pages md + failed_pages md)
                  = k).
Proof.
  intros Hopen.
  destruct (process_pdf_returns pdf max_pages pages Hopen)
    as (text & md & Hret & Htot & Hf & Ho & Hx & _).
  exists text, md. split; [exact Hret |]. split; [exact Htot |].
  assert (Hsum : fast_path_pages md + ocr_fallback_pages md + failed_pages md
                 = List.length (pages_to_process max_pages pages)).
  { rewrite Hf, Ho, Hx, tally_partition. apply enumerate_length. }
  split; [exact Hsum |]. rewrite Hsum, Htot. split.
  - intros [-> | [-> | (k & -> & Hk)]]; cbn [pages_to_process]; try reflexivity.
    destruct (k =? 0)%Z; [reflexivity |].
    rewrite slice_to_length by lia. lia.
  - intros k -> Hk. cbn [pages_to_process].
    replace (k =? 0)%Z with false by (symmetry; lia).
    rewrite slice_to_length by lia. lia.
Qed.

Lemma process_pdf_partition_witness :
  plumber_open three_pages = Returns [english_page; broken_page; scanned_page]
  /\ exists text md,
       process_pdf three_pages None = Returns (text, md)
       /\ total_pages md = 3
       /\ fast_path_pages md + ocr_fallback_pages md + failed_pages md = 3.
Proof.
  split; [reflexivity |].
  destruct (process_pdf_partition three_pages None
              [english_page; broken_page; scanned_page] eq_refl)
    as (text & md & Hret & Htot & Hsum & _).
  exists text, md. split; [exact Hret |]. split; [exact Htot | exact Hsum].
Defined.

(** C9: the metadata of every processed document satisfies
    [successful_pages == fast_path_pages + ocr_fallback_pages]: the fast
    counter tallies the pages extracted on the fast path, the fallback
    counter those extracted by OCR, and the failed counter the pages that
    failed, so each page gone through is counted either as successful, by
    one strategy, or as failed, never as both. *)
Theorem process_pdf_successful (pdf : PdfFile) (max_pages : option Z) (pages : list Page) :
  plumber_open pdf = Returns pages ->
  exists text md,
    process_pdf pdf max_pages = Returns (text, md)
    /\ successful_pages md = fast_path_pages md + ocr_fallback_pages md
    /\ (let l := enumerate 1 (pages_to_process max_pages pages) in
        fast_path_pages md = tally pdf FAST l
        /\ ocr_fallback_pages md = tally pdf OCR l
        /\ failed_pages md = tally pdf FAILED l)
    /\ successful_pages md + failed_pages md
       = List.length (pages_to_process max_pages pages).
Proof.
  intros Hopen.
  destruct (process_pdf_returns pdf max_pages pages Hopen)
    as (text & md & Hret & Htot & Hf & Ho & Hx & Hs).
  exists text, md. split; [exact Hret |].
  rewrite Hs, Hf, Ho, Hx. split; [reflexivity |].
  split; [cbn zeta; repeat split |].
  rewrite tally_partition. apply enumerate_length.
Qed.

Lemma process_pdf_successful_witness :
  plumber_open three_pages = Returns [english_page; broken_page; scanned_page]
  /\ exists text md,
       process_pdf three_pages None = Returns (text, md)
       /\ successful_pages md = fast_path_pages md + ocr_fallback_pages md.
Proof.
  split; [reflexivity |].
  destruct (process_pdf_successful three_pages None
              [english_page; broken_page; scanned_page] eq_refl)
    as (text & md & Hret & Hs & _).
  exists text, md. split; [exact Hret | exact Hs].
Defined.

(** C7: an exception raised on a page, during the fast extraction or
    during OCR, is caught inside [process_pdf]: that page is counted in
    [failed_pages] (and in nothing else), the remaining pages are still
    gone through, and [process_pdf] returns to its caller. *)
Theorem process_pdf_catches_page_exceptions :
  (forall (pdf : PdfFile) (page_num : nat) (page : Page) (st : loop_state),
      raises_in_page pdf page_num page = true ->
      process_page pdf page_num page st = (fst st, count_failed (snd st)))
  /\ (forall (pdf : PdfFile) (max_pages : option Z) (pages : list Page),
         plumber_open pdf = Returns pages ->
         exists text md,
           process_pdf pdf max_pages = Returns (text, md)
           /\ raising pdf (enumerate 1 (pages_to_process max_pages pages))
              <= failed_pages md
           /\ fast_path_pages md + ocr_fallback_pages md + failed_pages md
              = List.length (pages_to_process max_pages pages)).
Proof.
  split.
  - intros pdf n page [all_text md].
    unfold raises_in_page, process_page, extract_page_with_ocr.
    destruct (extract_text page) as [page_text | e]; [| reflexivity].
    fold (fast_path page_text).
    destruct (fast_path page_text); [discriminate |].
    destruct (convert_from_path pdf n) as [[| image0 images] | e];
      [discriminate | | reflexivity].
    destruct (image_to_string image0); [discriminate | reflexivity].
  - intros pdf max_pages pages Hopen.
    destruct (process_pdf_returns pdf max_pages pages Hopen)
      as (text & md & Hret & Htot & Hf & Ho & Hx & _).
    exists text, md. split; [exact Hret |].
    rewrite Hf, Ho, Hx. split; [apply raising_le_failed |].
    rewrite tally_partition. apply enumerate_length.
Qed.

Lemma process_pdf_catches_page_exceptions_witness :
  raises_in_page three_pages 2 broken_page = true
  /\ process_page three_pages 2 broken_page ([], metadata0)
     = ([], count_failed metadata0)
  /\ raises_in_page three_pages 3 scanned_page = true
  /\ plumber_open three_pages = Returns [english_page; broken_page; scanned_page]
  /\ exists text md,
       process_pdf three_pages None = Returns (text, md)
       /\ 2 <= failed_pages md
       /\ fast_path_pages md + ocr_fallback_pages md + failed_pages md = 3.
Proof.
  split; [reflexivity |].
  split; [exact (proj1 process_pdf_catches_page_exceptions three_pages 2 broken_page
                   ([], metadata0) eq_refl) |].
  split; [reflexivity |]. split; [reflexivity |].
  destruct (proj2 process_pdf_catches_page_exceptions three_pages None
              [english_page; broken_page; scanned_page] eq_refl)
    as (text & md & Hret & Hr & Hsum).
  exists text, md. split; [exact Hret |]. split; [exact Hr | exact Hsum].
Defined.

(** ** The response parser *)

Import Json ParserService.

(** C10: [clean_llm_json] raises the [ValueError] for an empty output when
    its input is [None], the empty string, or whitespace only, whatever
    the extraction strategies would find. *)
Theorem clean_llm_json_rejects_blank :
  clean_llm_json None = Raise LLM_output_is_empty
  /\ clean_llm_json (Some []) = Raise LLM_output_is_empty
  /\ (forall s : pystr,
         Forall (fun c => isspace c = true) s ->
         clean_llm_json (Some s) = Raise LLM_output_is_empty).
Proof.
  split; [reflexivity |]. split; [reflexivity |].
  intros s Hs. unfold clean_llm_json.
  rewrite (strip_all_space _ Hs). cbn [truthy negb].
  now rewrite orb_true_r.
Qed.

Lemma clean_llm_json_rejects_blank_witness :
  Forall (fun c => isspace c = true) [32%N; 9%N; 10%N; 32%N]
  /\ clean_llm_json (Some [32%N; 9%N; 10%N; 32%N]) = Raise LLM_output_is_empty.
Proof.
  assert (H : Forall (fun c => isspace c = true) [32%N; 9%N; 10%N; 32%N])
    by (repeat constructor).
  split; [exact H |].
  exact (proj2 (proj2 clean_llm_json_rejects_blank) _ H).
Defined.




(** *** Selecting the candidate *)

Lemma insert_by_len_In (m x : pystr) (l : list pystr) :
  In x (insert_by_len m l) <-> x = m \/ In x l.
Proof.
  induction l as [| y l IH]; cbn [insert_by_len].
  - cbn. intuition (subst; auto).
  - destruct (List.length m <? List.length y); cbn [In]; rewrite ?IH;
      intuition (subst; auto).
Qed.

Lemma sort_longest_first_In (x : pystr) (ms : list pystr) :
  In x (sort_longest_first ms) <-> In x ms.
Proof.
  induction ms as [| m ms IH]; cbn; [reflexivity |].
  rewrite insert_by_len_In, IH. intuition (subst; auto).
Qed.

Lemma insert_by_len_sorted (m : pystr) (l : list pystr) :
  longest_first l -> longest_first (insert_by_len m l).
Proof.
  unfold longest_first. induction 1 as [| y l Hl IH Hy]; cbn [insert_by_len].
  - repeat constructor.
  - destruct (List.length m <? List.length y) eqn:E.
    + constructor; [exact IH |].
      apply Forall_forall. intros x Hx. apply insert_by_len_In in Hx.
      destruct Hx as [-> | Hx].
      * apply Nat.ltb_lt in E. lia.
      * rewrite Forall_forall in Hy. now apply Hy.
    + apply Nat.ltb_ge in E. constructor; [now constructor |].
      constructor; [exact E |].
      eapply Forall_impl; [| exact Hy]. cbn. intros; lia.
Qed.

Lemma sort_longest_first_sorted (ms : list pystr) :
  longest_first (sort_longest_first ms).
Proof.
  induction ms as [| m ms IH]; cbn; [constructor |].
  now apply insert_by_len_sorted.
Qed.

(** The first hit in a list sorted longest-first is a longest hit. *)
Lemma find_longest (p : pystr -> bool) (l : list pystr) (c : pystr) :
  longest_first l ->
  List.find p l = Some c ->
  In c l /\ p c = true
  /\ forall c', In c' l -> p c' = true -> List.length c' <= List.length c.
Proof.
  unfold longest_first. induction 1 as [| y l Hl IH Hy]; cbn; [discriminate |].
  destruct (p y) eqn:E.
  - intros [= <-]. split; [now left |]. split; [exact E |].
    intros c' [<- | Hc'] _; [lia |].
    rewrite Forall_forall in Hy. now apply Hy.
  - intros Hf. destruct (IH Hf) as (Hin & Hp & Hmax).
    split; [now right |]. split; [exact Hp |].
    intros c' [<- | Hc'] Hp'; [congruence | now apply Hmax].
Qed.

Lemma find_first (A : Type) (p : A -> bool) (l : list A) :
  match List.find p l with
  | Some x =>
      exists l1 l2, l = l1 ++ x :: l2
                    /\ Forall (fun y => p y = false) l1 /\ p x = true
  | None => Forall (fun y => p y = false) l
  end.
Proof.
  induction l as [| y l IH]; cbn; [constructor |].
  destruct (p y) eqn:E.
  - exists [], l. repeat split; [constructor | exact E].
  - destruct (List.find p l) as [x |].
    + destruct IH as (l1 & l2 & -> & H1 & H2).
      exists (y :: l1), l2. repeat split; [now constructor | exact H2].
    + now constructor.
Qed.

(** What the first strategy of step 2 selects. *)
Lemma find_balanced_selects (w c : pystr) :
  find_balanced json_patterns w = Some c ->
  exists pattern t,
    In (pattern, t) json_patterns
    /\ In c (findall pattern w)
    /\ balanced t c = true
    /\ (forall c', In c' (findall pattern w) -> balanced t c' = true ->
                   List.length c' <= List.length c)
    /\ (t = array ->
        forall c', In c' (findall object_pattern w) ->
                   balanced object c' = true -> c' = []).
Proof.
  unfold json_patterns. cbn [find_balanced].
  assert (Hsel : forall (pattern : regex) (t : json_type) (x : pystr),
             List.find (balanced t) (sort_longest_first (findall pattern w)) = Some x ->
             In x (findall pattern w) /\ balanced t x = true
             /\ forall c', In c' (findall pattern w) -> balanced t c' = true ->
                           List.length c' <= List.length x).
  { intros pattern t x Hx.
    destruct (find_longest _ _ _ (sort_longest_first_sorted _) Hx) as (H1 & H2 & H3).
    split; [now apply sort_longest_first_In |]. split; [exact H2 |].
    intros c' Hc'. apply H3. now apply sort_longest_first_In. }
  assert (Hobj : forall x,
             List.find (balanced object)
                       (sort_longest_first (findall object_pattern w)) = Some x ->
             truthy x = false ->
             forall c', In c' (findall object_pattern w) ->
                        balanced object c' = true -> c' = []).
  { intros x Hx Hempty c' Hin Hb.
    destruct (Hsel _ _ _ Hx) as (_ & _ & Hmax).
    specialize (Hmax c' Hin Hb).
    destruct x; [| discriminate]. destruct c'; [reflexivity | cbn in Hmax; lia]. }
  assert (Hnone :
             List.find (balanced object)
                       (sort_longest_first (findall object_pattern w)) = None ->
             forall c', In c' (findall object_pattern w) ->
                        balanced object c' = true -> c' = []).
  { intros Hf c' Hin Hb.
    pose proof (find_first _ (balanced object)
                  (sort_longest_first (findall object_pattern w))) as H.
    rewrite Hf in H. rewrite Forall_forall in H.
    apply sort_longest_first_In in Hin. specialize (H c' Hin). congruence. }
  assert (Harr : forall (Hno : forall c', In c' (findall object_pattern w) ->
                                           balanced object c' = true -> c' = []),
             match List.find (balanced array)
                     (sort_longest_first (findall array_pattern w)) with
             | Some candidate => if truthy candidate then Some candidate else None
             | None => None
             end = Some c ->
             exists pattern t,
               ((object_pattern, object) = (pattern, t)
                \/ (array_pattern, array) = (pattern, t) \/ False)
               /\ In c (findall pattern w)
               /\ balanced t c = true
               /\ (forall c', In c' (findall pattern w) -> balanced t c' = true ->
                              List.length c' <= List.length c)
               /\ (t = array ->
                   forall c', In c' (findall object_pattern w) ->
                              balanced object c' = true -> c' = [])).
  { intros Hno.
    destruct (List.find (balanced array) _) as [x |] eqn:Hx; [| discriminate].
    destruct (truthy x); [| discriminate]. intros [= ->].
    destruct (Hsel _ _ _ Hx) as (H1 & H2 & H3).
    exists array_pattern, array.
    split; [now right; left |]. split; [exact H1 |]. split; [exact H2 |].
    split; [exact H3 |]. intros _. exact Hno. }
  destruct (List.find (balanced object) _) as [x |] eqn:Hx.
  - destruct (truthy x) eqn:Ht.
    + intros [= ->]. destruct (Hsel _ _ _ Hx) as (H1 & H2 & H3).
      exists object_pattern, object.
      split; [now left |]. split; [exact H1 |]. split; [exact H2 |].
      split; [exact H3 |]. intros Habs. discriminate Habs.
    + apply Harr. now apply (Hobj x).
  - apply Harr. now apply Hnone.
Qed.




(** *** The repairs *)

Lemma replace_char (a b : codepoint) (s : pystr) :
  replace [a] [b] s = List.map (fun c => if (c =? a)%N then b else c) s.
Proof.
  unfold replace. induction s as [| c s IH]; [reflexivity |].
  cbn [replace_from strip_prefix List.map List.length].
  rewrite (N.eqb_sym a c).
  destruct (c =? a)%N; cbn [app]; now rewrite IH.
Qed.

Lemma replace_char_delete (a : codepoint) (s : pystr) :
  replace [a] [] s = List.filter (fun c => negb (c =? a)%N) s.
Proof.
  unfold replace. induction s as [| c s IH]; [reflexivity |].
  cbn [replace_from strip_prefix List.filter List.length].
  rewrite (N.eqb_sym a c).
  destruct (c =? a)%N; cbn [app negb]; now rewrite IH.
Qed.

Lemma pystr_eqb_eq (a b : pystr) : pystr_eqb a b = true <-> a = b.
Proof.
  unfold pystr_eqb. destruct (list_eq_dec N.eq_dec a b); intuition congruence.
Qed.



(** ** The text normaliser *)



(** ** The decoder never runs out of fuel *)

Lemma skip_ws_length (s : pystr) : List.length (skip_ws s) <= List.length s.
Proof.
  induction s as [| c s IH]; cbn; [lia |].
  destruct (is_ws c); cbn; lia.
Qed.

Lemma strip_prefix_length (p s r : pystr) :
  strip_prefix p s = Some r -> List.length r <= List.length s.
Proof.
  revert s. induction p as [| a p IH]; intros s; cbn.
  - intros [= ->]. lia.
  - destruct s as [| b s]; [discriminate |].
    destruct (a =? b)%N; [| discriminate].
    intros H. apply IH in H. cbn. lia.
Qed.

Lemma span_digits_length (s : pystr) :
  List.length (snd (span_digits s)) <= List.length s.
Proof.
  induction s as [| c s IH]; cbn; [lia |].
  destruct (is_digit c); [| cbn; lia].
  destruct (span_digits s) as [ds r]. cbn in *. lia.
Qed.

Lemma scanstring_length (n : nat) :
  forall (s acc x r : pystr),
    List.length s <= n ->
    scanstring acc s = Some (x, r) -> List.length r < List.length s.
Proof.
  induction n as [| n IH]; intros s acc x r Hn.
  - destruct s; [discriminate | cbn in Hn; lia].
  - destruct s as [| c s1]; [discriminate |]. cbn [scanstring].
    destruct (c =? 34)%N; [intros [= _ <-]; cbn; lia |].
    destruct (c =? 92)%N.
    + destruct s1 as [| e s2]; [discriminate |].
      destruct (e =? 117)%N.
      * destruct s2 as [| a [| b [| c3 [| d s3]]]]; try discriminate.
        destruct (hex4 a b c3 d) as [hi |]; [| discriminate].
        cbn [List.length] in *.
        destruct (if in_range 55296 56319 hi then low_surrogate s3 else None) as [lo |].
        -- destruct s3 as [| x1 [| x2 [| x3 [| x4 [| x5 [| x6 s4]]]]]];
             intros H; apply IH in H; cbn [List.length] in *; lia.
        -- intros H; apply IH in H; cbn [List.length] in *; lia.
      * destruct (simple_escape e); [| discriminate].
        intros H; apply IH in H; cbn [List.length] in *; lia.
    + destruct (c <=? 31)%N; [discriminate |].
      intros H; apply IH in H; cbn [List.length] in *; lia.
Qed.

Lemma minus_part_length (s : pystr) :
  List.length (snd (minus_part s)) <= List.length s.
Proof.
  destruct s as [| c s]; cbn; [lia |]. destruct (c =? 45)%N; cbn; lia.
Qed.

Lemma int_part_length (s ds r : pystr) :
  int_part s = Some (ds, r) -> List.length r < List.length s.
Proof.
  destruct s as [| c s]; cbn; [discriminate |].
  destruct (c =? 48)%N; [intros [= _ <-]; lia |].
  destruct (in_range 49 57 c); [| discriminate].
  pose proof (span_digits_length s) as H.
  destruct (span_digits s) as [ds' r']. intros [= _ <-]. cbn in H. lia.
Qed.

Lemma frac_part_length (s : pystr) :
  List.length (snd (frac_part s)) <= List.length s.
Proof.
  destruct s as [| c s]; cbn; [lia |].
  destruct (c =? 46)%N; [| cbn; lia].
  pose proof (span_digits_length s) as H.
  destruct (span_digits s) as [[| f fs] r]; cbn in *; lia.
Qed.

Lemma sign_part_length (s : pystr) :
  List.length (snd (sign_part s)) <= List.length s.
Proof.
  destruct s as [| g t]; cbn; [lia |].
  destruct ((g =? 45)%N || (g =? 43)%N); cbn; lia.
Qed.

Lemma exp_part_length (s : pystr) :
  List.length (snd (exp_part s)) <= List.length s.
Proof.
  destruct s as [| c s]; cbn; [lia |].
  destruct ((c =? 101)%N || (c =? 69)%N); [| cbn; lia].
  pose proof (sign_part_length s) as H1.
  destruct (sign_part s) as [sign s'']. cbn in H1.
  pose proof (span_digits_length s'') as H2.
  destruct (span_digits s'') as [[| e es] r]; cbn in *; lia.
Qed.

Lemma match_number_length (s : pystr) (v : pyvalue) (r : pystr) :
  match_number s = Some (v, r) -> List.length r < List.length s.
Proof.
  unfold match_number.
  pose proof (minus_part_length s) as H1.
  destruct (minus_part s) as [neg s1]. cbn in H1.
  destruct (int_part s1) as [[ds s2] |] eqn:E; [| discriminate].
  apply int_part_length in E.
  pose proof (frac_part_length s2) as H2.
  destruct (frac_part s2) as [frac s3]. cbn in H2.
  pose proof (exp_part_length s3) as H3.
  destruct (exp_part s3) as [ex s4]. cbn in H3.
  destruct frac, ex; intros [= _ <-]; lia.
Qed.

(** Whatever [scan_once] and its loops parse, they consume. *)
Lemma scan_consumes (fuel : nat) :
  (forall s v r, scan_once fuel s = Some (v, r) -> List.length r < List.length s)
  /\ (forall acc s v r,
         array_items fuel acc s = Some (v, r) -> List.length r < List.length s)
  /\ (forall acc s v r,
         object_members fuel acc s = Some (v, r) -> List.length r < List.length s).
Proof.
  induction fuel as [| fuel (IHs & IHa & IHo)].
  - repeat split; intros; discriminate.
  - split; [| split].
    + intros s v r. cbn [scan_once].
      destruct s as [| c s']; [discriminate |]. cbn [List.length].
      destruct (c =? 34)%N.
      { destruct (scanstring [] s') as [[str r'] |] eqn:E; [| discriminate].
        apply (scanstring_length _ _ _ _ _ (le_n _)) in E.
        intros [= _ <-]. lia. }
      destruct (c =? 123)%N.
      { pose proof (skip_ws_length s') as Hw.
        destruct (skip_ws s') as [| d t].
        - intros H. apply IHo in H. cbn in H. lia.
        - destruct (d =? 125)%N.
          + intros [= _ <-]. cbn in Hw. lia.
          + intros H. apply IHo in H. lia. }
      destruct (c =? 91)%N.
      { pose proof (skip_ws_length s') as Hw.
        destruct (skip_ws s') as [| d t].
        - intros H. apply IHa in H. cbn in H. lia.
        - destruct (d =? 93)%N.
          + intros [= _ <-]. cbn in Hw. lia.
          + intros H. apply IHa in H. lia. }
      assert (Hk : forall (x : pyvalue) (p : pystr),
                 option_map (pair x) (strip_prefix p s') = Some (v, r) ->
                 List.length r < S (List.length s')).
      { intros x p. destruct (strip_prefix p s') as [r' |] eqn:E; [| discriminate].
        apply strip_prefix_length in E. intros [= _ <-]. lia. }
      destruct (c =? 110)%N; [apply Hk |].
      destruct (c =? 116)%N; [apply Hk |].
      destruct (c =? 102)%N; [apply Hk |].
      destruct (c =? 78)%N; [apply Hk |].
      destruct (c =? 73)%N; [apply Hk |].
      destruct (c =? 45)%N.
      { destruct (strip_prefix (u "Infinity") s') as [r' |] eqn:E.
        - apply strip_prefix_length in E. intros [= _ <-]. lia.
        - intros H. apply match_number_length in H. exact H. }
      intros H. apply match_number_length in H. exact H.
    + intros acc s v r. cbn [array_items].
      destruct (scan_once fuel s) as [[v1 r1] |] eqn:E; [| discriminate].
      apply IHs in E. pose proof (skip_ws_length r1) as Hw.
      destruct (skip_ws r1) as [| c r']; [discriminate |]. cbn in Hw.
      destruct (c =? 93)%N; [intros [= _ <-]; lia |].
      destruct (c =? 44)%N; [| discriminate].
      intros H. apply IHa in H. pose proof (skip_ws_length r'). lia.
    + intros acc s v r. cbn [object_members].
      destruct s as [| q s1]; [discriminate |]. cbn [List.length].
      destruct (negb (q =? 34)%N); [discriminate |].
      destruct (scanstring [] s1) as [[key r0] |] eqn:E; [| discriminate].
      apply (scanstring_length _ _ _ _ _ (le_n _)) in E.
      pose proof (skip_ws_length r0) as Hw0.
      destruct (skip_ws r0) as [| colon r1]; [discriminate |]. cbn in Hw0.
      destruct (negb (colon =? 58)%N); [discriminate |].
      destruct (scan_once fuel (skip_ws r1)) as [[v1 r2] |] eqn:E1; [| discriminate].
      apply IHs in E1. pose proof (skip_ws_length r1) as Hw1.
      pose proof (skip_ws_length r2) as Hw2.
      destruct (skip_ws r2) as [| c r3]; [discriminate |]. cbn in Hw2.
      destruct (c =? 125)%N; [intros [= _ <-]; lia |].
      destruct (c =? 44)%N; [| discriminate].
      intros H. apply IHo in H. pose proof (skip_ws_length r3). lia.
Qed.

(** With enough fuel for the text, more fuel changes nothing. *)
Lemma scan_stable (f : nat) :
  (forall g s,
      2 * List.length s + 1 <= f -> 2 * List.length s + 1 <= g ->
      scan_once f s = scan_once g s)
  /\ (forall g acc s,
         2 * List.length s + 2 <= f -> 2 * List.length s + 2 <= g ->
         array_items f acc s = array_items g acc s)
  /\ (forall g acc s,
         2 * List.length s + 2 <= f -> 2 * List.length s + 2 <= g ->
         object_members f acc s = object_members g acc s).
Proof.
  induction f as [| f (IHs & IHa & IHo)].
  - repeat split; intros; lia.
  - split; [| split].
    + intros [| g] s Hf Hg; [lia |]. cbn [scan_once].
      destruct s as [| c s']; [reflexivity |]. cbn [List.length] in Hf, Hg.
      destruct (c =? 34)%N; [reflexivity |].
      pose proof (skip_ws_length s') as Hw.
      destruct (c =? 123)%N.
      { destruct (skip_ws s') as [| d t].
        - apply IHo; cbn; lia.
        - destruct (d =? 125)%N; [reflexivity |]. apply IHo; lia. }
      destruct (c =? 91)%N.
      { destruct (skip_ws s') as [| d t].
        - apply IHa; cbn; lia.
        - destruct (d =? 93)%N; [reflexivity |]. apply IHa; lia. }
      reflexivity.
    + intros [| g] acc s Hf Hg; [lia |]. cbn [array_items].
      rewrite (IHs g s) by lia.
      destruct (scan_once g s) as [[v r] |] eqn:E; [| reflexivity].
      apply (proj1 (scan_consumes g)) in E.
      pose proof (skip_ws_length r) as Hw.
      destruct (skip_ws r) as [| c r']; [reflexivity |]. cbn in Hw.
      destruct (c =? 93)%N; [reflexivity |].
      destruct (c =? 44)%N; [| reflexivity].
      pose proof (skip_ws_length r'). apply IHa; lia.
    + intros [| g] acc s Hf Hg; [lia |]. cbn [object_members].
      destruct s as [| q s1]; [reflexivity |]. cbn [List.length] in Hf, Hg.
      destruct (negb (q =? 34)%N); [reflexivity |].
      destruct (scanstring [] s1) as [[key r0] |] eqn:E; [| reflexivity].
      apply (scanstring_length _ _ _ _ _ (le_n _)) in E.
      pose proof (skip_ws_length r0) as Hw0.
      destruct (skip_ws r0) as [| colon r1]; [reflexivity |]. cbn in Hw0.
      destruct (negb (colon =? 58)%N); [reflexivity |].
      pose proof (skip_ws_length r1) as Hw1.
      rewrite (IHs g (skip_ws r1)) by lia.
      destruct (scan_once g (skip_ws r1)) as [[v r2] |] eqn:E1; [| reflexivity].
      apply (proj1 (scan_consumes g)) in E1.
      pose proof (skip_ws_length r2) as Hw2.
      destruct (skip_ws r2) as [| c r3]; [reflexivity |]. cbn in Hw2.
      destruct (c =? 125)%N; [reflexivity |].
      destruct (c =? 44)%N; [| reflexivity].
      pose proof (skip_ws_length r3). apply IHo; lia.
Qed.

(** The fuel [loads] hands to [scan_once] is never used up: any larger
    amount gives the same result. *)
Lemma scan_once_fuel (s : pystr) (fuel : nat) :
  fuel_for s <= fuel -> scan_once fuel s = scan_once (fuel_for s) s.
Proof.
  unfold fuel_for. intros H. apply (proj1 (scan_stable fuel)); lia.
Qed.

(* ================================================================== *)
(** * Further properties of the two services                           *)
(* ================================================================== *)

(** ** The matcher finds matches only *)

Lemma rmatch_sound (A : Type) (r : regex) :
  forall (st : mstate) (k : mstate -> option A) (a : A),
    rmatch r st k = Some a ->
    exists st', matches r st st' /\ k st' = Some a.
Proof.
  induction r as [| p | r1 IH1 r2 IH2 | r1 IH1 r2 IH2 | r1 IH1 | r1 IH1 | r1 IH1 | | |];
    intros st k a; cbn [rmatch].
  - intros H. exists st. split; [constructor | exact H].
  - destruct st as [prev [| c rest] g]; cbn [ms_rest ms_group]; [discriminate |].
    destruct (p c) eqn:E; [| discriminate].
    intros H. eexists. split; [now constructor | exact H].
  - intros H. apply IH1 in H. destruct H as (st1 & H1 & H).
    apply IH2 in H. destruct H as (st2 & H2 & H).
    exists st2. split; [econstructor; eassumption | exact H].
  - destruct (rmatch r1 st k) as [a1 |] eqn:E.
    + intros [= <-]. apply IH1 in E. destruct E as (st1 & H1 & H).
      exists st1. split; [now apply matches_Alt_l | exact H].
    + intros H. apply IH2 in H. destruct H as (st1 & H1 & H).
      exists st1. split; [now apply matches_Alt_r | exact H].
  - generalize (List.length (ms_rest st)) as n. intros n. revert st.
    induction n as [| n IHn]; intros st.
    + intros H. exists st. split; [constructor | exact H].
    + match goal with
      | |- match ?M with _ => _ end = _ -> _ => destruct M as [a1 |] eqn:E
      end.
      * intros [= <-]. apply IH1 in E. destruct E as (st1 & H1 & H).
        destruct (List.length (ms_rest st1) <? List.length (ms_rest st)) eqn:L;
          [| discriminate].
        apply IHn in H. destruct H as (st2 & H2 & H).
        exists st2. split; [| exact H].
        eapply matches_Star_more; [exact H1 | now apply Nat.ltb_lt | exact H2].
      * intros H. exists st. split; [constructor | exact H].
  - generalize (List.length (ms_rest st)) as n. intros n. revert st.
    induction n as [| n IHn]; intros st.
    + destruct (k st) as [a1 |] eqn:E; [| discriminate].
      intros [= <-]. exists st. split; [constructor | exact E].
    + destruct (k st) as [a1 |] eqn:E.
      * intros [= <-]. exists st. split; [constructor | exact E].
      * intros H. apply IH1 in H. destruct H as (st1 & H1 & H).
        destruct (List.length (ms_rest st1) <? List.length (ms_rest st)) eqn:L;
          [| discriminate].
        apply IHn in H. destruct H as (st2 & H2 & H).
        exists st2. split; [| exact H].
        eapply matches_LazyStar_more; [exact H1 | now apply Nat.ltb_lt | exact H2].
  - intros H. apply IH1 in H. destruct H as (st1 & H1 & H).
    eexists. split; [apply matches_Group; exact H1 | exact H].
  - destruct (ms_prev st) as [c |] eqn:E.
    + destruct (c =? 10)%N eqn:E1; [| discriminate].
      intros H. exists st. split; [| exact H].
      constructor. right. apply N.eqb_eq in E1. now subst.
    + intros H. exists st. split; [| exact H]. constructor. now left.
  - destruct (ms_rest st) as [| c rest] eqn:E.
    + intros H. exists st. split; [| exact H]. constructor. now left.
    + destruct (c =? 10)%N eqn:E1; [| discriminate].
      intros H. exists st. split; [| exact H].
      constructor. right. apply N.eqb_eq in E1. subst. now exists rest.
  - destruct (xorb _ _) eqn:E; [| discriminate].
    intros H. exists st. split; [now constructor | exact H].
Qed.

(** A match consumes a prefix of the text it starts on. *)
Lemma matches_consumed (r : regex) (st st' : mstate) :
  matches r st st' -> exists w, ms_rest st = w ++ ms_rest st'.
Proof.
  induction 1 as [st | p prev c rest g Hp | r1 r2 st st1 st2 _ [w1 E1] _ [w2 E2]
                 | r1 r2 st st1 _ IH | r1 r2 st st1 _ IH
                 | r st | r st st1 st2 _ [w1 E1] _ _ [w2 E2]
                 | r st | r st st1 st2 _ [w1 E1] _ _ [w2 E2]
                 | r st st1 _ [w E] | st | st | st].
  all: try (exists []; reflexivity).
  - exists [c]. reflexivity.
  - exists (w1 ++ w2). now rewrite E1, E2, app_assoc.
  - exact IH.
  - exact IH.
  - exists (w1 ++ w2). now rewrite E1, E2, app_assoc.
  - exists (w1 ++ w2). now rewrite E1, E2, app_assoc.
  - exists w. exact E.
Qed.

Lemma firstn_consumed (w rest : pystr) :
  firstn (List.length (w ++ rest) - List.length rest) (w ++ rest) = w.
Proof.
  rewrite length_app. replace (List.length w + List.length rest - List.length rest)
    with (List.length w + 0) by lia.
  rewrite firstn_app_2. cbn. apply app_nil_r.
Qed.

(** The group of a match is unset, left as it was, or a part of the text
    the match started on. *)
Lemma matches_group (r : regex) (st st' : mstate) :
  matches r st st' ->
  ms_group st' = ms_group st
  \/ exists pre g post, ms_group st' = Some g /\ ms_rest st = pre ++ g ++ post.
Proof.
  assert (Hstep : forall r1 (st st1 st2 : mstate),
             matches r1 st st1 ->
             (ms_group st1 = ms_group st
              \/ exists pre g post, ms_group st1 = Some g /\ ms_rest st = pre ++ g ++ post) ->
             (ms_group st2 = ms_group st1
              \/ exists pre g post, ms_group st2 = Some g /\ ms_rest st1 = pre ++ g ++ post) ->
             ms_group st2 = ms_group st
             \/ exists pre g post, ms_group st2 = Some g /\ ms_rest st = pre ++ g ++ post).
  { intros r1 st0 st1 st2 Hm H1 [H2 | (pre & g & post & Hg & Hr)].
    - rewrite H2. exact H1.
    - right. destruct (matches_consumed _ _ _ Hm) as [w Hw].
      exists (w ++ pre), g, post. split; [exact Hg |].
      rewrite Hw, Hr. now rewrite <- app_assoc. }
  induction 1 as [st | p prev c rest g Hp | r1 r2 st st1 st2 H1 IH1 _ IH2
                 | r1 r2 st st1 _ IH | r1 r2 st st1 _ IH
                 | r st | r st st1 st2 H1 IH1 _ _ IH2
                 | r st | r st st1 st2 H1 IH1 _ _ IH2
                 | r st st1 H1 _ | st | st | st].
  all: try (left; reflexivity).
  - exact (Hstep _ _ _ _ H1 IH1 IH2).
  - exact IH.
  - exact IH.
  - exact (Hstep _ _ _ _ H1 IH1 IH2).
  - exact (Hstep _ _ _ _ H1 IH1 IH2).
  - right. destruct (matches_consumed _ _ _ H1) as [w Hw].
    exists [], w, (ms_rest st1). cbn [ms_group app]. split; [| exact Hw].
    rewrite Hw. now rewrite firstn_consumed.
Qed.

(** What [match_at] reports is a match of the pattern on a prefix of the
    text. *)
Lemma match_at_sound (r : regex) (prev : option codepoint) (rest : pystr)
      (n : nat) (g : option pystr) :
  match_at r prev rest = Some (n, g) ->
  exists w prev' rest',
    rest = w ++ rest' /\ n = List.length w /\ firstn n rest = w
    /\ matches r (MState prev rest None) (MState prev' rest' g).
Proof.
  unfold match_at. intros H. apply rmatch_sound in H.
  destruct H as ([prev' rest' g'] & Hm & H). cbn [ms_rest ms_group] in H.
  injection H as Hn Hg. subst g'.
  destruct (matches_consumed _ _ _ Hm) as [w Hw]. cbn [ms_rest] in Hw.
  exists w, prev', rest'. split; [exact Hw |].
  subst rest n. rewrite firstn_consumed. rewrite length_app.
  split; [lia |]. split; [reflexivity | exact Hm].
Qed.

(** Every match [finditer] lists is a match of the pattern on a part of
    the text. *)
Lemma finditer_from_sound (r : regex) :
  forall (rest : pystr) (prev : option codepoint) (skip : nat) (m : rematch),
    In m (finditer_from r prev skip rest) ->
    exists pre p0 p1 rest',
      rest = pre ++ m_text m ++ rest'
      /\ matches r (MState p0 (m_text m ++ rest') None) (MState p1 rest' (m_group m)).
Proof.
  assert (Hcons : forall (c : codepoint) (rest : pystr) (m : rematch),
             (exists pre p0 p1 rest',
                 rest = pre ++ m_text m ++ rest'
                 /\ matches r (MState p0 (m_text m ++ rest') None)
                            (MState p1 rest' (m_group m))) ->
             exists pre p0 p1 rest',
               c :: rest = pre ++ m_text m ++ rest'
               /\ matches r (MState p0 (m_text m ++ rest') None)
                          (MState p1 rest' (m_group m))).
  { intros c rest m (pre & p0 & p1 & rest' & E & Hm).
    exists (c :: pre), p0, p1, rest'. split; [now rewrite E | exact Hm]. }
  induction rest as [| c rest IH]; intros prev skip m.
  - destruct skip as [| k]; cbn [finditer_from]; [| intros []].
    destruct (match_at r prev []) as [[n g] |] eqn:E; [| intros []].
    intros [<- | []]. cbn [m_text m_group].
    apply match_at_sound in E. destruct E as (w & prev' & rest' & E1 & E2 & E3 & Hm).
    exists [], prev, prev', rest'. rewrite E3. cbn [app].
    split; [exact E1 | now rewrite <- E1].
  - destruct skip as [| k]; cbn [finditer_from].
    + destruct (match_at r prev (c :: rest)) as [[n g] |] eqn:E.
      * intros [<- | Hin].
        -- cbn [m_text m_group].
           apply match_at_sound in E.
           destruct E as (w & prev' & rest' & E1 & E2 & E3 & Hm).
           exists [], prev, prev', rest'. rewrite E3. cbn [app].
           split; [exact E1 | now rewrite <- E1].
        -- apply Hcons. eapply IH. exact Hin.
      * intros Hin. apply Hcons. eapply IH. exact Hin.
    + intros Hin. apply Hcons. eapply IH. exact Hin.
Qed.

(** ** Where the candidate comes from *)

Lemma part_of_refl (s : pystr) : part_of s s.
Proof. exists [], []. cbn. now rewrite app_nil_r. Qed.

Lemma part_of_trans (a b c : pystr) : part_of a b -> part_of b c -> part_of a c.
Proof.
  intros (p1 & q1 & ->) (p2 & q2 & ->).
  exists (p2 ++ p1), (q1 ++ q2). now rewrite <- !app_assoc.
Qed.



Lemma matches_Seq_inv (r1 r2 : regex) (st st2 : mstate) :
  matches (Seq r1 r2) st st2 ->
  exists st1, matches r1 st st1 /\ matches r2 st1 st2.
Proof. inversion 1; subst; eauto. Qed.

Lemma matches_Chr_inv (p : codepoint -> bool) (st st' : mstate) :
  matches (Chr p) st st' ->
  exists c, ms_rest st = c :: ms_rest st' /\ p c = true.
Proof. inversion 1; subst; cbn; eauto. Qed.

(** A pattern that begins with one character and ends with one matches
    texts that begin and end accordingly. *)
Lemma matches_enclosed (p q : codepoint -> bool) (mid : regex) (st st' : mstate) :
  matches (Seq (Chr p) (Seq mid (Chr q))) st st' ->
  exists c1 wm c2,
    ms_rest st = c1 :: wm ++ c2 :: ms_rest st' /\ p c1 = true /\ q c2 = true.
Proof.
  intros H. apply matches_Seq_inv in H. destruct H as (st1 & H1 & H).
  apply matches_Seq_inv in H. destruct H as (st2 & H2 & H3).
  apply matches_Chr_inv in H1, H3.
  destruct H1 as (c1 & E1 & Hp). destruct H3 as (c2 & E3 & Hq).
  destruct (matches_consumed _ _ _ H2) as [wm Hw].
  exists c1, wm, c2. rewrite E1, Hw, E3. repeat split; assumption.
Qed.

Lemma findall_enclosed (p q : codepoint -> bool) (mid : regex) (s t : pystr) :
  In t (findall (Seq (Chr p) (Seq mid (Chr q))) s) ->
  part_of t s
  /\ exists c1 wm c2, t = c1 :: wm ++ [c2] /\ p c1 = true /\ q c2 = true.
Proof.
  unfold findall, finditer. intros H. apply in_map_iff in H.
  destruct H as (m & <- & Hin).
  apply finditer_from_sound in Hin.
  destruct Hin as (pre & p0 & p1 & rest' & E & Hm).
  split; [now exists pre, rest' |].
  apply matches_enclosed in Hm. cbn [ms_rest] in Hm.
  destruct Hm as (c1 & wm & c2 & Hw & Hp & Hq).
  exists c1, wm, c2. split; [| split; assumption].
  apply (app_inv_tail rest'). rewrite Hw. cbn. now rewrite <- app_assoc.
Qed.

Lemma lit_eq (a : ascii) (c : codepoint) : lit a c = true -> c = cp a.
Proof. unfold lit. apply N.eqb_eq. Qed.

Lemma findall_object_pattern (s t : pystr) :
  In t (findall object_pattern s) -> part_of t s /\ enclosed (cp "{") (cp "}") t.
Proof.
  intros H. apply findall_enclosed in H.
  destruct H as (Hp & c1 & wm & c2 & -> & H1 & H2).
  apply lit_eq in H1, H2. subst. split; [exact Hp | now exists wm].
Qed.

Lemma findall_array_pattern (s t : pystr) :
  In t (findall array_pattern s) -> part_of t s /\ enclosed (cp "[") (cp "]") t.
Proof.
  intros H. apply findall_enclosed in H.
  destruct H as (Hp & c1 & wm & c2 & -> & H1 & H2).
  apply lit_eq in H1, H2. subst. split; [exact Hp | now exists wm].
Qed.

Lemma find_split (c : codepoint) (s : pystr) (i : nat) :
  find c s = Some i ->
  exists pre post, s = pre ++ c :: post /\ List.length pre = i.
Proof.
  revert i. induction s as [| d s IH]; intros i; cbn [find]; [discriminate |].
  destruct (d =? c)%N eqn:E.
  - intros [= <-]. apply N.eqb_eq in E. subst. now exists [], s.
  - destruct (find c s) as [j |]; [| discriminate].
    intros [= <-]. destruct (IH j eq_refl) as (pre & post & -> & <-).
    now exists (d :: pre), post.
Qed.

Lemma rfind_split (c : codepoint) (s : pystr) (i : nat) :
  rfind c s = Some i ->
  exists pre post, s = pre ++ c :: post /\ List.length pre = i.
Proof.
  revert i. induction s as [| d s IH]; intros i; cbn [rfind]; [discriminate |].
  destruct (rfind c s) as [j |].
  - intros [= <-]. destruct (IH j eq_refl) as (pre & post & -> & <-).
    now exists (d :: pre), post.
  - destruct (d =? c)%N eqn:E; [| discriminate].
    intros [= <-]. apply N.eqb_eq in E. subst. now exists [], s.
Qed.

Lemma between_enclosed (open close : codepoint) (w e : pystr) :
  between open close w = Some e -> part_of e w /\ enclosed open close e.
Proof.
  unfold between.
  destruct (find open w) as [first |] eqn:F; [| discriminate].
  destruct (rfind close w) as [last |] eqn:L; [| discriminate].
  destruct (first <? last) eqn:Hlt; [| discriminate].
  apply Nat.ltb_lt in Hlt. intros [= <-].
  destruct (find_split _ _ _ F) as (pre & post & Hw & Hpre).
  destruct (rfind_split _ _ _ L) as (pre2 & post2 & Hw2 & Hpre2).
  rewrite Hw in Hw2. apply app_eq_app in Hw2.
  destruct Hw2 as [l [[E1 E2] | [E1 E2]]].
  - rewrite E1, length_app in Hpre. lia.
  - destruct l as [| o mid].
    + rewrite app_nil_r in E1. subst pre2. lia.
    + cbn [app] in E2. injection E2 as <- Hpost.
      assert (Hs : slice first (last + 1) w = open :: mid ++ [close]).
      { unfold slice. rewrite Hw, Hpost, <- Hpre.
        rewrite skipn_app, skipn_all, Nat.sub_diag. cbn [app skipn].
        rewrite E1, length_app in Hpre2. cbn [List.length] in Hpre2.
        replace (last + 1 - List.length pre) with (S (List.length mid + 1)) by lia.
        cbn [firstn]. f_equal.
        rewrite firstn_app, firstn_all2 by lia.
        replace (List.length mid + 1 - List.length mid) with 1 by lia.
        reflexivity. }
      rewrite Hs. split; [| now exists mid].
      exists pre, post2. rewrite Hw, Hpost. cbn. now rewrite <- app_assoc.
Qed.

(** The working text of step 1 is a part of the model's output. *)
Lemma unwrap_code_block_part (s : pystr) : part_of (unwrap_code_block s) s.
Proof.
  unfold unwrap_code_block.
  destruct (List.find _ (findall_group code_block_pattern s)) as [block |] eqn:E;
    [| apply part_of_refl].
  apply find_some in E. destruct E as [Hin _].
  unfold findall_group, finditer in Hin. apply in_map_iff in Hin.
  destruct Hin as (m & <- & Hin).
  apply finditer_from_sound in Hin.
  destruct Hin as (pre & p0 & p1 & rest' & E & Hm).
  apply matches_group in Hm. cbn [ms_group ms_rest] in Hm.
  destruct Hm as [-> | (pre' & g & post' & -> & Hg)].
  - exists [], s. reflexivity.
  - exists (pre ++ pre'), post'. rewrite E, Hg. now rewrite <- app_assoc.
Qed.

Lemma locate_json_candidate (s c : pystr) :
  locate_json s = Some c ->
  part_of c s /\ (enclosed (cp "{") (cp "}") c \/ enclosed (cp "[") (cp "]") c).
Proof.
  unfold locate_json.
  pose proof (unwrap_code_block_part s) as Hw.
  destruct (find_balanced json_patterns (unwrap_code_block s)) as [e |] eqn:E.
  - destruct (truthy e); [| discriminate]. intros [= <-].
    apply find_balanced_selects in E.
    destruct E as (pattern & t & Hin & Hc & _).
    destruct Hin as [[= <- <-] | [[= <- <-] | []]].
    + apply findall_object_pattern in Hc. destruct Hc as [H1 H2].
      split; [exact (part_of_trans _ _ _ H1 Hw) | now left].
    + apply findall_array_pattern in Hc. destruct Hc as [H1 H2].
      split; [exact (part_of_trans _ _ _ H1 Hw) | now right].
  - unfold first_last.
    destruct (between (cp "{") (cp "}") (unwrap_code_block s)) as [e |] eqn:B.
    + destruct (truthy e); [| discriminate]. intros [= <-].
      apply between_enclosed in B. destruct B as [H1 H2].
      split; [exact (part_of_trans _ _ _ H1 Hw) | now left].
    + destruct (between (cp "[") (cp "]") (unwrap_code_block s)) as [e |] eqn:B2;
        [| discriminate].
      destruct (truthy e); [| discriminate]. intros [= <-].
      apply between_enclosed in B2. destruct B2 as [H1 H2].
      split; [exact (part_of_trans _ _ _ H1 Hw) | now right].
Qed.

(** ** What the parser returns *)

Lemma object_members_dict (fuel : nat) :
  forall acc s v r, object_members fuel acc s = Some (v, r) -> is_container v = true.
Proof.
  induction fuel as [| fuel IH]; intros acc s v r; cbn [object_members];
    [discriminate |].
  destruct s as [| q s1]; [discriminate |].
  destruct (negb (q =? 34)%N); [discriminate |].
  destruct (scanstring [] s1) as [[key r0] |]; [| discriminate].
  destruct (skip_ws r0) as [| colon r1]; [discriminate |].
  destruct (negb (colon =? 58)%N); [discriminate |].
  destruct (scan_once fuel (skip_ws r1)) as [[v1 r2] |]; [| discriminate].
  destruct (skip_ws r2) as [| c r3]; [discriminate |].
  destruct (c =? 125)%N; [now intros [= <- _] |].
  destruct (c =? 44)%N; [apply IH | discriminate].
Qed.

Lemma array_items_list (fuel : nat) :
  forall acc s v r, array_items fuel acc s = Some (v, r) -> is_container v = true.
Proof.
  induction fuel as [| fuel IH]; intros acc s v r; cbn [array_items];
    [discriminate |].
  destruct (scan_once fuel s) as [[v1 r1] |]; [| discriminate].
  destruct (skip_ws r1) as [| c r']; [discriminate |].
  destruct (c =? 93)%N; [now intros [= <- _] |].
  destruct (c =? 44)%N; [apply IH | discriminate].
Qed.

Lemma scan_once_container (fuel : nat) (c : codepoint) (t : pystr)
      (v : pyvalue) (r : pystr) :
  c = cp "{" \/ c = cp "[" ->
  scan_once fuel (c :: t) = Some (v, r) -> is_container v = true.
Proof.
  intros Hc. destruct fuel as [| fuel]; [discriminate |]. cbn [scan_once].
  destruct Hc; subst c.
  - change (cp "{" =? 34)%N with false. change (cp "{" =? 123)%N with true. cbv iota.
    destruct (skip_ws t) as [| d r0].
    + apply object_members_dict.
    + destruct (d =? 125)%N; [now intros [= <- _] | apply object_members_dict].
  - change (cp "[" =? 34)%N with false. change (cp "[" =? 123)%N with false.
    change (cp "[" =? 91)%N with true. cbv iota.
    destruct (skip_ws t) as [| d r0].
    + apply array_items_list.
    + destruct (d =? 93)%N; [now intros [= <- _] | apply array_items_list].
Qed.

(** A text that opens with a brace or a bracket parses, if at all, to a
    mapping or a sequence. *)
Lemma loads_container (c : codepoint) (t : pystr) (v : pyvalue) :
  c = cp "{" \/ c = cp "[" ->
  loads (c :: t) = Some v -> is_container v = true.
Proof.
  intros Hc. unfold loads.
  assert (Hws : skip_ws (c :: t) = c :: t) by (destruct Hc; subst; reflexivity).
  replace (c =? 65279)%N with false by (destruct Hc; subst; reflexivity).
  cbv zeta. rewrite Hws.
  destruct (scan_once (fuel_for (c :: t)) (c :: t)) as [[v0 r] |] eqn:E;
    [| discriminate].
  destruct (skip_ws r); [| discriminate]. intros [= <-].
  exact (scan_once_container _ _ _ _ _ Hc E).
Qed.

Lemma match_at_head_mismatch (p : codepoint -> bool) (r2 : regex)
      (prev : option codepoint) (c : codepoint) (rest : pystr) :
  p c = false -> match_at (Seq (Chr p) r2) prev (c :: rest) = None.
Proof. intros H. unfold match_at. cbn [rmatch ms_rest]. now rewrite H. Qed.

Lemma sub_head_kept (p : codepoint -> bool) (r2 : regex) (repl : pystr)
      (c : codepoint) (rest : pystr) :
  p c = false ->
  exists t, sub (Seq (Chr p) r2) repl (c :: rest) = c :: t.
Proof.
  intros H. unfold sub. cbn [sub_from].
  rewrite (match_at_head_mismatch _ _ _ _ _ H). eauto.
Qed.

Lemma fix_common_json_issues_elementary (c : pystr) :
  _fix_common_json_issues c =
  remove_bom (single_to_double_quotes (remove_control_chars (remove_trailing_commas c))).
Proof.
  unfold _fix_common_json_issues, remove_bom, single_to_double_quotes,
    remove_control_chars, remove_trailing_commas.
  rewrite sub_Chr_delete, replace_char_delete.
  destruct (negb (mem quote _) && mem (cp "'") _); [| reflexivity].
  change (u "'") with [cp "'"]. now rewrite replace_char.
Qed.

(** The repairs leave an opening brace or bracket at the head in place. *)
Lemma fix_common_json_issues_head (c : codepoint) (t : pystr) :
  c = cp "{" \/ c = cp "[" ->
  exists t', _fix_common_json_issues (c :: t) = c :: t'.
Proof.
  intros Hc. rewrite fix_common_json_issues_elementary.
  unfold remove_trailing_commas.
  change re_comma_brace
    with (Seq (Chr (lit ",")) (Seq (Star (Chr isspace)) (Chr (lit "}")))).
  change re_comma_bracket
    with (Seq (Chr (lit ",")) (Seq (Star (Chr isspace)) (Chr (lit "]")))).
  destruct (sub_head_kept (lit ",") (Seq (Star (Chr isspace)) (Chr (lit "}")))
              (u "}") c t) as [t1 ->]; [destruct Hc; subst; reflexivity |].
  destruct (sub_head_kept (lit ",") (Seq (Star (Chr isspace)) (Chr (lit "]")))
              (u "]") c t1) as [t2 ->]; [destruct Hc; subst; reflexivity |].
  unfold remove_control_chars. cbn [List.filter].
  replace (control_char c) with false by (destruct Hc; subst; reflexivity).
  cbn [negb]. unfold single_to_double_quotes.
  match goal with
  | |- context [if ?b then _ else _] => destruct b
  end.
  - cbn [List.map].
    replace (c =? cp "'")%N with false by (destruct Hc; subst; reflexivity).
    unfold remove_bom. cbn [List.filter].
    replace (c =? bom)%N with false by (destruct Hc; subst; reflexivity).
    cbn [negb]. eauto.
  - unfold remove_bom. cbn [List.filter].
    replace (c =? bom)%N with false by (destruct Hc; subst; reflexivity).
    cbn [negb]. eauto.
Qed.

Lemma enclosed_head (c : pystr) :
  enclosed (cp "{") (cp "}") c \/ enclosed (cp "[") (cp "]") c ->
  exists c0 t, c = c0 :: t /\ (c0 = cp "{" \/ c0 = cp "[").
Proof. intros [[mid ->] | [mid ->]]; eauto. Qed.

(** X1: the candidate that steps 1 and 2 of [clean_llm_json] locate is a
    contiguous part of the model's output; it opens with a brace and
    closes with a brace, or opens with a bracket and closes with one; so
    it has at least two characters, and no more than the output. *)
Theorem locate_json_part_of_output (s c : pystr) :
  locate_json s = Some c ->
  part_of c s
  /\ (enclosed (cp "{") (cp "}") c \/ enclosed (cp "[") (cp "]") c)
  /\ 2 <= List.length c <= List.length s.
Proof.
  intros H. destruct (locate_json_candidate s c H) as [Hpart Hencl].
  split; [exact Hpart |]. split; [exact Hencl |]. split.
  - destruct Hencl as [[mid ->] | [mid ->]];
      cbn [List.length]; rewrite length_app; cbn [List.length]; lia.
  - destruct Hpart as (pre & post & ->). rewrite !length_app. lia.
Qed.

(** X2: whatever [clean_llm_json] returns is a mapping or a sequence, never
    a scalar: not after the strict parse, not after the repairs, not from
    the partial extraction. *)
Theorem clean_llm_json_returns_container (llm_output : option pystr) (v : pyvalue) :
  clean_llm_json llm_output = Return v -> is_container v = true.
Proof.
  unfold clean_llm_json. destruct llm_output as [s |]; [| discriminate].
  destruct (negb (truthy s) || negb (truthy (strip s))); [discriminate |].
  destruct (locate_json s) as [c |] eqn:E; [| discriminate].
  apply locate_json_candidate in E. destruct E as [_ E].
  apply enclosed_head in E. destruct E as (c0 & t & -> & Hc).
  unfold parse_with_repair.
  destruct (loads (c0 :: t)) as [v0 |] eqn:L.
  - intros [= <-]. exact (loads_container _ _ _ Hc L).
  - destruct (fix_common_json_issues_head c0 t Hc) as [t' Ht].
    destruct (if negb (pystr_eqb (_fix_common_json_issues (c0 :: t)) (c0 :: t))
              then loads (_fix_common_json_issues (c0 :: t)) else None)
      as [v1 |] eqn:R.
    + intros [= <-].
      destruct (negb (pystr_eqb _ _)); [| discriminate].
      rewrite Ht in R. exact (loads_container _ _ _ Hc R).
    + unfold _extract_partial_json.
      destruct (probe re_metadata (c0 :: t)); [now intros [= <-] |].
      destruct (probe re_sections (c0 :: t)); [now intros [= <-] | discriminate].
Qed.

Lemma locate_json_part_of_output_witness :
  locate_json chatty_input = Some payload
  /\ part_of payload chatty_input
  /\ (enclosed (cp "{") (cp "}") payload \/ enclosed (cp "[") (cp "]") payload).
Proof.
  assert (H : locate_json chatty_input = Some payload) by (vm_compute; reflexivity).
  split; [exact H |].
  destruct (locate_json_part_of_output chatty_input payload H) as (Hpart & Hencl & _).
  split; [exact Hpart | exact Hencl].
Defined.

Lemma clean_llm_json_returns_container_witness :
  clean_llm_json (Some fenced_input) = Return (PyDict [(u "a", PyInt 1)])
  /\ is_container (PyDict [(u "a", PyInt 1)]) = true.
Proof.
  assert (H : clean_llm_json (Some fenced_input) = Return (PyDict [(u "a", PyInt 1)]))
    by (vm_compute; reflexivity).
  split; [exact H |].
  exact (clean_llm_json_returns_container (Some fenced_input) _ H).
Defined.





(** ** The repairs *)

(** X5: the text [_fix_common_json_issues] returns holds no control
    character of the class it deletes (0x00-0x08, 0x0B, 0x0C, 0x0E-0x1F,
    0x7F) and no byte-order mark, wherever they stood in the input. *)
Theorem fix_common_json_issues_clean (json_str : pystr) :
  Forall (fun c => control_char c = false /\ c <> bom)
         (_fix_common_json_issues json_str).
Proof.
  rewrite fix_common_json_issues_elementary.
  set (s1 := remove_trailing_commas json_str).
  assert (H2 : Forall (fun c => control_char c = false) (remove_control_chars s1)).
  { apply Forall_forall. intros c Hc. apply filter_In in Hc.
    now apply negb_true_iff. }
  assert (H3 : Forall (fun c => control_char c = false)
                      (single_to_double_quotes (remove_control_chars s1))).
  { unfold single_to_double_quotes.
    destruct (negb (mem quote _) && mem (cp "'") _); [| exact H2].
    apply Forall_map. eapply Forall_impl; [| exact H2]. cbn beta.
    intros c Hc. destruct (c =? cp "'")%N; [reflexivity | exact Hc]. }
  apply Forall_forall. intros c Hc. apply filter_In in Hc. destruct Hc as [Hin Hb].
  split.
  - rewrite Forall_forall in H3. now apply H3.
  - apply negb_true_iff, N.eqb_neq in Hb. exact Hb.
Qed.

(** Substitution shortens the text when every match is at least as long as
    the replacement. *)
Lemma sub_from_length (r : regex) (repl : pystr) :
  (forall prev rest n g, match_at r prev rest = Some (n, g) -> List.length repl <= n) ->
  forall (rest : pystr) (prev : option codepoint) (skip : nat),
    List.length (sub_from r repl prev skip rest) <= List.length rest - skip.
Proof.
  intros Hr. induction rest as [| c rest IH]; intros prev skip.
  - destruct skip as [| k]; cbn [sub_from List.length]; [| lia].
    destruct (match_at r prev []) as [[[| n] g] |] eqn:E; cbn [List.length]; try lia.
    + apply Hr in E. rewrite app_nil_r. lia.
    + apply match_at_sound in E. destruct E as (w & p' & r' & E1 & E2 & _).
      destruct w; [discriminate | discriminate].
  - destruct skip as [| k]; cbn [sub_from].
    + destruct (match_at r prev (c :: rest)) as [[[| n] g] |] eqn:E.
      * apply Hr in E. destruct repl; [| cbn in E; lia].
        cbn [app List.length]. specialize (IH (Some c) 0). lia.
      * pose proof (Hr _ _ _ _ E) as Hl.
        apply match_at_sound in E. destruct E as (w & p' & r' & E1 & E2 & _).
        assert (Hn : n <= List.length rest).
        { apply (f_equal (@List.length _)) in E1. rewrite length_app in E1.
          cbn [List.length] in E1. lia. }
        rewrite length_app. specialize (IH (Some c) n). cbn [List.length]. lia.
      * cbn [List.length]. specialize (IH (Some c) 0). lia.
    + cbn [List.length]. specialize (IH (Some c) k). lia.
Qed.

Lemma sub_length (r : regex) (repl s : pystr) :
  (forall prev rest n g, match_at r prev rest = Some (n, g) -> List.length repl <= n) ->
  List.length (sub r repl s) <= List.length s.
Proof.
  intros Hr. unfold sub. pose proof (sub_from_length r repl Hr s None 0). lia.
Qed.

Lemma match_at_enclosed_length (p q : codepoint -> bool) (mid : regex)
      (prev : option codepoint) (rest : pystr) (n : nat) (g : option pystr) :
  match_at (Seq (Chr p) (Seq mid (Chr q))) prev rest = Some (n, g) -> 2 <= n.
Proof.
  intros E. apply match_at_sound in E.
  destruct E as (w & p' & r' & E1 & E2 & _ & Hm).
  apply matches_enclosed in Hm. cbn [ms_rest] in Hm.
  destruct Hm as (c1 & wm & c2 & Hw & _).
  rewrite E1 in Hw. change (c1 :: wm ++ c2 :: r') with ((c1 :: wm) ++ c2 :: r') in Hw.
  replace ((c1 :: wm) ++ c2 :: r') with (((c1 :: wm) ++ [c2]) ++ r') in Hw
    by now rewrite <- app_assoc.
  apply app_inv_tail in Hw. subst w n. rewrite length_app. cbn. lia.
Qed.

(** X6: the repairs never lengthen the text. *)
Theorem fix_common_json_issues_length (json_str : pystr) :
  List.length (_fix_common_json_issues json_str) <= List.length json_str.
Proof.
  rewrite fix_common_json_issues_elementary.
  unfold remove_bom, single_to_double_quotes, remove_control_chars,
    remove_trailing_commas.
  assert (H1 : List.length (sub re_comma_brace (u "}") json_str)
               <= List.length json_str).
  { apply sub_length. intros prev rest n g E.
    apply match_at_enclosed_length in E. change (1 <= n). lia. }
  assert (H2 : List.length (sub re_comma_bracket (u "]")
                              (sub re_comma_brace (u "}") json_str))
               <= List.length (sub re_comma_brace (u "}") json_str)).
  { apply sub_length. intros prev rest n g E.
    apply match_at_enclosed_length in E. change (1 <= n). lia. }
  etransitivity; [apply filter_length_le |].
  etransitivity; [| exact H1]. etransitivity; [| exact H2].
  etransitivity; [| apply filter_length_le].
  match goal with
  | |- context [if ?b then _ else _] => destruct b
  end; [rewrite length_map |]; apply Nat.le_refl.
Qed.

(** ** More on the page classifier *)

Lemma filter_exists_length (A : Type) (p : A -> bool) (l : list A) :
  Exists (fun x => p x = true) l -> 0 < List.length (List.filter p l).
Proof.
  induction 1 as [x l Hx | x l _ IH]; cbn [List.filter].
  - rewrite Hx. cbn. lia.
  - destruct (p x); cbn; lia.
Qed.

Lemma filter_length_zero (A : Type) (p : A -> bool) (l : list A) :
  List.length (List.filter p l) = 0 -> Forall (fun x => p x = false) l.
Proof.
  induction l as [| x l IH]; cbn [List.filter]; [constructor |].
  destruct (p x) eqn:E; [discriminate |]. intros H. constructor; auto.
Qed.

(** X7: a page text with a character of the Tamil block (U+0B80-U+0BFF)
    anywhere in it is sent to OCR, however little Tamil there is. *)
Theorem needs_ocr_tamil (s : pystr) :
  Exists (fun c => tamil_class c = true) s -> needs_ocr (Some s) = true.
Proof.
  intros H. unfold needs_ocr.
  destruct (negb (truthy s) || (List.length (strip s) <? 10)); [reflexivity |].
  rewrite (findall_Chr_length tamil_class).
  apply filter_exists_length in H.
  replace (Z.of_nat (List.length (List.filter tamil_class s)) >? 0)%Z with true
    by (symmetry; apply Z.gtb_lt; lia).
  now rewrite orb_true_r.
Qed.

Lemma needs_ocr_tamil_witness :
  Exists (fun c => tamil_class c = true) (u "Plaint no. 12 " ++ [2980%N])
  /\ needs_ocr (Some (u "Plaint no. 12 " ++ [2980%N])) = true.
Proof.
  assert (H : Exists (fun c => tamil_class c = true) (u "Plaint no. 12 " ++ [2980%N])).
  { apply Exists_exists. exists 2980%N. split; [| reflexivity].
    apply in_or_app. right. now left. }
  split; [exact H |].
  exact (needs_ocr_tamil _ H).
Defined.

(** X8: when [needs_ocr] accepts the fast path, the text has at least ten
    characters after stripping, no character of the Tamil block, and more
    than four fifths of its characters are in the classifier's ASCII
    class. *)
Theorem needs_ocr_false (text : option pystr) :
  needs_ocr text = false ->
  exists s,
    text = Some s
    /\ 10 <= List.length (strip s)
    /\ Forall (fun c => tamil_class c = false) s
    /\ 4 * List.length s < 5 * List.length (List.filter ascii_class s).
Proof.
  unfold needs_ocr. destruct text as [s |]; [| discriminate].
  destruct (negb (truthy s) || (List.length (strip s) <? 10)) eqn:E0;
    [discriminate |].
  apply orb_false_iff in E0. destruct E0 as [_ Hlen]. apply Nat.ltb_ge in Hlen.
  rewrite !findall_Chr_length.
  set (total := Z.of_nat (List.length s)).
  set (a := Z.of_nat (List.length (List.filter ascii_class s))).
  set (si := Z.of_nat (List.length (List.filter sinhala_class s))).
  set (ta := Z.of_nat (List.length (List.filter tamil_class s))).
  destruct (ratio_gt (ratio_of si total) f_0_01 || (ta >? 0)%Z) eqn:E1;
    [discriminate |].
  destruct (ratio_gt (ratio_of (total - a - si - ta) total) f_0_20); [discriminate |].
  destruct (ratio_gt (ratio_of a total) f_0_80) eqn:E3; [| discriminate].
  intros _. exists s. split; [reflexivity |]. split; [exact Hlen |].
  apply orb_false_iff in E1. destruct E1 as [_ Hta]. split.
  - apply filter_length_zero. subst ta.
    destruct (List.length (List.filter tamil_class s)); [reflexivity |].
    cbn in Hta. discriminate.
  - unfold ratio_of in E3. destruct (total >? 0)%Z eqn:Hpos; [| discriminate].
    unfold ratio_gt, truediv_gt, f_0_80 in E3. cbn [mant expo] in E3.
    change (Z.even 7205759403792794) with true in E3. cbv iota in E3.
    change (2 ^ (53 + 1))%Z with 18014398509481984%Z in E3.
    apply Z.ltb_lt in E3. subst total a. lia.
Qed.

Lemma needs_ocr_false_witness :
  needs_ocr (Some (u "Hello, world! This is fine.")) = false
  /\ 10 <= List.length (strip (u "Hello, world! This is fine.")).
Proof.
  assert (H : needs_ocr (Some (u "Hello, world! This is fine.")) = false)
    by (vm_compute; reflexivity).
  split; [exact H |].
  destruct (needs_ocr_false _ H) as (s & E & Hlen & _).
  injection E as <-. exact Hlen.
Defined.

(** ** More on the page loop *)

Lemma slice_to_length_le (A : Type) (k : Z) (l : list A) :
  List.length (slice_to k l) <= List.length l.
Proof.
  unfold slice_to. destruct (k <? 0)%Z; rewrite length_firstn; lia.
Qed.

Lemma slice_to_length_negative (A : Type) (k : Z) (l : list A) :
  (k < 0)%Z -> List.length (slice_to k l) = List.length l - Z.to_nat (- k).
Proof.
  intros Hk. unfold slice_to. replace (k <? 0)%Z with true by (symmetry; lia).
  rewrite length_firstn. lia.
Qed.

(** X9: whatever [max_pages] is, the pages tallied are never more than
    [total_pages]; a negative [max_pages] leaves out that many pages at the
    end of the document (all of them when the document has no more). *)
Theorem process_pdf_pages_bound (pdf : PdfFile) (max_pages : option Z) (pages : list Page) :
  plumber_open pdf = Returns pages ->
  exists text md,
    process_pdf pdf max_pages = Returns (text, md)
    /\ fast_path_pages md + ocr_fallback_pages md + failed_pages md <= total_pages md
    /\ (forall k, max_pages = Some k -> (k < 0)%Z ->
                  fast_path_pages md + ocr_fallback_pages md + failed_pages md
                  = List.length pages - Z.to_nat (- k)).
Proof.
  intros Hopen.
  destruct (process_pdf_returns pdf max_pages pages Hopen)
    as (text & md & Hret & Htot & Hf & Ho & Hx & _).
  exists text, md. split; [exact Hret |].
  rewrite Hf, Ho, Hx, tally_partition, enumerate_length, Htot. split.
  - destruct max_pages as [k |]; cbn [pages_to_process]; [| lia].
    destruct (k =? 0)%Z; [lia | apply slice_to_length_le].
  - intros k -> Hk. cbn [pages_to_process].
    replace (k =? 0)%Z with false by (symmetry; lia).
    now apply slice_to_length_negative.
Qed.

Lemma process_pdf_pages_bound_witness :
  plumber_open three_pages = Returns [english_page; broken_page; scanned_page]
  /\ exists text md,
       process_pdf three_pages (Some (-1)%Z) = Returns (text, md)
       /\ fast_path_pages md + ocr_fallback_pages md + failed_pages md = 2.
Proof.
  split; [reflexivity |].
  destruct (process_pdf_pages_bound three_pages (Some (-1)%Z)
              [english_page; broken_page; scanned_page] eq_refl)
    as (text & md & Hret & _ & Hneg).
  exists text, md. split; [exact Hret |].
  exact (Hneg (-1)%Z eq_refl eq_refl).
Defined.

Lemma words_from_length (s cur : pystr) :
  List.length (words_from cur s)
  <= List.length s + match cur with [] => 0 | _ :: _ => 1 end.
Proof.
  revert cur. induction s as [| c s IH]; intros cur; cbn [words_from].
  - destruct cur; cbn; lia.
  - destruct (isspace c).
    + destruct cur; cbn [List.length]; specialize (IH []); cbn in IH; lia.
    + specialize (IH (c :: cur)). cbn [List.length] in *. destruct cur; lia.
Qed.

(** X10: the two size counters describe the text [process_pdf] returns:
    [character_count] is its length and [word_count] the number of its
    whitespace-separated words, which is never more than its length. *)
Theorem process_pdf_size_counters (pdf : PdfFile) (max_pages : option Z)
        (text : pystr) (md : Metadata) :
  process_pdf pdf max_pages = Returns (text, md) ->
  character_count md = List.length text
  /\ word_count md = List.length (split_ws text)
  /\ word_count md <= character_count md.
Proof.
  unfold process_pdf. destruct (plumber_open pdf) as [pages | e]; [| discriminate].
  match goal with
  | |- context [process_pages ?a ?b ?c ?d] => destruct (process_pages a b c d) as [all_text md0]
  end.
  generalize (clean_text (Some (join [10%N; 10%N] all_text))). intros cleaned_text.
  intros [= <- <-]. cbn [character_count word_count set_counts].
  split; [reflexivity |]. split; [reflexivity |].
  unfold split_ws.
  pose proof (words_from_length cleaned_text []) as H.
  rewrite Nat.add_0_r in H. exact H.
Qed.

Lemma process_pdf_size_counters_witness :
  exists text md,
    process_pdf three_pages None = Returns (text, md)
    /\ character_count md = List.length text
    /\ word_count md <= character_count md.
Proof.
  destruct (process_pdf_returns three_pages None
              [english_page; broken_page; scanned_page] eq_refl)
    as (text & md & Hret & _).
  exists text, md. split; [exact Hret |].
  destruct (process_pdf_size_counters three_pages None text md Hret) as (H1 & _ & H3).
  split; [exact H1 | exact H3].
Defined.

(** ** What the cleaning leaves of whitespace *)

Lemma star_total (A : Type) (r : regex) (st : mstate) (k : mstate -> option A) :
  (forall st', k st' <> None) -> rmatch (Star r) st k <> None.
Proof.
  intros Hk. cbn [rmatch]. destruct (List.length (ms_rest st)) as [| n].
  - apply Hk.
  - match goal with
    | |- context [match ?x with Some a => Some a | None => _ end] => destruct x
    end; [discriminate | apply Hk].
Qed.

Lemma match_at_Plus_Chr_none (p : codepoint -> bool) (prev : option codepoint)
      (c : codepoint) (rest : pystr) :
  match_at (Plus (Chr p)) prev (c :: rest) = None -> p c = false.
Proof.
  unfold match_at, Plus.
  set (k := fun st : mstate =>
              Some (List.length (c :: rest) - List.length (ms_rest st), ms_group st)).
  change (rmatch (Seq (Chr p) (Star (Chr p))) (MState prev (c :: rest) None) k)
    with (if p c then rmatch (Star (Chr p)) (MState (Some c) rest None) k else None).
  destruct (p c); [| reflexivity]. intros H. exfalso. revert H.
  apply star_total. intros st'. discriminate.
Qed.

Lemma match_at_Plus_Chr_nonempty (p : codepoint -> bool) (prev : option codepoint)
      (rest : pystr) (g : option pystr) :
  match_at (Plus (Chr p)) prev rest <> Some (0, g).
Proof.
  intros E. apply match_at_sound in E.
  destruct E as (w & p' & r' & E1 & E2 & _ & Hm).
  apply matches_Seq_inv in Hm. destruct Hm as (st1 & Hc & Hs).
  apply matches_Chr_inv in Hc. destruct Hc as (c & Hc & _).
  apply matches_consumed in Hs. destruct Hs as [w2 Hs]. cbn [ms_rest] in *.
  destruct w; [| discriminate]. cbn [app] in E1. subst rest.
  rewrite Hs in Hc. apply (f_equal (@List.length _)) in Hc.
  cbn [List.length] in Hc. rewrite length_app in Hc. lia.
Qed.

(** What a substitution leaves: the replacement, and characters at which
    no match begins. *)
Lemma sub_from_Forall (r : regex) (repl : pystr) (Q : codepoint -> Prop) :
  Forall Q repl ->
  (forall prev c rest, match_at r prev (c :: rest) = None -> Q c) ->
  (forall prev rest g, match_at r prev rest <> Some (0, g)) ->
  forall (rest : pystr) (prev : option codepoint) (skip : nat),
    Forall Q (sub_from r repl prev skip rest).
Proof.
  intros Hrepl Hnone Hne. induction rest as [| c rest IH]; intros prev skip.
  - destruct skip as [| k]; cbn [sub_from]; [| constructor].
    destruct (match_at r prev []) as [[[| n] g] |] eqn:E.
    + exfalso. exact (Hne _ _ _ E).
    + rewrite app_nil_r. exact Hrepl.
    + constructor.
  - destruct skip as [| k]; cbn [sub_from]; [| apply IH].
    destruct (match_at r prev (c :: rest)) as [[[| n] g] |] eqn:E.
    + exfalso. exact (Hne _ _ _ E).
    + apply Forall_app. split; [exact Hrepl | apply IH].
    + constructor; [exact (Hnone _ _ _ E) | apply IH].
Qed.

Lemma collapse_spaces_chars (line : pystr) :
  Forall (fun c => isspace c = false \/ c = 32%N) (sub (Plus space) (u " ") line).
Proof.
  unfold sub. apply sub_from_Forall.
  - constructor; [right; reflexivity | constructor].
  - intros prev c rest E. left. exact (match_at_Plus_Chr_none _ _ _ _ E).
  - intros prev rest g. apply match_at_Plus_Chr_nonempty.
Qed.

Lemma drop_repeated_empty_Forall (P : pystr -> Prop) (lines : list pystr) :
  Forall P lines -> forall b, Forall P (drop_repeated_empty b lines).
Proof.
  induction 1 as [| line lines Hl _ IH]; intros b; cbn [drop_repeated_empty];
    [constructor |].
  destruct (negb (List.length line =? 0)); [constructor; auto |].
  destruct (negb b); [constructor; auto | apply IH].
Qed.

Lemma join_Forall (Q : codepoint -> Prop) (sep : pystr) (parts : list pystr) :
  Forall Q sep -> Forall (Forall Q) parts -> Forall Q (join sep parts).
Proof.
  intros Hsep. induction 1 as [| p parts Hp Hps IH]; cbn [join]; [constructor |].
  destruct parts as [| q parts]; [exact Hp |].
  apply Forall_app. split; [exact Hp |]. apply Forall_app. split; [exact Hsep | exact IH].
Qed.

(** X11: the only whitespace [clean_text] leaves in its result is the
    space and the newline.  In particular no tab survives, although the
    last substitution lists the tab among the characters to keep: every
    run of whitespace inside a line has been turned into one space
    before. *)
Theorem clean_text_whitespace (text : option pystr) :
  Forall (fun c => c <> 9%N /\ (isspace c = true -> c = 32%N \/ c = 10%N))
         (clean_text text).
Proof.
  unfold clean_text. destruct text as [text |]; [| constructor].
  destruct (negb (truthy text)); [constructor |].
  cbv zeta. apply strip_incl. unfold re_not_allowed. rewrite sub_Chr_delete.
  match goal with
  | |- Forall _ (List.filter _ (join _ (drop_repeated_empty _ (List.map _ ?l)))) =>
      generalize l
  end.
  intros lines.
  assert (H : Forall (fun c => (isspace c = false \/ c = 32%N) \/ c = 10%N)
                (join [10%N]
                   (drop_repeated_empty false
                      (List.map (sub (Plus space) (u " ")) lines)))).
  { apply join_Forall.
    - constructor; [right; reflexivity | constructor].
    - apply drop_repeated_empty_Forall. apply Forall_map.
      apply Forall_forall. intros line _.
      eapply Forall_impl; [| apply collapse_spaces_chars].
      cbn beta. intros c Hc. left. exact Hc. }
  apply Forall_forall. intros c Hc. apply filter_In in Hc. destruct Hc as [Hin _].
  rewrite Forall_forall in H. specialize (H c Hin).
  destruct H as [[H | H] | H].
  - split; [intros ->; discriminate H | intros Hs; congruence].
  - split; [intros E; rewrite E in H; discriminate H | intros _; left; exact H].
  - split; [intros E; rewrite E in H; discriminate H | intros _; right; exact H].
Qed.

(** ** Pages that give nothing *)

Lemma truthy_strip (s : pystr) : truthy (strip s) = negb (blank s).
Proof.
  unfold blank. destruct (forallb isspace s) eqn:E.
  - rewrite forallb_forall in E. rewrite strip_all_space; [reflexivity |].
    apply Forall_forall. exact E.
  - cbn [negb]. destruct (strip s) eqn:Es; [| reflexivity]. exfalso.
    assert (H : forallb isspace s = true); [| congruence].
    clear E. unfold strip, rstrip in Es.
    assert (Hl : lstrip s = []).
    { destruct (lstrip s) as [| c t] eqn:El; [reflexivity |].
      apply (f_equal (@rev _)) in Es. rewrite rev_involutive in Es. cbn [rev] in Es.
      pose proof (lstrip_head s) as Hh. rewrite El in Hh.
      assert (Hr : lstrip (rev (c :: t)) = []) by exact Es.
      clear Es.
      assert (Hall : forall l : pystr, lstrip l = [] -> Forall (fun c => isspace c = true) l).
      { induction l as [| a l IHl]; cbn [lstrip]; [constructor |].
        destruct (isspace a) eqn:Ea; [| discriminate]. intros Hl0. constructor; auto. }
      apply Hall in Hr. rewrite Forall_forall in Hr.
      specialize (Hr c). rewrite Hh in Hr. exfalso.
      assert (false = true); [| discriminate]. apply Hr.
      apply in_rev. rewrite rev_involutive. now left. }
    clear Es. induction s as [| a s IHs]; [reflexivity |].
    cbn [lstrip] in Hl. cbn [forallb]. destruct (isspace a); [| discriminate].
    cbn [andb]. exact (IHs Hl).
Qed.

Lemma page_strategy_failed (pdf : PdfFile) (n : nat) (page : Page) :
  strategy_eqb (page_strategy pdf n page) FAILED = yields_nothing pdf n page.
Proof.
  unfold page_strategy, yields_nothing, extract_page_with_ocr, ocr_reading.
  destruct (extract_text page) as [page_text | e]; [| reflexivity].
  destruct (fast_path page_text); [reflexivity |]. cbn [negb andb].
  destruct (convert_from_path pdf n) as [[| image0 images] | e];
    [reflexivity | | reflexivity].
  destruct (image_to_string image0) as [s | e]; [| reflexivity].
  rewrite truthy_strip. destruct (blank s); reflexivity.
Qed.

(** X13: [failed_pages] is the number of processed pages that give
    nothing: the pages on which [extract_text] raises, and the pages off
    the fast path for which the rasteriser or Tesseract raises, the
    rasteriser gives no image, or Tesseract reads whitespace only. *)
Theorem process_pdf_failed_pages (pdf : PdfFile) (max_pages : option Z) (pages : list Page) :
  plumber_open pdf = Returns pages ->
  exists text md,
    process_pdf pdf max_pages = Returns (text, md)
    /\ failed_pages md
       = List.length
           (List.filter (fun np => yields_nothing pdf (fst np) (snd np))
                        (enumerate 1 (pages_to_process max_pages pages))).
Proof.
  intros Hopen.
  destruct (process_pdf_returns pdf max_pages pages Hopen)
    as (text & md & Hret & _ & _ & _ & Hx & _).
  exists text, md. split; [exact Hret |].
  rewrite Hx. unfold tally. f_equal. apply filter_ext.
  intros [n page]. apply page_strategy_failed.
Qed.

Lemma process_pdf_failed_pages_witness :
  plumber_open blank_scan = Returns [scanned_page]
  /\ raising blank_scan (enumerate 1 [scanned_page]) = 0
  /\ exists text md,
       process_pdf blank_scan None = Returns (text, md) /\ failed_pages md = 1.
Proof.
  split; [reflexivity |]. split; [reflexivity |].
  destruct (process_pdf_failed_pages blank_scan None [scanned_page] eq_refl)
    as (text & md & Hret & Hf).
  exists text, md. split; [exact Hret |]. rewrite Hf. vm_compute. reflexivity.
Defined.

(** The loop appends one section for every page it counts as
    successful. *)
Lemma process_pages_sections (pdf : PdfFile) (pages : list Page) :
  forall (n : nat) (st : loop_state),
    List.length (fst st) = successful_pages (snd st) ->
    List.length (fst (process_pages pdf n pages st))
    = successful_pages (snd (process_pages pdf n pages st)).
Proof.
  induction pages as [| page pages IH]; intros n st Hst; cbn [process_pages];
    [exact Hst |].
  apply IH. destruct st as [all_text md]. cbn [fst snd] in Hst.
  unfold process_page.
  destruct (extract_text page) as [page_text | e]; [| exact Hst].
  match goal with |- context [if ?b then _ else _] => destruct b end.
  - cbn [fst snd count_fast successful_pages]. rewrite length_app. cbn [List.length]. lia.
  - destruct (truthy (extract_page_with_ocr pdf n)).
    + cbn [fst snd count_ocr successful_pages]. rewrite length_app. cbn [List.length]. lia.
    + exact Hst.
Qed.

(** X12: when no page was extracted ([successful_pages] is 0), the text
    [process_pdf] returns is the empty string and both size counters are
    0: pages that fail leave no trace in the text, and a document of which
    every page fails is returned as an empty text, not as an error. *)
Theorem process_pdf_nothing_extracted (pdf : PdfFile) (max_pages : option Z)
        (text : pystr) (md : Metadata) :
  process_pdf pdf max_pages = Returns (text, md) ->
  successful_pages md = 0 ->
  text = [] /\ character_count md = 0 /\ word_count md = 0.
Proof.
  unfold process_pdf. destruct (plumber_open pdf) as [pages | e]; [| discriminate].
  match goal with
  | |- context [process_pages ?a ?b ?c ?d] =>
      pose proof (process_pages_sections a c b d eq_refl) as Hinv;
      destruct (process_pages a b c d) as [all_text md0]
  end.
  cbn [fst snd] in Hinv.
  destruct all_text as [| section0 all_text].
  - intros [= <- <-]. intros _. repeat split.
  - generalize (clean_text (Some (join [10%N; 10%N] (section0 :: all_text)))).
    intros cleaned_text [= <- <-]. cbn [successful_pages set_counts].
    intros H0. rewrite H0 in Hinv. discriminate Hinv.
Qed.

Lemma process_pdf_nothing_extracted_witness :
  exists text md,
    process_pdf blank_scan None = Returns (text, md)
    /\ text = [] /\ failed_pages md = 1.
Proof.
  exists [], {| total_pages := 1; successful_pages := 0; fast_path_pages := 0;
               ocr_fallback_pages := 0; failed_pages := 1; character_count := 0;
               word_count := 0 |}.
  assert (H : process_pdf blank_scan None
              = Returns ([], {| total_pages := 1; successful_pages := 0;
                                fast_path_pages := 0; ocr_fallback_pages := 0;
                                failed_pages := 1; character_count := 0;
                                word_count := 0 |}))
    by (vm_compute; reflexivity).
  split; [exact H |].
  split; [| reflexivity].
  exact (proj1 (process_pdf_nothing_extracted _ _ _ _ H eq_refl)).
Defined.

Import LLMService.





(** ** The retry loop of the LLM service *)

Lemma attempts_trace (reply : nat -> api_reply) (m : Z) :
  forall (left a : nat),
    (Z.of_nat a + Z.of_nat left = m + 1)%Z -> 1 <= left ->
    exists r n,
      attempts reply m a left = (r, n)
      /\ 1 <= n <= left
      /\ (forall j, a <= j < a + n - 1 -> retriable (reply j) = true)
      /\ match r with
         | Returns content =>
             exists raw, reply (a + n - 1) = Content raw
                         /\ content = strip raw /\ truthy content = true
         | Raises msg =>
             (exists e, reply (a + n - 1) = ConnectionExc e
                        /\ msg = u "Connection error: " ++ e)
             \/ (n = left /\ retriable (reply (a + n - 1)) = true
                 /\ msg = exhausted_message m (reply (a + n - 1)))
         end.
Proof.
  induction left as [| left' IH]; intros a Hm Hl; [lia |].
  assert (Hlast : forall r : outcome pystr,
            match r with
            | Returns content =>
                exists raw, reply a = Content raw
                            /\ content = strip raw /\ truthy content = true
            | Raises msg =>
                (exists e, reply a = ConnectionExc e
                           /\ msg = u "Connection error: " ++ e)
                \/ (1 = S left' /\ retriable (reply a) = true
                    /\ msg = exhausted_message m (reply a))
            end ->
            exists r0 n,
              (r, 1) = (r0, n) /\ 1 <= n <= S left'
              /\ (forall j, a <= j < a + n - 1 -> retriable (reply j) = true)
              /\ match r0 with
                 | Returns content =>
                     exists raw, reply (a + n - 1) = Content raw
                                 /\ content = strip raw /\ truthy content = true
                 | Raises msg =>
                     (exists e, reply (a + n - 1) = ConnectionExc e
                                /\ msg = u "Connection error: " ++ e)
                     \/ (n = S left' /\ retriable (reply (a + n - 1)) = true
                         /\ msg = exhausted_message m (reply (a + n - 1)))
                 end).
  { intros r Hr. exists r, 1. split; [reflexivity |]. split; [lia |].
    split; [intros j Hj; lia |].
    replace (a + 1 - 1) with a by lia. exact Hr. }
  assert (Hcont : (Z.of_nat a <? m)%Z = true -> retriable (reply a) = true ->
            exists r0 n,
              (let '(r, calls) := attempts reply m (S a) left' in (r, S calls)) = (r0, n)
              /\ 1 <= n <= S left'
              /\ (forall j, a <= j < a + n - 1 -> retriable (reply j) = true)
              /\ match r0 with
                 | Returns content =>
                     exists raw, reply (a + n - 1) = Content raw
                                 /\ content = strip raw /\ truthy content = true
                 | Raises msg =>
                     (exists e, reply (a + n - 1) = ConnectionExc e
                                /\ msg = u "Connection error: " ++ e)
                     \/ (n = S left' /\ retriable (reply (a + n - 1)) = true
                         /\ msg = exhausted_message m (reply (a + n - 1)))
                 end).
  { intros Hmore Hretry. apply Z.ltb_lt in Hmore.
    destruct (IH (S a)) as (r & n & E & Hn & Hbefore & Hr); [lia | lia |].
    rewrite E. exists r, (S n). split; [reflexivity |]. split; [lia |].
    replace (a + S n - 1) with (S a + n - 1) by lia. split.
    - intros j Hj. destruct (Nat.eq_dec j a) as [-> | Hne]; [exact Hretry |].
      apply Hbefore. lia.
    - destruct r as [content | msg]; [exact Hr |].
      destruct Hr as [Hr | (Hn' & Hr)]; [left; exact Hr | right].
      split; [lia | exact Hr]. }
  assert (Hless : (Z.of_nat a <? m)%Z = false -> 1 = S left').
  { intros Hmore. apply Z.ltb_ge in Hmore. lia. }
  cbn [attempts]. unfold retriable in Hcont, Hlast |- *.
  destruct (reply a) as [raw | | e | e] eqn:Ea.
  - cbv zeta. destruct (truthy (strip raw)) eqn:Et.
    + apply Hlast. exists raw. auto.
    + destruct (Z.of_nat a <? m)%Z eqn:Hmore.
      * apply Hcont; reflexivity.
      * apply Hlast. right. split; [now apply Hless |]. now split.
  - destruct (Z.of_nat a <? m)%Z eqn:Hmore.
    + apply Hcont; reflexivity.
    + apply Hlast. right. split; [now apply Hless |]. now split.
  - apply Hlast. left. exists e. now split.
  - destruct (Z.of_nat a <? m)%Z eqn:Hmore.
    + apply Hcont; reflexivity.
    + apply Hlast. right. split; [now apply Hless |]. now split.
Qed.

Lemma attempts_decisive (reply : nat -> api_reply) (m : Z) (k : nat) :
  (Z.of_nat k <= m)%Z ->
  forall (left a : nat),
    a <= k -> k < a + left ->
    (forall j, a <= j < k -> retriable (reply j) = true) ->
    (forall raw, reply k = Content raw -> truthy (strip raw) = true ->
                 attempts reply m a left = (Returns (strip raw), k - a + 1))
    /\ (forall e, reply k = ConnectionExc e ->
                  attempts reply m a left
                  = (Raises (u "Connection error: " ++ e), k - a + 1)).
Proof.
  intros Hk. induction left as [| left' IH]; intros a Ha Hl Hbefore; [lia |].
  destruct (Nat.eq_dec a k) as [-> | Hne].
  - replace (k - k + 1) with 1 by lia. split.
    + intros raw E Ht. cbn [attempts]. rewrite E. cbv zeta. now rewrite Ht.
    + intros e E. cbn [attempts]. now rewrite E.
  - assert (Hmore : (Z.of_nat a <? m)%Z = true) by (apply Z.ltb_lt; lia).
    assert (Hra : retriable (reply a) = true) by (apply Hbefore; lia).
    destruct (IH (S a)) as [IH1 IH2]; [lia | lia | intros j Hj; apply Hbefore; lia |].
    replace (k - a + 1) with (S (k - S a + 1)) by lia.
    split.
    + intros raw E Ht. specialize (IH1 raw E Ht). cbn [attempts]. rewrite IH1, Hmore.
      unfold retriable in Hra.
      destruct (reply a) as [raw0 | | e0 | e0]; cbv zeta;
        [apply negb_true_iff in Hra; rewrite Hra | | discriminate |]; reflexivity.
    + intros e E. specialize (IH2 e E). cbn [attempts]. rewrite IH2, Hmore.
      unfold retriable in Hra.
      destruct (reply a) as [raw0 | | e0 | e0]; cbv zeta;
        [apply negb_true_iff in Hra; rewrite Hra | | discriminate |]; reflexivity.
Qed.

(** X14: what [generate_response] returns is the stripped content of the
    reply to its last call; it is never empty and has no whitespace at
    either end, so that [clean_llm_json] never rejects it as an empty
    output; the calls made are at most [max_retries]. *)
Theorem generate_response_content (svc : Service) (prompt : pystr)
        (max_retries : option Z) (content : pystr) (calls : nat) :
  generate_response svc prompt max_retries = (Returns content, calls) ->
  content <> [] /\ strip content = content
  /\ 1 <= calls /\ (Z.of_nat calls <= retries svc max_retries)%Z
  /\ (exists raw, api svc prompt calls = Content raw /\ content = strip raw)
  /\ clean_llm_json (Some content) <> Raise LLM_output_is_empty.
Proof.
  unfold generate_response. set (m := retries svc max_retries). intros H.
  destruct (Z.to_nat m) as [| left'] eqn:El; [discriminate H |].
  destruct (attempts_trace (api svc prompt) m (S left') 1)
    as (r & n & E & Hn & _ & Hr); [lia | lia |].
  rewrite E in H. injection H as -> ->.
  destruct Hr as (raw & Hraw & Hc & Ht).
  replace (1 + calls - 1) with calls in Hraw by lia.
  assert (Hs : strip content = content) by (rewrite Hc; apply strip_idem).
  split; [intros ->; discriminate Ht |]. split; [exact Hs |].
  split; [lia |]. split; [lia |]. split; [exists raw; now split |].
  unfold clean_llm_json. rewrite Hs, Ht. cbn [negb orb].
  destruct (locate_json content) as [c |]; [| discriminate].
  unfold parse_with_repair.
  repeat match goal with
         | |- context [match ?x with Some _ => _ | None => _ end] => destruct x
         end; discriminate.
Qed.

Lemma generate_response_content_witness :
  generate_response slow_provider [] None = (Returns fenced_input, 2)
  /\ strip fenced_input = fenced_input
  /\ clean_llm_json (Some fenced_input) <> Raise LLM_output_is_empty.
Proof.
  assert (H : generate_response slow_provider [] None = (Returns fenced_input, 2))
    by (vm_compute; reflexivity).
  split; [exact H |].
  destruct (generate_response_content _ _ _ _ _ H) as (_ & Hs & _ & _ & _ & Hc).
  split; [exact Hs | exact Hc].
Defined.

(** X15: the first reply that is not a retriable failure decides the
    call.  If the replies to the calls before the [k]-th are retriable
    failures and [k] is within [max_retries], then a non-empty content at
    the [k]-th call is returned, and a connection error at the [k]-th call
    is raised at once, after [k] calls: a connection error is never
    retried, whatever number of attempts is left. *)
Theorem generate_response_decisive (svc : Service) (prompt : pystr)
        (max_retries : option Z) (k : nat) :
  1 <= k -> (Z.of_nat k <= retries svc max_retries)%Z ->
  (forall j, 1 <= j < k -> retriable (api svc prompt j) = true) ->
  (forall raw, api svc prompt k = Content raw -> truthy (strip raw) = true ->
               generate_response svc prompt max_retries = (Returns (strip raw), k))
  /\ (forall e, api svc prompt k = ConnectionExc e ->
                generate_response svc prompt max_retries
                = (Raises (u "Connection error: " ++ e), k)).
Proof.
  intros Hk Hm Hbefore. unfold generate_response.
  destruct (attempts_decisive (api svc prompt) (retries svc max_retries) k Hm
              (Z.to_nat (retries svc max_retries)) 1) as [H1 H2];
    [exact Hk | lia | exact Hbefore |].
  replace (k - 1 + 1) with k in H1, H2 by lia.
  split; [exact H1 | exact H2].
Qed.

Lemma generate_response_decisive_witness :
  retries unreachable_provider None = 3%Z
  /\ generate_response unreachable_provider [] None
     = (Raises (u "Connection error: connection refused"), 2).
Proof.
  split; [reflexivity |].
  assert (Hbefore : forall j, 1 <= j < 2 ->
                      retriable (api unreachable_provider [] j) = true).
  { intros j Hj. assert (E : j = 1) by lia. rewrite E. reflexivity. }
  assert (Hm : (Z.of_nat 2 <= retries unreachable_provider None)%Z)
    by (vm_compute; discriminate).
  exact (proj2 (generate_response_decisive unreachable_provider [] None 2
                  (le_S 1 1 (le_n 1)) Hm Hbefore)
               (u "connection refused") eq_refl).
Defined.

(** X16: how [generate_response] raises.  It makes at most [max_retries]
    calls, and every call before the last one got a retriable failure.
    It raises without any call exactly when [max_retries] (after the
    default is put in for [None] and 0) is not positive; otherwise it
    raises on a connection error, or after exactly [max_retries] calls,
    with the message that goes with the last failure. *)
Theorem generate_response_raises (svc : Service) (prompt : pystr)
        (max_retries : option Z) (msg : pystr) (calls : nat) :
  generate_response svc prompt max_retries = (Raises msg, calls) ->
  (Z.of_nat calls <= Z.max 0 (retries svc max_retries))%Z
  /\ (forall j, 1 <= j < calls -> retriable (api svc prompt j) = true)
  /\ (((retries svc max_retries <= 0)%Z /\ calls = 0
       /\ msg = u "Failed after " ++ str_of_Z (retries svc max_retries) ++ u " attempts")
      \/ (1 <= calls
          /\ exists e, api svc prompt calls = ConnectionExc e
                       /\ msg = u "Connection error: " ++ e)
      \/ ((0 < retries svc max_retries)%Z
          /\ Z.of_nat calls = retries svc max_retries
          /\ retriable (api svc prompt calls) = true
          /\ msg = exhausted_message (retries svc max_retries) (api svc prompt calls))).
Proof.
  unfold generate_response. set (m := retries svc max_retries). intros H.
  destruct (Z.to_nat m) as [| left'] eqn:El.
  - cbn [attempts] in H. injection H as <- <-.
    split; [lia |]. split; [intros j Hj; lia |]. left.
    split; [lia |]. split; reflexivity.
  - destruct (attempts_trace (api svc prompt) m (S left') 1)
      as (r & n & E & Hn & Hbefore & Hr); [lia | lia |].
    rewrite E in H. injection H as -> ->.
    replace (1 + calls - 1) with calls in Hbefore, Hr by lia.
    split; [lia |]. split; [exact Hbefore |]. right.
    destruct Hr as [(e & He & Hmsg) | (Hcalls & Hretry & Hmsg)].
    + left. split; [lia |]. exists e. now split.
    + right. split; [lia |]. split; [lia |]. now split.
Qed.

Lemma generate_response_raises_witness :
  generate_response silent_provider [] None
  = (Raises (u "Timeout after 3 attempts"), 3)
  /\ (Z.of_nat 3 <= Z.max 0 (retries silent_provider None))%Z.
Proof.
  assert (H : generate_response silent_provider [] None
              = (Raises (u "Timeout after 3 attempts"), 3))
    by (vm_compute; reflexivity).
  split; [exact H |].
  exact (proj1 (generate_response_raises _ _ _ _ _ H)).
Defined.

(** ** The truncation of the text sent to the model *)

Lemma slice_to_prefix (A : Type) (k : Z) (l : list A) :
  exists rest, l = slice_to k l ++ rest.
Proof.
  unfold slice_to. destruct (k <? 0)%Z; eexists; symmetry; apply firstn_skipn.
Qed.

(** Rounding to 53 bits loses less than one part in 2^53. *)
Lemma round53_lower (p : Z) :
  (0 < p)%Z ->
  (0 <= snd (round53 p) /\ p * (2 ^ 53 - 1) <= fst (round53 p) * 2 ^ snd (round53 p) * 2 ^ 53)%Z.
Proof.
  intros Hp. unfold round53. cbv zeta.
  destruct (Z.log2 p + 1 <=? 53)%Z eqn:Hb.
  - cbn [fst snd]. split; [lia |]. rewrite Z.pow_0_r. lia.
  - apply Z.leb_gt in Hb.
    set (s := (Z.log2 p + 1 - 53)%Z) in *.
    assert (Hs : (0 < s)%Z) by (subst s; lia).
    pose proof (Z.log2_spec p Hp) as [Hlo _].
    assert (E1 : (2 ^ Z.log2 p = 2 ^ (s - 1) * 2 ^ 53)%Z).
    { rewrite <- Z.pow_add_r by lia. f_equal. subst s. lia. }
    assert (E2 : (2 ^ s = 2 * 2 ^ (s - 1))%Z).
    { replace s with (1 + (s - 1))%Z at 1 by lia. rewrite Z.pow_add_r by lia. reflexivity. }
    assert (Hx : (0 < 2 ^ (s - 1))%Z) by (apply Z.pow_pos_nonneg; lia).
    rewrite Z.shiftr_div_pow2 by lia.
    pose proof (Z.div_mod p (2 ^ s) ltac:(lia)) as Hdm.
    pose proof (Z.mod_pos_bound p (2 ^ s) ltac:(lia)) as Hr.
    set (q := (p / 2 ^ s)%Z) in *. set (r := (p mod 2 ^ s)%Z) in *.
    set (x := (2 ^ (s - 1))%Z) in *.
    destruct ((x <? r)%Z || ((r =? x)%Z && Z.odd q)) eqn:Hup; cbn [fst snd];
      (split; [lia |]); rewrite E2.
    + nia.
    + apply orb_false_iff in Hup. destruct Hup as [Hup _]. apply Z.ltb_ge in Hup. nia.
Qed.

(** Below 2^53, an index above the float [n * 0.7] is at least
    seven tenths of [n], less one. *)
Lemma above_threshold (n l : Z) (f : Z * Z) :
  (0 < n < 2 ^ 53)%Z ->
  int_times_float n f_0_7 = Some f ->
  int_gt_float l f = true ->
  (7 * n <= 10 * (l + 1))%Z.
Proof.
  intros Hn. unfold int_times_float.
  replace (n =? 0)%Z with false by (symmetry; lia).
  assert (Hlog : (Z.log2 n + 1 <= 53)%Z).
  { assert (Z.log2 n < 53)%Z; [| lia]. apply Z.log2_lt_pow2; lia. }
  assert (E : round53 (Z.abs n) = (n, 0%Z)).
  { unfold round53. cbv zeta. rewrite Z.abs_eq by lia.
    replace (Z.log2 n + 1 <=? 53)%Z with true by (symmetry; lia). reflexivity. }
  rewrite E. cbv iota beta.
  destruct (2 ^ 1024 <=? n * 2 ^ 0)%Z; [discriminate |].
  pose proof (round53_lower (n * mant f_0_7)) as Hr.
  destruct (round53 (n * mant f_0_7)) as [q2 s2]. cbn [fst snd] in Hr.
  intros [= <-]. unfold int_gt_float.
  replace (Z.sgn n) with 1%Z by (symmetry; apply Z.sgn_pos; lia).
  change (mant f_0_7) with 6305039478318694%Z in Hr.
  change (expo f_0_7) with 53%Z.
  destruct Hr as [Hs Hr]; [lia |].
  assert (Hpow : (0 < 2 ^ s2)%Z) by (apply Z.pow_pos_nonneg; lia).
  change (2 ^ 53)%Z with 9007199254740992%Z in *.
  destruct (0 <=? s2 - 53)%Z eqn:He.
  - apply Z.leb_le in He. intros Hgt. apply Z.ltb_lt in Hgt.
    assert (E2 : (2 ^ s2 = 2 ^ (s2 - 53) * 9007199254740992)%Z).
    { change 9007199254740992%Z with (2 ^ 53)%Z. rewrite <- Z.pow_add_r by lia.
      f_equal. lia. }
    assert (Hy : (0 < 2 ^ (s2 - 53))%Z) by (apply Z.pow_pos_nonneg; lia).
    set (y := (2 ^ (s2 - 53))%Z) in *. rewrite E2 in Hr. nia.
  - apply Z.leb_gt in He. intros Hgt. apply Z.ltb_lt in Hgt.
    assert (E2 : (9007199254740992 = 2 ^ s2 * 2 ^ (- (s2 - 53)))%Z).
    { change 9007199254740992%Z with (2 ^ 53)%Z. rewrite <- Z.pow_add_r by lia.
      f_equal. lia. }
    assert (Hy : (0 < 2 ^ (- (s2 - 53)))%Z) by (apply Z.pow_pos_nonneg; lia).
    set (y := (2 ^ (- (s2 - 53)))%Z) in *.
    set (x := (2 ^ s2)%Z) in *. nia.
Qed.

Lemma round53_pos (p : Z) : (0 < p)%Z -> (0 < fst (round53 p))%Z.
Proof.
  intros Hp. unfold round53. cbv zeta.
  destruct (Z.log2 p + 1 <=? 53)%Z eqn:Hb; [exact Hp |].
  apply Z.leb_gt in Hb.
  set (s := (Z.log2 p + 1 - 53)%Z) in *.
  assert (Hq : (0 < Z.shiftr p s)%Z).
  { rewrite Z.shiftr_div_pow2 by lia. apply Z.div_str_pos. split.
    - apply Z.pow_pos_nonneg; lia.
    - pose proof (Z.log2_spec p Hp) as [Hlo _].
      etransitivity; [| exact Hlo]. apply Z.pow_le_mono_r; lia. }
  destruct ((2 ^ (s - 1) <? p mod 2 ^ s)%Z
            || ((p mod 2 ^ s =? 2 ^ (s - 1))%Z && Z.odd (Z.shiftr p s)));
    cbn [fst]; lia.
Qed.

Lemma above_positive (n l : Z) (f : Z * Z) :
  (0 < n)%Z ->
  int_times_float n f_0_7 = Some f ->
  int_gt_float l f = true ->
  (0 < l)%Z.
Proof.
  intros Hn. unfold int_times_float.
  replace (n =? 0)%Z with false by (symmetry; lia).
  pose proof (round53_pos (Z.abs n) ltac:(lia)) as H1.
  destruct (round53 (Z.abs n)) as [q1 s1]. cbn [fst] in H1.
  destruct (2 ^ 1024 <=? q1 * 2 ^ s1)%Z; [discriminate |].
  pose proof (round53_pos (q1 * mant f_0_7)) as H2.
  destruct (round53 (q1 * mant f_0_7)) as [q2 s2]. cbn [fst] in H2.
  assert (Hq2 : (0 < q2)%Z).
  { apply H2. change (mant f_0_7) with 6305039478318694%Z. lia. }
  intros [= <-]. unfold int_gt_float.
  replace (Z.sgn n) with 1%Z by (symmetry; apply Z.sgn_pos; lia).
  match goal with
  | |- (if ?b then _ else _) = true -> _ => destruct b
  end; intros Hgt; apply Z.ltb_lt in Hgt.
  - match type of Hgt with
    | (_ * 2 ^ ?e < _)%Z => pose proof (Z.pow_nonneg 2 e ltac:(lia))
    end. nia.
  - match type of Hgt with
    | (_ < _ * 2 ^ ?e)%Z => pose proof (Z.pow_nonneg 2 e ltac:(lia))
    end. nia.
Qed.

(** X17: what [extract_document_data] leaves of the OCR text is a prefix
    of it, and the whole of it when it is not longer than
    [max_text_length].  When it is longer (and [max_text_length] is not
    negative), what is left has at most [max_text_length] characters; it
    has exactly that many or ends with a period; and, for
    [max_text_length] below 2^53, at least seven tenths of
    [max_text_length] characters are left, whatever the rounding of
    [max_text_length * 0.7] does. *)
Theorem truncate_keeps_prefix (ocr_text : pystr) (max_text_length : Z) (t : pystr) :
  truncate ocr_text max_text_length = Returns t ->
  (exists rest, ocr_text = t ++ rest)
  /\ ((Z.of_nat (List.length ocr_text) <= max_text_length)%Z -> t = ocr_text)
  /\ ((0 <= max_text_length < Z.of_nat (List.length ocr_text))%Z ->
      (Z.of_nat (List.length t) <= max_text_length)%Z
      /\ (Z.of_nat (List.length t) = max_text_length
          \/ exists t', t = t' ++ [cp "."])
      /\ ((max_text_length < 2 ^ 53)%Z ->
          (7 * max_text_length <= 10 * Z.of_nat (List.length t))%Z)).
Proof.
  unfold truncate.
  destruct (max_text_length <? Z.of_nat (List.length ocr_text))%Z eqn:Hlong.
  - apply Z.ltb_lt in Hlong.
    destruct (slice_to_prefix _ max_text_length ocr_text) as [rest0 Hrest0].
    set (truncated := slice_to max_text_length ocr_text) in *.
    destruct (int_times_float max_text_length f_0_7) as [threshold |] eqn:Ef;
      [| discriminate].
    destruct (int_gt_float (rfind_index (cp ".") truncated) threshold) eqn:Hgt.
    + intros [= Et].
      destruct (slice_to_prefix _ (rfind_index (cp ".") truncated + 1) truncated)
        as [rest1 Hrest1].
      split.
      { exists (rest1 ++ rest0). etransitivity; [exact Hrest0 |].
        rewrite app_assoc. f_equal. rewrite <- Et. exact Hrest1. }
      split; [lia |]. intros [Hmax _].
      assert (Hlen : List.length truncated = Z.to_nat max_text_length).
      { subst truncated. rewrite slice_to_length by lia. lia. }
      assert (Hpos : (0 < max_text_length)%Z).
      { destruct (Z.eq_dec max_text_length 0) as [E0 | Hne]; [| lia].
        exfalso. rewrite E0 in Ef. injection Ef as <-.
        destruct truncated; [| cbn in Hlen; rewrite E0 in Hlen; discriminate].
        cbn in Hgt. discriminate. }
      pose proof (above_positive _ _ _ Hpos Ef Hgt) as Hl.
      unfold rfind_index in *.
      destruct (rfind (cp ".") truncated) as [i |] eqn:Er; [| lia].
      destruct (rfind_split _ _ _ Er) as (pre & post & Esplit & Hpre).
      assert (Ecut : slice_to (Z.of_nat i + 1) truncated = pre ++ [cp "."]).
      { unfold slice_to. replace (Z.of_nat i + 1 <? 0)%Z with false by (symmetry; lia).
        replace (Z.to_nat (Z.of_nat i + 1)) with (List.length (pre ++ [cp "."]))
          by (rewrite length_app; cbn [List.length]; lia).
        rewrite Esplit.
        change (pre ++ cp "." :: post) with (pre ++ [cp "."] ++ post).
        rewrite app_assoc. rewrite firstn_app, Nat.sub_diag, firstn_all.
        cbn [firstn]. apply app_nil_r. }
      assert (Et' : t = pre ++ [cp "."]).
      { rewrite <- Et. change (rfind 46%N truncated) with (rfind (cp ".") truncated).
        rewrite Er. exact Ecut. }
      rewrite Et'.
      assert (Hcut : List.length (pre ++ [cp "."]) = S i)
        by (rewrite length_app; cbn [List.length]; lia).
      assert (Hi : S i <= List.length truncated).
      { rewrite Esplit, length_app. cbn [List.length]. lia. }
      rewrite Hcut. split; [lia |]. split; [right; now exists pre |].
      intros Hsmall.
      pose proof (above_threshold _ _ _ (conj Hpos Hsmall) Ef Hgt). lia.
    + intros [= <-]. split; [now exists rest0 |]. split; [lia |]. intros [Hmax _].
      assert (Hlen : List.length truncated = Z.to_nat max_text_length).
      { subst truncated. rewrite slice_to_length by lia. lia. }
      rewrite Hlen. split; [lia |]. split; [left; lia |]. intros _. lia.
  - apply Z.ltb_ge in Hlong. intros [= <-].
    split; [exists []; symmetry; apply app_nil_r |]. split; [reflexivity |]. lia.
Qed.

Lemma truncate_keeps_prefix_witness :
  truncate (u "One. Two. Three") 10 = Returns (u "One. Two.")
  /\ (7 * 10 <= 10 * Z.of_nat (List.length (u "One. Two.")))%Z.
Proof.
  assert (H : truncate (u "One. Two. Three") 10 = Returns (u "One. Two."))
    by (vm_compute; reflexivity).
  split; [exact H |].
  destruct (truncate_keeps_prefix _ _ _ H) as (_ & _ & Hcut).
  assert (Hrange : (0 <= 10 < Z.of_nat (List.length (u "One. Two. Three")))%Z)
    by (vm_compute; split; [discriminate | reflexivity]).
  destruct (Hcut Hrange) as (_ & _ & H70).
  apply H70. reflexivity.
Defined.

Import LLMService Process.



(** ** Dictionaries *)

Lemma pystr_eqb_refl (k : pystr) : pystr_eqb k k = true.
Proof. now apply pystr_eqb_eq. Qed.

Lemma pystr_eqb_neq (k k' : pystr) : k <> k' -> pystr_eqb k k' = false.
Proof.
  intros H. destruct (pystr_eqb k k') eqn:E; [| reflexivity].
  apply pystr_eqb_eq in E. contradiction.
Qed.

Lemma dict_get_set_same (V : Type) (k : pystr) (v : V) (d : list (pystr * V)) :
  dict_get k (dict_set k v d) = Some v.
Proof.
  induction d as [| [k' v'] d IH]; cbn [dict_set dict_get].
  - now rewrite pystr_eqb_refl.
  - destruct (pystr_eqb k' k) eqn:E; cbn [dict_get]; rewrite E; [reflexivity | exact IH].
Qed.

Lemma dict_get_set_other (V : Type) (k k0 : pystr) (v : V) (d : list (pystr * V)) :
  k0 <> k -> dict_get k0 (dict_set k v d) = dict_get k0 d.
Proof.
  intros Hne. induction d as [| [k' v'] d IH]; cbn [dict_set dict_get].
  - rewrite pystr_eqb_neq; [reflexivity | congruence].
  - destruct (pystr_eqb k' k) eqn:E; cbn [dict_get].
    + apply pystr_eqb_eq in E. subst k'.
      rewrite pystr_eqb_neq; [reflexivity | congruence].
    + destruct (pystr_eqb k' k0); [reflexivity | exact IH].
Qed.

Lemma dict_set_not_empty (V : Type) (k : pystr) (v : V) (d : list (pystr * V)) :
  dict_set k v d <> [].
Proof.
  destruct d as [| [k' v'] d]; cbn [dict_set]; [discriminate |].
  destruct (pystr_eqb k' k); discriminate.
Qed.

(** ** The database *)

Lemma update_absent (db : InMemoryDB) (doc_id : pystr) (data : document) :
  get db doc_id = None -> fst (update db doc_id data) = db.
Proof. unfold get, update. now intros ->. Qed.

Lemma update_present (db : InMemoryDB) (doc_id : pystr) (data doc : document) :
  get db doc_id = Some doc ->
  get (fst (update db doc_id data)) doc_id = Some (dict_update doc data)
  /\ (forall other, other <> doc_id ->
                    get (fst (update db doc_id data)) other = get db other).
Proof.
  unfold get, update. intros ->. cbn [fst]. split.
  - apply dict_get_set_same.
  - intros other Hne. now apply dict_get_set_other.
Qed.

(** After [d.update(data)] a key has the value of its last entry in
    [data], or else the value it had. *)
Lemma dict_get_update (V : Type) (k : pystr) (data : list (pystr * V)) :
  forall d : list (pystr * V),
    dict_get k (dict_update d data)
    = match dict_get k (rev data) with
      | Some v => Some v
      | None => dict_get k d
      end.
Proof.
  unfold dict_update. induction data as [| [k0 v0] data IH]; intros d;
    cbn [fold_left rev fst snd]; [reflexivity |].
  rewrite IH.
  assert (Happ : forall l : list (pystr * V),
            dict_get k (l ++ [(k0, v0)])
            = match dict_get k l with
              | Some v => Some v
              | None => if pystr_eqb k0 k then Some v0 else None
              end).
  { induction l as [| [k1 v1] l IHl]; cbn [app dict_get]; [reflexivity |].
    destruct (pystr_eqb k1 k); [reflexivity | exact IHl]. }
  rewrite Happ. destruct (dict_get k (rev data)); [reflexivity |].
  destruct (pystr_eqb k0 k) eqn:E.
  - apply pystr_eqb_eq in E. subst k0. apply dict_get_set_same.
  - apply dict_get_set_other. intros ->. now rewrite pystr_eqb_refl in E.
Qed.

Lemma update_data_status (w : World) (llm_response : pystr) (m s : option value)
      (doc : document) :
  let doc' := dict_update doc (update_data w llm_response m s) in
  dict_get (u "status") doc' = Some (VStatus COMPLETED)
  /\ dict_get (u "processed_at") doc' = Some (VTime (utcnow w))
  /\ dict_get (u "llm_raw_response") doc' = Some (VStr llm_response)
  /\ dict_get (u "raw_text") doc' = dict_get (u "raw_text") doc
  /\ dict_get (u "page_count") doc' = dict_get (u "page_count") doc
  /\ dict_get (u "file_path") doc' = dict_get (u "file_path") doc.
Proof.
  cbv zeta. rewrite !dict_get_update. unfold update_data.
  destruct m as [m |]; [destruct (value_truthy w m) |];
    (destruct s as [s |]; [destruct (value_truthy w s) |]);
    repeat split; vm_compute; reflexivity.
Qed.

(** ** The processing task *)

(** What the [try] block leaves of a document that is in the database. *)
Lemma try_block_present (w : World) (doc_id : pystr) (db : InMemoryDB) (doc : document) :
  get db doc_id = Some doc ->
  exists doc1,
    get (fst (try_block w doc_id db)) doc_id = Some doc1
    /\ (forall other, other <> doc_id ->
                      get (fst (try_block w doc_id db)) other = get db other)
    /\ match snd (try_block w doc_id db) with
       | Returns _ =>
           dict_get (u "status") doc1 = Some (VStatus COMPLETED)
           /\ dict_get (u "processed_at") doc1 = Some (VTime (utcnow w))
           /\ exists text md response items,
                run_succeeds w doc text md response items
                /\ dict_get (u "raw_text") doc1 = Some (VStr text)
                /\ dict_get (u "page_count") doc1
                   = Some (VInt (Z.of_nat (total_pages md)))
                /\ dict_get (u "llm_raw_response") doc1 = Some (VStr response)
       | Raises e =>
           (forall text md response items, ~ run_succeeds w doc text md response items)
           /\ (forall text md response l,
                  run_answers w doc text md response ->
                  clean_llm_json (Some response) = Return (PyList l) ->
                  e = list_has_no_keys)
       end.
Proof.
  intros Hdoc. unfold try_block.
  destruct (update_present db doc_id
              (dict_items [(u "status", VStatus PROCESSING)]) doc Hdoc) as [Hg1 Ho1].
  set (db1 := fst (update db doc_id (dict_items [(u "status", VStatus PROCESSING)]))) in *.
  set (doc1 := dict_update doc (dict_items [(u "status", VStatus PROCESSING)])) in *.
  assert (Hpath : dict_get (u "file_path") doc1 = dict_get (u "file_path") doc).
  { subst doc1. rewrite dict_get_update. vm_compute. reflexivity. }
  assert (Hne : doc1 <> []) by apply dict_set_not_empty.
  rewrite Hg1.
  assert (Hfail : forall e : pystr,
            (forall text md response items, ~ run_succeeds w doc text md response items)
            /\ (forall text md response l,
                   run_answers w doc text md response ->
                   clean_llm_json (Some response) = Return (PyList l) ->
                   e = list_has_no_keys) ->
            exists d,
              get (fst (db1, @Raises unit e)) doc_id = Some d
              /\ (forall other, other <> doc_id ->
                                get (fst (db1, @Raises unit e)) other = get db other)
              /\ match snd (db1, @Raises unit e) with
                 | Returns _ =>
                     dict_get (u "status") d = Some (VStatus COMPLETED)
                     /\ dict_get (u "processed_at") d = Some (VTime (utcnow w))
                     /\ exists text md response items,
                          run_succeeds w doc text md response items
                          /\ dict_get (u "raw_text") d = Some (VStr text)
                          /\ dict_get (u "page_count") d
                             = Some (VInt (Z.of_nat (total_pages md)))
                          /\ dict_get (u "llm_raw_response") d = Some (VStr response)
                 | Raises e0 =>
                     (forall text md response items,
                         ~ run_succeeds w doc text md response items)
                     /\ (forall text md response l,
                            run_answers w doc text md response ->
                            clean_llm_json (Some response) = Return (PyList l) ->
                            e0 = list_has_no_keys)
                 end).
  { intros e He. exists doc1. split; [exact Hg1 |]. split; [exact Ho1 | exact He]. }
  destruct doc1 as [| entry doc1'] eqn:Edoc1; [contradiction |].
  rewrite <- Edoc1 in *. clear Edoc1 entry doc1'. rewrite Hpath.
  destruct (dict_get (u "file_path") doc) as [file_path |] eqn:Efp.
  2:{ apply Hfail. split.
      - intros text md r items [(fp & svc & F1 & _) _]. congruence.
      - intros text md r l (fp & svc & F1 & _) _. congruence. }
  destruct (value_truthy w file_path) eqn:Etruthy; cbn [negb].
  2:{ apply Hfail. split.
      - intros text md r items [(fp & svc & F1 & F2 & _) _]. congruence.
      - intros text md r l (fp & svc & F1 & F2 & _) _. congruence. }
  destruct (new_OCRService w) as [ocr_service | e] eqn:Eocr.
  2:{ apply Hfail. split.
      - intros text md r items [(fp & svc & _ & _ & (o & F3) & _) _]. congruence.
      - intros text md r l (fp & svc & _ & _ & (o & F3) & _) _. congruence. }
  destruct (new_LLMService w) as [llm_service | e] eqn:Ellm.
  2:{ apply Hfail. split.
      - intros text md r items [(fp & svc & _ & _ & _ & F4 & _) _]. congruence.
      - intros text md r l (fp & svc & _ & _ & _ & F4 & _) _. congruence. }
  destruct (process_pdf (file_at w file_path) None) as [[ocr_text ocr_metadata] | e] eqn:Epdf.
  2:{ apply Hfail. split.
      - intros text md r items [(fp & svc & F1 & _ & _ & _ & F5 & _) _]. congruence.
      - intros text md r l (fp & svc & F1 & _ & _ & _ & F5 & _) _. congruence. }
  set (saved := dict_items [(u "raw_text", VStr ocr_text);
                            (u "page_count", VInt (Z.of_nat (total_pages ocr_metadata)))]).
  destruct (update_present db1 doc_id saved doc1 Hg1) as [Hg2 Ho2].
  set (db2 := fst (update db1 doc_id saved)) in *.
  set (doc2 := dict_update doc1 saved) in *.
  assert (Hfail2 : forall e : pystr,
            (forall text md response items, ~ run_succeeds w doc text md response items)
            /\ (forall text md response l,
                   run_answers w doc text md response ->
                   clean_llm_json (Some response) = Return (PyList l) ->
                   e = list_has_no_keys) ->
            exists d,
              get (fst (db2, @Raises unit e)) doc_id = Some d
              /\ (forall other, other <> doc_id ->
                                get (fst (db2, @Raises unit e)) other = get db other)
              /\ (forall text md response items,
                     ~ run_succeeds w doc text md response items)
              /\ (forall text md response l,
                     run_answers w doc text md response ->
                     clean_llm_json (Some response) = Return (PyList l) ->
                     e = list_has_no_keys)).
  { intros e He. exists doc2. split; [exact Hg2 |]. split; [| exact He].
    intros other Hother. cbn [fst]. rewrite (Ho2 other Hother). now apply Ho1. }
  destruct (fst (extract_document_data llm_service ocr_text 15000))
    as [llm_response | e] eqn:Eext.
  2:{ apply Hfail2. split.
      - intros text md r items [(fp & svc & F1 & _ & _ & F4 & F5 & F6) _]. congruence.
      - intros text md r l (fp & svc & F1 & _ & _ & F4 & F5 & F6) _. congruence. }
  assert (Hanswers : run_answers w doc ocr_text ocr_metadata llm_response).
  { exists file_path, llm_service. repeat split; try assumption. now exists ocr_service. }
  assert (Hsame : forall text md r,
            run_answers w doc text md r ->
            text = ocr_text /\ md = ocr_metadata /\ r = llm_response).
  { intros text md r (fp & svc & F1 & _ & _ & F4 & F5 & F6).
    assert (fp = file_path) by congruence. assert (svc = llm_service) by congruence.
    subst fp svc. assert (E : (text, md) = (ocr_text, ocr_metadata)) by congruence.
    injection E as -> ->. split; [reflexivity |]. split; [reflexivity |]. congruence. }
  unfold parse_response.
  destruct (clean_llm_json (Some llm_response)) as [parsed_json | e] eqn:Eparse.
  2:{ apply Hfail2. split.
      - intros text md r items [Ha Hc]. destruct (Hsame _ _ _ Ha) as (_ & _ & ->).
        congruence.
      - intros text md r l Ha Hc. destruct (Hsame _ _ _ Ha) as (_ & _ & ->). congruence. }
  destruct parsed_json as [| b | n | literal | | negative | s | l | items];
    try (apply Hfail2; split;
         [ intros text md r items0 [Ha Hc]; destruct (Hsame _ _ _ Ha) as (_ & _ & ->);
           congruence
         | intros text md r l0 Ha Hc; destruct (Hsame _ _ _ Ha) as (_ & _ & ->);
           first [ congruence | vm_compute; reflexivity ] ]).
  destruct (validate w items) as [metadata_dict sections_list].
  set (final := update_data w llm_response metadata_dict sections_list).
  destruct (update_present db2 doc_id final doc2 Hg2) as [Hg3 Ho3].
  pose proof (update_data_status w llm_response metadata_dict sections_list doc2) as Hst.
  cbv zeta in Hst. fold final in Hst.
  destruct Hst as (S1 & S2 & S3 & S4 & S5 & _).
  exists (dict_update doc2 final). cbn [fst snd].
  split; [exact Hg3 |]. split.
  { intros other Hother. rewrite (Ho3 other Hother), (Ho2 other Hother). now apply Ho1. }
  split; [exact S1 |]. split; [exact S2 |].
  exists ocr_text, ocr_metadata, llm_response, items.
  split; [split; [exact Hanswers | exact Eparse] |].
  rewrite S4, S5.
  split; [| split; [| exact S3]];
    subst doc2 saved; rewrite dict_get_update; vm_compute; reflexivity.
Qed.


(** What the [except] clause leaves. *)
Lemma handler_status (w : World) (e : pystr) (doc : document) :
  let doc' := dict_update doc
                (dict_items [ (u "status", VStatus FAILED);
                              (u "error_message", VStr e);
                              (u "processed_at", VTime (utcnow w)) ]) in
  dict_get (u "status") doc' = Some (VStatus FAILED)
  /\ dict_get (u "error_message") doc' = Some (VStr e)
  /\ dict_get (u "processed_at") doc' = Some (VTime (utcnow w)).
Proof.
  cbv zeta. rewrite !dict_get_update. repeat split; vm_compute; reflexivity.
Qed.

(** The task on a document that is in the database. *)
Lemma process_document_background_present (w : World) (doc_id : pystr)
      (db : InMemoryDB) (doc : document) :
  get db doc_id = Some doc ->
  exists doc',
    get (process_document_background w doc_id db) doc_id = Some doc'
    /\ (forall other, other <> doc_id ->
                      get (process_document_background w doc_id db) other = get db other)
    /\ dict_get (u "processed_at") doc' = Some (VTime (utcnow w))
    /\ ((dict_get (u "status") doc' = Some (VStatus COMPLETED)
         /\ exists text md response items,
              run_succeeds w doc text md response items
              /\ dict_get (u "raw_text") doc' = Some (VStr text)
              /\ dict_get (u "page_count") doc' = Some (VInt (Z.of_nat (total_pages md)))
              /\ dict_get (u "llm_raw_response") doc' = Some (VStr response))
        \/ (exists e,
              dict_get (u "status") doc' = Some (VStatus FAILED)
              /\ dict_get (u "error_message") doc' = Some (VStr e)
              /\ (forall text md response items,
                     ~ run_succeeds w doc text md response items)
              /\ (forall text md response l,
                     run_answers w doc text md response ->
                     clean_llm_json (Some response) = Return (PyList l) ->
                     e = list_has_no_keys))).
Proof.
  intros Hdoc. unfold process_document_background.
  destruct (try_block_present w doc_id db doc Hdoc) as (doc1 & Hg & Ho & Hend).
  destruct (try_block w doc_id db) as [db1 [[] | e]]; cbn [fst snd] in Hg, Ho, Hend.
  - destruct Hend as (S1 & S2 & Hrun). exists doc1.
    split; [exact Hg |]. split; [exact Ho |]. split; [exact S2 |]. left.
    split; [exact S1 | exact Hrun].
  - set (data := dict_items [ (u "status", VStatus FAILED);
                              (u "error_message", VStr e);
                              (u "processed_at", VTime (utcnow w)) ]).
    destruct (update_present db1 doc_id data doc1 Hg) as [Hg' Ho'].
    destruct (handler_status w e doc1) as (S1 & S2 & S3).
    exists (dict_update doc1 data). split; [exact Hg' |]. split.
    { intros other Hother. rewrite (Ho' other Hother). now apply Ho. }
    split; [exact S3 |]. right. exists e.
    split; [exact S1 |]. split; [exact S2 | exact Hend].
Qed.

Lemma process_document_background_absent (w : World) (doc_id : pystr) (db : InMemoryDB) :
  get db doc_id = None -> process_document_background w doc_id db = db.
Proof.
  intros Hdoc. unfold process_document_background, try_block.
  rewrite update_absent by exact Hdoc. rewrite Hdoc. now apply update_absent.
Qed.

(** X18: the task never leaves a document in the PROCESSING state.  For a
    document that is in the database it ends with the status COMPLETED,
    or with the status FAILED and an error message, and sets
    [processed_at] in both cases; the records of the other documents are
    not touched; and for a document that is not in the database nothing
    is changed at all. *)
Theorem process_document_background_status (w : World) (doc_id : pystr)
        (db : InMemoryDB) :
  (forall other, other <> doc_id ->
                 get (process_document_background w doc_id db) other = get db other)
  /\ (get db doc_id = None -> process_document_background w doc_id db = db)
  /\ (forall doc, get db doc_id = Some doc ->
        exists doc',
          get (process_document_background w doc_id db) doc_id = Some doc'
          /\ dict_get (u "processed_at") doc' = Some (VTime (utcnow w))
          /\ (dict_get (u "status") doc' = Some (VStatus COMPLETED)
              \/ (dict_get (u "status") doc' = Some (VStatus FAILED)
                  /\ exists e, dict_get (u "error_message") doc' = Some (VStr e)))).
Proof.
  split; [| split].
  - intros other Hother. destruct (get db doc_id) as [doc |] eqn:Hdoc.
    + destruct (process_document_background_present w doc_id db doc Hdoc)
        as (doc' & _ & Ho & _).
      now apply Ho.
    + now rewrite process_document_background_absent.
  - apply process_document_background_absent.
  - intros doc Hdoc.
    destruct (process_document_background_present w doc_id db doc Hdoc)
      as (doc' & Hg & _ & Ht & Hs).
    exists doc'. split; [exact Hg |]. split; [exact Ht |].
    destruct Hs as [[S1 _] | (e & S1 & S2 & _)]; [left; exact S1 | right].
    split; [exact S1 | now exists e].
Qed.

Lemma process_document_background_status_witness :
  get (create [] (u "doc_1") uploaded_record) (u "doc_1") = Some uploaded_record
  /\ exists doc',
       get (process_document_background (world_with (u "no JSON here"))
              (u "doc_1") (create [] (u "doc_1") uploaded_record)) (u "doc_1")
       = Some doc'
       /\ dict_get (u "status") doc' = Some (VStatus FAILED).
Proof.
  assert (Hdoc : get (create [] (u "doc_1") uploaded_record) (u "doc_1")
                 = Some uploaded_record) by (vm_compute; reflexivity).
  split; [exact Hdoc |].
  destruct (process_document_background_status (world_with (u "no JSON here"))
              (u "doc_1") (create [] (u "doc_1") uploaded_record)) as (_ & _ & H).
  destruct (H uploaded_record Hdoc) as (doc' & Hg & _ & Hs).
  exists doc'. split; [exact Hg |].
  destruct Hs as [Hs | [Hs _]]; [| exact Hs].
  exfalso. vm_compute in Hg. injection Hg as <-. vm_compute in Hs. discriminate Hs.
Defined.


